(** * mailtm_server: the session store and the ten tools

    A shallow embedding of [mailtm_server.py].  The Python module keeps one
    global dictionary [_session], one file [SESSION_FILE], and talks to the
    remote API through [requests].  Here the dictionary, the file, the
    answers of the remote API, the failures of the file system and the
    draws of [random.choices] are the components of an explicit [world];
    every Python function becomes a computation over that world which
    either returns a value or raises an exception, the world changes made
    before the exception being kept, as in Python.

    Not modelled: the [logger] calls (they only write to stderr) and the
    MCP transport. *)

From Stdlib Require Import String Ascii List ZArith Bool Lia.
Import ListNotations.
Local Open Scope string_scope.
Local Open Scope Z_scope.

Set Warnings "-register-all".

(** ** JSON values as Python sees them

    [resp.json()] and [json.load] return [None], [bool], [int], [str],
    [list] and [dict] values.  A [JObj] lists the members of the Python
    dict in insertion order.  Numbers are integers; a character of a
    string is a code point below 256. *)

Inductive json : Type :=
| JNull
| JBool (b : bool)
| JNum (n : Z)
| JStr (s : string)
| JArr (items : list json)
| JObj (members : list (string * json)).

(** The exceptions that can arise, by Python class, each with what
    [str(e)] shows. *)
Inductive exn : Type :=
| RequestException (msg : string)   (* connection error, timeout *)
| HTTPError (msg : string)          (* raise_for_status *)
| JSONDecodeError (msg : string)    (* resp.json(), json.load *)
| KeyError (shown : string)
| IndexError (msg : string)
| TypeError (msg : string)
| AttributeError (msg : string)
| OSError (msg : string).

Definition exn_str (e : exn) : string :=
  match e with
  | RequestException m | HTTPError m | JSONDecodeError m | KeyError m
  | IndexError m | TypeError m | AttributeError m | OSError m => m
  end.

Inductive result (A : Type) : Type :=
| Ok (a : A)
| Raise (e : exn).
Arguments Ok {A} a.
Arguments Raise {A} e.

(** *** Text of integers: [str(n)] *)

Definition digit_char (d : nat) : ascii := ascii_of_nat (48 + d).

Fixpoint dec_digits (fuel n : nat) (acc : string) : string :=
  match fuel with
  | O => acc
  | S fuel' =>
      let acc' := String (digit_char (Nat.modulo n 10)) acc in
      match Nat.div n 10 with
      | O => acc'
      | q => dec_digits fuel' q acc'
      end
  end.

Definition dec_nat (n : nat) : string := dec_digits (S n) n "".

Definition dec_Z (z : Z) : string :=
  match z with
  | Z0 => "0"
  | Zpos p => dec_nat (Pos.to_nat p)
  | Zneg p => "-" ++ dec_nat (Pos.to_nat p)
  end.

(** *** Python's built-in operations on these values *)

(** [type(x).__name__] *)
Definition type_name (j : json) : string :=
  match j with
  | JNull => "NoneType"
  | JBool _ => "bool"
  | JNum _ => "int"
  | JStr _ => "str"
  | JArr _ => "list"
  | JObj _ => "dict"
  end.

(** [bool(x)]: what [if x] and [not x] test. *)
Definition truthy (j : json) : bool :=
  match j with
  | JNull => false
  | JBool b => b
  | JNum n => negb (n =? 0)
  | JStr s => negb (String.eqb s "")
  | JArr l => match l with [] => false | _ => true end
  | JObj m => match m with [] => false | _ => true end
  end.

Fixpoint dict_get (m : list (string * json)) (k : string) : option json :=
  match m with
  | [] => None
  | (k', v) :: rest => if String.eqb k' k then Some v else dict_get rest k
  end.

(** [x.get(key, default)] *)
Definition py_get (x : json) (key : string) (default : json) : result json :=
  match x with
  | JObj m => Ok (match dict_get m key with Some v => v | None => default end)
  | _ => Raise (AttributeError
                  ("'" ++ type_name x ++ "' object has no attribute 'get'"))
  end.

(** [x[key]] for one of the literal string keys of the program. *)
Definition py_item (x : json) (key : string) : result json :=
  match x with
  | JObj m => match dict_get m key with
              | Some v => Ok v
              | None => Raise (KeyError ("'" ++ key ++ "'"))
              end
  | JArr _ => Raise (TypeError "list indices must be integers or slices, not str")
  | JStr _ => Raise (TypeError "string indices must be integers, not 'str'")
  | _ => Raise (TypeError ("'" ++ type_name x ++ "' object is not subscriptable"))
  end.

(** [x[0]] *)
Definition py_first (x : json) : result json :=
  match x with
  | JArr (a :: _) => Ok a
  | JArr [] => Raise (IndexError "list index out of range")
  | JStr (String c _) => Ok (JStr (String c ""))
  | JStr EmptyString => Raise (IndexError "string index out of range")
  | JObj _ => Raise (KeyError "0")
  | _ => Raise (TypeError ("'" ++ type_name x ++ "' object is not subscriptable"))
  end.

Fixpoint chars_of (s : string) : list json :=
  match s with
  | EmptyString => []
  | String c rest => JStr (String c "") :: chars_of rest
  end.

(** [for d in x]: the items the loop visits. *)
Definition py_iter (x : json) : result (list json) :=
  match x with
  | JArr l => Ok l
  | JObj m => Ok (map (fun kv => JStr (fst kv)) m)
  | JStr s => Ok (chars_of s)
  | _ => Raise (TypeError ("'" ++ type_name x ++ "' object is not iterable"))
  end.

(** Python's rendering of the values whose text this development does not
    compute: the [repr] of a list or dict inside an f-string, and the
    float arithmetic and [:.1f] format of the storage percentage. *)
Class PyText : Type := {
  repr_container : json -> string;
  (* f"{used / quota * 100:.1f}" for integers, quota <> 0: the text, or
     the OverflowError of an integer beyond the range of a float *)
  percent_1f : Z -> Z -> result string
}.

Section Rendering.
Context {text : PyText}.

(** [str(x)], what an f-string puts in place of [{x}]. *)
Definition py_str (j : json) : string :=
  match j with
  | JNull => "None"
  | JBool true => "True"
  | JBool false => "False"
  | JNum n => dec_Z n
  | JStr s => s
  | JArr _ | JObj _ => repr_container j
  end.

End Rendering.

(** *** Text helpers *)

Definition nl : string := String (ascii_of_nat 10) "".

(** [sep.join(parts)] for parts that are already [str]. *)
Fixpoint join (sep : string) (parts : list string) : string :=
  match parts with
  | [] => ""
  | [p] => p
  | p :: rest => p ++ sep ++ join sep rest
  end.

(** [c * n] *)
Fixpoint repeat_str (c : string) (n : nat) : string :=
  match n with
  | O => ""
  | S n' => c ++ repeat_str c n'
  end.

(** [str.isspace] on one code point below 256. *)
Definition is_space (c : ascii) : bool :=
  let n := nat_of_ascii c in
  (((9 <=? n) && (n <=? 13)) || ((28 <=? n) && (n <=? 32))
   || (n =? 133) || (n =? 160))%nat.

(** [s.rstrip()] *)
Fixpoint rstrip (s : string) : string :=
  match s with
  | EmptyString => EmptyString
  | String c rest =>
      match rstrip rest with
      | EmptyString => if is_space c then EmptyString else String c EmptyString
      | kept => String c kept
      end
  end.

(** ** The world *)

(** The type of [_session]: the dict is created with the keys ["token"],
    ["account_id"] and ["address"] and no statement removes a key, so the
    three are fields; [extras] holds any further key that
    [_session.update(data)] brought in from the file, in insertion
    order. *)
Record session : Type := {
  token : json;
  account_id : json;
  address : json;
  extras : list (string * json)
}.

Definition empty_session : session :=
  {| token := JNull; account_id := JNull; address := JNull; extras := [] |}.

(** What [SESSION_FILE] holds when it exists: a JSON object, as
    [_save_session] writes it, or content on which the [try] block of
    [_load_session] raises before [update] has set a key (an empty or
    cut-off file, other text that is not JSON, a JSON number, [null],
    ...). *)
Inductive stored : Type :=
| Members (m : list (string * json))
| Unusable.

Inductive verb : Type := GET | POST | PATCH | DELETE.

Record request : Type := {
  rq_verb : verb;
  rq_url : string;
  rq_json : option json;
  rq_headers : list (string * string)
}.

(** What the remote API sends back: [resp.url], the address the reply
    came from, as [requests] prepared it (percent-encoded) and after any
    redirect it followed; [resp.status_code], [resp.reason]; and the body,
    either the value [resp.json()] returns or the message of the error it
    raises. *)
Record reply : Type := {
  url : string;
  status_code : Z;
  reason : string;
  payload : string + json
}.

(** One call of [requests]: a reply, or the transport fails. *)
Inductive http_outcome : Type :=
| Answer (r : reply)
| Fails (msg : string).

(** - [_session]: the global dict of the module;
    - [file]: what [SESSION_FILE] holds, [None] when it does not exist;
    - [remote]: what the next calls of [requests] will meet, in order; a
      list that has run out stands for a remote that no longer answers;
    - [sent]: the requests performed so far;
    - [faults]: whether the next steps of the file system raise [OSError]
      ([true]), in order: an [open], an [os.remove], the writing into a
      file just opened; none once the list has run out;
    - [draws]: the next outcomes of the random generator. *)
Record world : Type := {
  _session : session;
  file : option stored;
  remote : list http_outcome;
  sent : list request;
  faults : list bool;
  draws : list nat
}.

Definition with_session (s : session) (w : world) : world :=
  {| _session := s; file := file w; remote := remote w; sent := sent w;
     faults := faults w; draws := draws w |}.

Definition with_file (f : option stored) (w : world) : world :=
  {| _session := _session w; file := f; remote := remote w; sent := sent w;
     faults := faults w; draws := draws w |}.

(** ** Computations: state and exceptions *)

Definition M (A : Type) : Type := world -> result A * world.

Definition ret {A} (a : A) : M A := fun w => (Ok a, w).

Definition bind {A B} (m : M A) (k : A -> M B) : M B :=
  fun w => match m w with
           | (Ok a, w') => k a w'
           | (Raise e, w') => (Raise e, w')
           end.

Definition raise {A} (e : exn) : M A := fun w => (Raise e, w).

(** [try: body / except Exception as e: handler] *)
Definition try_except {A} (body : M A) (handler : exn -> M A) : M A :=
  fun w => match body w with
           | (Ok a, w') => (Ok a, w')
           | (Raise e, w') => handler e w'
           end.

(** A value computed without touching the world. *)
Definition lift {A} (r : result A) : M A := fun w => (r, w).

Definition rbind {A B} (r : result A) (k : A -> result B) : result B :=
  match r with
  | Ok a => k a
  | Raise e => Raise e
  end.

Declare Scope py_scope.
Delimit Scope py_scope with py.
Notation "x <- m ;; k" := (bind m (fun x => k))
  (at level 61, m at next level, right associativity) : py_scope.
Notation "m ;; k" := (bind m (fun _ => k))
  (at level 61, right associativity) : py_scope.
Notation "x <~ r ;; k" := (rbind r (fun x => k))
  (at level 61, r at next level, right associativity) : py_scope.
Local Open Scope py_scope.

Fixpoint traverse {A B} (f : A -> result B) (l : list A) : result (list B) :=
  match l with
  | [] => Ok []
  | a :: rest =>
      b <~ f a ;;
      bs <~ traverse f rest ;;
      Ok (b :: bs)
  end.

Definition get_session : M session := fun w => (Ok (_session w), w).
Definition set_session (s : session) : M unit := fun w => (Ok tt, with_session s w).

(** ** The collaborators: [requests], the file system, [random] *)

Definition BASE_URL : string := "https://api.mail.tm".

(** [requests.get/post/patch/delete(url, ..., timeout=10)] *)
Definition http (rq : request) : M reply :=
  fun w =>
    let w' rest := {| _session := _session w; file := file w; remote := rest;
                      sent := sent w ++ [rq]; faults := faults w;
                      draws := draws w |} in
    match remote w with
    | [] => (Raise (RequestException "Read timed out."), w' [])
    | Answer r :: rest => (Ok r, w' rest)
    | Fails msg :: rest => (Raise (RequestException msg), w' rest)
    end.

(** [resp.raise_for_status()]: the error names [resp.url]. *)
Definition raise_for_status (r : reply) : M unit :=
  let code := status_code r in
  if (400 <=? code) && (code <? 500) then
    raise (HTTPError (dec_Z code ++ " Client Error: " ++ reason r
                        ++ " for url: " ++ url r))
  else if (500 <=? code) && (code <? 600) then
    raise (HTTPError (dec_Z code ++ " Server Error: " ++ reason r
                        ++ " for url: " ++ url r))
  else ret tt.

(** [resp.json()] *)
Definition resp_json (r : reply) : M json :=
  match payload r with
  | inl msg => raise (JSONDecodeError msg)
  | inr j => ret j
  end.

(** The next decision of the file system: does this step ([open],
    [os.remove], writing into the open file) raise? *)
Definition fs_step (what : string) : M unit :=
  fun w =>
    let w' rest := {| _session := _session w; file := file w; remote := remote w;
                      sent := sent w; faults := rest; draws := draws w |} in
    match faults w with
    | [] => (Ok tt, w)
    | false :: rest => (Ok tt, w' rest)
    | true :: rest => (Raise (OSError what), w' rest)
    end.

(** [os.path.exists(SESSION_FILE)] *)
Definition path_exists : M bool :=
  fun w => (Ok (match file w with Some _ => true | None => false end), w).

(** [with open(SESSION_FILE, "r") as f: json.load(f)], the value being one
    [_session.update] accepts. *)
Definition read_record : M (list (string * json)) :=
  fs_step "[Errno 13] Permission denied: '/tmp/mailtm_session.json'" ;;
  fun w => match file w with
           | Some (Members m) => (Ok m, w)
           | Some Unusable =>
               (Raise (JSONDecodeError "Expecting value: line 1 column 1 (char 0)"), w)
           | None =>
               (Raise (OSError "[Errno 2] No such file or directory: '/tmp/mailtm_session.json'"), w)
           end.

(** [with open(SESSION_FILE, "w") as f: json.dump(d, f)].  When [open]
    raises, the file is left as it was.  Once opened in mode ["w"] the
    file is empty; when the writing then raises, it stays empty or holds
    the beginning of the text, which [json.load] cannot parse. *)
Definition write_record (m : list (string * json)) : M unit :=
  fs_step "[Errno 13] Permission denied: '/tmp/mailtm_session.json'" ;;
  (fun w => (Ok tt, with_file (Some Unusable) w)) ;;
  fs_step "[Errno 28] No space left on device" ;;
  fun w => (Ok tt, with_file (Some (Members m)) w).

(** [os.remove(SESSION_FILE)] *)
Definition remove_record : M unit :=
  fs_step "[Errno 1] Operation not permitted: '/tmp/mailtm_session.json'" ;;
  fun w => (Ok tt, with_file None w).

(** One pick of [random.choices(population, k=...)]. *)
Definition pick (population : string) : M ascii :=
  fun w =>
    let at_ (d : nat) :=
      match String.get (Nat.modulo d (String.length population)) population with
      | Some c => c
      | None => zero
      end in
    match draws w with
    | [] => (Ok (at_ O), w)
    | d :: rest =>
        (Ok (at_ d),
         {| _session := _session w; file := file w; remote := remote w; sent := sent w;
            faults := faults w; draws := rest |})
    end.

(** [''.join(random.choices(population, k=k))] *)
Fixpoint random_text (population : string) (k : nat) : M string :=
  match k with
  | O => ret ""
  | S k' =>
      c <- pick population ;;
      rest <- random_text population k' ;;
      ret (String c rest)
  end.

Definition ascii_lowercase : string := "abcdefghijklmnopqrstuvwxyz".
Definition ascii_uppercase : string := "ABCDEFGHIJKLMNOPQRSTUVWXYZ".
Definition ascii_letters : string := ascii_lowercase ++ ascii_uppercase.
Definition digits : string := "0123456789".

(** ** The session store *)

(** [d[k] = v] on a dict kept as a list of members. *)
Fixpoint dict_set (k : string) (v : json) (m : list (string * json))
  : list (string * json) :=
  match m with
  | [] => [(k, v)]
  | (k', v') :: rest =>
      if String.eqb k' k then (k, v) :: rest else (k', v') :: dict_set k v rest
  end.

(** [_session[k] = v] *)
Definition set_key (k : string) (v : json) (s : session) : session :=
  if String.eqb k "token" then
    {| token := v; account_id := account_id s; address := address s;
       extras := extras s |}
  else if String.eqb k "account_id" then
    {| token := token s; account_id := v; address := address s;
       extras := extras s |}
  else if String.eqb k "address" then
    {| token := token s; account_id := account_id s; address := v;
       extras := extras s |}
  else
    {| token := token s; account_id := account_id s; address := address s;
       extras := dict_set k v (extras s) |}.

(** [_session.update(data)] *)
Definition session_update (data : list (string * json)) (s : session) : session :=
  fold_left (fun acc kv => set_key (fst kv) (snd kv) acc) data s.

(** The members of [_session], as [json.dump] writes them. *)
Definition session_items (s : session) : list (string * json) :=
  ("token", token s) :: ("account_id", account_id s)
    :: ("address", address s) :: extras s.

Definition _load_session : M unit :=
  present <- path_exists ;;
  if (present : bool) then
    try_except
      (data <- read_record ;;
       s <- get_session ;;
       set_session (session_update data s))
      (fun _ => ret tt)
  else ret tt.

Definition _save_session : M unit :=
  try_except
    (s <- get_session ;;
     write_record (session_items s))
    (fun _ => ret tt).

Definition _clear_session : M unit :=
  s <- get_session ;;
  set_session (session_update
             [("token", JNull); ("account_id", JNull); ("address", JNull)] s) ;;
  try_except
    (present <- path_exists ;;
     if (present : bool) then remove_record else ret tt)
    (fun _ => ret tt).

Section Tools.
Context {text : PyText}.

Definition _auth_headers : M (list (string * string)) :=
  _load_session ;;
  s <- get_session ;;
  if truthy (token s) then
    ret [("Authorization", "Bearer " ++ py_str (token s))]
  else ret [].

Definition no_session_message : string :=
  "No active session. Use create_temp_email or login first.".

(** Returns the error string if there is no active session, else [None]. *)
Definition _require_session : M (option string) :=
  _load_session ;;
  s <- get_session ;;
  if negb (truthy (token s)) then ret (Some no_session_message)
  else ret None.

(** *** The tools

    Every tool is [try: body / except Exception as e: return f"Error ...:
    {e}"], some after a session check made before the [try]. *)

Definition request_ (v : verb) (url : string) (body : option json)
    (headers : list (string * string)) : request :=
  {| rq_verb := v; rq_url := url; rq_json := body; rq_headers := headers |}.

(** [_session[k] = v] as a step of a tool. *)
Definition assign (k : string) (v : json) : M unit :=
  s <- get_session ;;
  set_session (set_key k v s).

Definition domain_line (d : json) : result string :=
  v <~ py_item d "domain" ;;
  Ok ("  - " ++ py_str v).

Definition list_domains_body : M string :=
  let url := BASE_URL ++ "/domains" in
  resp <- http (request_ GET url None []) ;;
  raise_for_status resp ;;
  body <- resp_json resp ;;
  domains <- lift (py_get body "hydra:member" (JArr [])) ;;
  if negb (truthy domains) then ret "No domains available at the moment."
  else
    items <- lift (py_iter domains) ;;
    lines <- lift (traverse domain_line items) ;;
    ret ("Available domains:" ++ nl ++ join nl lines).

Definition list_domains : M string :=
  try_except list_domains_body
    (fun e => ret ("Error listing domains: " ++ exn_str e)).

Definition credentials (addr password : string) : json :=
  JObj [("address", JStr addr); ("password", JStr password)].

(** The [if not address:] block of [create_temp_email]: the reply it
    returns at once ([inl]) or the address to go on with ([inr]). *)
Definition choose_address (addr : string) : M (string + string) :=
  if String.eqb addr "" then
    let url := BASE_URL ++ "/domains" in
    resp <- http (request_ GET url None []) ;;
    raise_for_status resp ;;
    body <- resp_json resp ;;
    domains <- lift (py_get body "hydra:member" (JArr [])) ;;
    if negb (truthy domains) then
      ret (inl "No domains available to create an account.")
    else
      username <- random_text (ascii_lowercase ++ digits) 10 ;;
      first <- lift (py_first domains) ;;
      domain <- lift (py_item first "domain") ;;
      ret (inr (username ++ "@" ++ py_str domain))
  else ret (inr addr).

(** The [if not password:] block. *)
Definition choose_password (password : string) : M string :=
  if String.eqb password "" then
    random_text (ascii_letters ++ digits ++ "!@#$%") 16
  else ret password.

(** The four statements that record the new credentials, shared by
    [create_temp_email] and [login]. *)
Definition establish (data : json) (addr : string) : M unit :=
  tok <- lift (py_item data "token") ;;
  assign "token" tok ;;
  id <- lift (py_item data "id") ;;
  assign "account_id" id ;;
  assign "address" (JStr addr) ;;
  _save_session.

Definition taken_message (addr : string) : string :=
  "Error: Address '" ++ addr ++ "' is already taken or invalid. Try a different one.".

Definition created_message (addr password : string) (id : json) : string :=
  "Temporary email created!" ++ nl ++
  "Address:  " ++ addr ++ nl ++
  "Password: " ++ password ++ nl ++
  "Account ID: " ++ py_str id ++ nl ++ nl ++
  "Session is active. Use get_inbox() to check messages.".

(** From "Create the account" to the end of the [try] block, with the
    address and password settled. *)
Definition register (addr password : string) : M string :=
  let url := BASE_URL ++ "/accounts" in
  resp <- http (request_ POST url (Some (credentials addr password)) []) ;;
  if status_code resp =? 422 then ret (taken_message addr)
  else
    raise_for_status resp ;;
    account <- resp_json resp ;;
    let url := BASE_URL ++ "/token" in
    resp <- http (request_ POST url (Some (credentials addr password)) []) ;;
    raise_for_status resp ;;
    data <- resp_json resp ;;
    establish data addr ;;
    id <- lift (py_item data "id") ;;
    ret (created_message addr password id).

Definition create_temp_email_body (addr password : string) : M string :=
  chosen <- choose_address addr ;;
  match chosen with
  | inl msg => ret msg
  | inr addr =>
      password <- choose_password password ;;
      register addr password
  end.

Definition create_temp_email (addr password : string) : M string :=
  try_except (create_temp_email_body addr password)
    (fun e => ret ("Error creating email: " ++ exn_str e)).

Definition login_failed_message : string :=
  "Login failed: invalid address or password.".

Definition logged_in_message (addr : string) : string :=
  "Logged in as " ++ addr ++ ". Session active.".

Definition login_body (addr password : string) : M string :=
  let url := BASE_URL ++ "/token" in
  resp <- http (request_ POST url (Some (credentials addr password)) []) ;;
  if status_code resp =? 401 then ret login_failed_message
  else
    raise_for_status resp ;;
    data <- resp_json resp ;;
    establish data addr ;;
    ret (logged_in_message addr).

Definition login (addr password : string) : M string :=
  try_except (login_body addr password)
    (fun e => ret ("Error logging in: " ++ exn_str e)).

(** The four lines one message adds to the inbox listing. *)
Definition inbox_entry (m : json) : result (list string) :=
  sender <~ py_get m "from" (JObj []) ;;
  from_addr <~ py_get sender "address" (JStr "unknown") ;;
  subject <~ py_get m "subject" (JStr "(no subject)") ;;
  seen <~ py_get m "seen" JNull ;;
  let status := if negb (truthy seen) then "UNREAD" else "read" in
  msg_id <~ py_get m "id" (JStr "") ;;
  Ok ["[" ++ status ++ "] " ++ py_str subject;
      "  From: " ++ py_str from_addr;
      "  ID:   " ++ py_str msg_id;
      ""].

Definition get_inbox_body (page : Z) : M string :=
  let url := BASE_URL ++ "/messages?page=" ++ dec_Z page in
  headers <- _auth_headers ;;
  resp <- http (request_ GET url None headers) ;;
  raise_for_status resp ;;
  body <- resp_json resp ;;
  messages <- lift (py_get body "hydra:member" (JArr [])) ;;
  total <- lift (py_get body "hydra:totalItems" (JNum 0)) ;;
  s <- get_session ;;
  if negb (truthy messages) then
    ret ("Inbox is empty for " ++ py_str (address s) ++ ".")
  else
    items <- lift (py_iter messages) ;;
    entries <- lift (traverse inbox_entry items) ;;
    ret (rstrip (join nl
           (("Inbox: " ++ py_str (address s) ++ " | " ++ py_str total
               ++ " message(s) total | Page " ++ dec_Z page)
            :: repeat_str "-" 60
            :: concat entries))).

Definition get_inbox (page : Z) : M string :=
  err <- _require_session ;;
  match err with
  | Some msg => ret msg
  | None =>
      try_except (get_inbox_body page)
        (fun e => ret ("Error fetching inbox: " ++ exn_str e))
  end.

(** [sep.join(items)]: every item must be a [str]. *)
Fixpoint py_join_from (i : nat) (sep : string) (items : list json)
  : result string :=
  match items with
  | [] => Ok ""
  | JStr p :: rest =>
      match rest with
      | [] => Ok p
      | _ => tail_ <~ py_join_from (S i) sep rest ;; Ok (p ++ sep ++ tail_)
      end
  | other :: _ =>
      Raise (TypeError ("sequence item " ++ dec_nat i
                          ++ ": expected str instance, " ++ type_name other
                          ++ " found"))
  end.

Definition py_join (sep : string) (items : list json) : result string :=
  py_join_from 0 sep items.

(** [text if text else (html[0] if html else "(no body)")] *)
Definition choose_body (text_ html : json) : result json :=
  if truthy text_ then Ok text_
  else if truthy html then py_first html
  else Ok (JStr "(no body)").

(** The text [read_email] builds from the message [m]. *)
Definition render_message (message_id : string) (m : json) : result string :=
  sender <~ py_get m "from" (JObj []) ;;
  from_addr <~ py_get sender "address" (JStr "unknown") ;;
  subject <~ py_get m "subject" (JStr "(no subject)") ;;
  recipients <~ py_get m "to" (JArr []) ;;
  rs <~ py_iter recipients ;;
  to_list <~ traverse (fun r => py_get r "address" (JStr "")) rs ;;
  date <~ py_get m "createdAt" (JStr "") ;;
  text_ <~ py_get m "text" (JStr "") ;;
  html <~ py_get m "html" (JArr [JStr ""]) ;;
  body <~ choose_body text_ html ;;
  to_line <~ py_join ", " to_list ;;
  Ok ("From:    " ++ py_str from_addr ++ nl ++
      "To:      " ++ to_line ++ nl ++
      "Subject: " ++ py_str subject ++ nl ++
      "Date:    " ++ py_str date ++ nl ++
      "ID:      " ++ message_id ++ nl ++
      repeat_str "-" 60 ++ nl ++
      py_str body).

Definition not_found_message (message_id : string) : string :=
  "Message '" ++ message_id ++ "' not found.".

Definition read_email_body (message_id : string) : M string :=
  let url := BASE_URL ++ "/messages/" ++ message_id in
  headers <- _auth_headers ;;
  resp <- http (request_ GET url None headers) ;;
  if status_code resp =? 404 then ret (not_found_message message_id)
  else
    raise_for_status resp ;;
    m <- resp_json resp ;;
    lift (render_message message_id m).

Definition read_email (message_id : string) : M string :=
  err <- _require_session ;;
  match err with
  | Some msg => ret msg
  | None =>
      try_except (read_email_body message_id)
        (fun e => ret ("Error reading email: " ++ exn_str e))
  end.

Definition mark_as_read_body (message_id : string) : M string :=
  let url := BASE_URL ++ "/messages/" ++ message_id in
  headers <- _auth_headers ;;
  resp <- http (request_ PATCH url (Some (JObj [("seen", JBool true)])) headers) ;;
  if status_code resp =? 404 then ret (not_found_message message_id)
  else
    raise_for_status resp ;;
    ret ("Message '" ++ message_id ++ "' marked as read.").

Definition mark_as_read (message_id : string) : M string :=
  err <- _require_session ;;
  match err with
  | Some msg => ret msg
  | None =>
      try_except (mark_as_read_body message_id)
        (fun e => ret ("Error marking as read: " ++ exn_str e))
  end.

Definition delete_email_body (message_id : string) : M string :=
  let url := BASE_URL ++ "/messages/" ++ message_id in
  headers <- _auth_headers ;;
  resp <- http (request_ DELETE url None headers) ;;
  if status_code resp =? 404 then ret (not_found_message message_id)
  else if status_code resp =? 204 then
    ret ("Message '" ++ message_id ++ "' deleted.")
  else
    raise_for_status resp ;;
    ret ("Message '" ++ message_id ++ "' deleted.").

Definition delete_email (message_id : string) : M string :=
  err <- _require_session ;;
  match err with
  | Some msg => ret msg
  | None =>
      try_except (delete_email_body message_id)
        (fun e => ret ("Error deleting email: " ++ exn_str e))
  end.

(** The operand of [/] as a number: an [int], or a [bool] as 0 or 1. *)
Definition as_number (j : json) : option Z :=
  match j with
  | JNum n => Some n
  | JBool b => Some (if b then 1 else 0)
  | _ => None
  end.

(** [pct = (used / quota * 100) if quota else 0], shown with [:.1f]. *)
Definition usage_percent (used quota : json) : result string :=
  if truthy quota then
    match as_number used, as_number quota with
    | Some u, Some q => percent_1f u q
    | _, _ =>
        Raise (TypeError ("unsupported operand type(s) for /: '"
                            ++ type_name used ++ "' and '"
                            ++ type_name quota ++ "'"))
    end
  else Ok "0.0".

Definition render_account (m : json) : result string :=
  quota <~ py_get m "quota" (JNum 0) ;;
  used <~ py_get m "used" (JNum 0) ;;
  pct <~ usage_percent used quota ;;
  addr <~ py_get m "address" (JStr "N/A") ;;
  id <~ py_get m "id" (JStr "N/A") ;;
  created <~ py_get m "createdAt" (JStr "N/A") ;;
  updated <~ py_get m "updatedAt" (JStr "N/A") ;;
  Ok ("Account:  " ++ py_str addr ++ nl ++
      "ID:       " ++ py_str id ++ nl ++
      "Storage:  " ++ py_str used ++ " / " ++ py_str quota ++ " bytes ("
        ++ pct ++ "% used)" ++ nl ++
      "Created:  " ++ py_str created ++ nl ++
      "Updated:  " ++ py_str updated).

Definition get_account_info_body : M string :=
  let url := BASE_URL ++ "/me" in
  headers <- _auth_headers ;;
  resp <- http (request_ GET url None headers) ;;
  raise_for_status resp ;;
  m <- resp_json resp ;;
  lift (render_account m).

Definition get_account_info : M string :=
  err <- _require_session ;;
  match err with
  | Some msg => ret msg
  | None =>
      try_except get_account_info_body
        (fun e => ret ("Error getting account info: " ++ exn_str e))
  end.

Definition account_deleted_message (addr : json) : string :=
  "Account '" ++ py_str addr ++ "' permanently deleted. Session cleared.".

Definition delete_account_body (acc addr : json) : M string :=
  let url := BASE_URL ++ "/accounts/" ++ py_str acc in
  headers <- _auth_headers ;;
  resp <- http (request_ DELETE url None headers) ;;
  if status_code resp =? 204 then
    _clear_session ;;
    ret (account_deleted_message addr)
  else
    raise_for_status resp ;;
    ret "Account deletion failed.".

Definition delete_account : M string :=
  err <- _require_session ;;
  match err with
  | Some msg => ret msg
  | None =>
      s <- get_session ;;
      try_except (delete_account_body (account_id s) (address s))
        (fun e => ret ("Error deleting account: " ++ exn_str e))
  end.

Definition logged_out_message (addr : json) : string :=
  "Logged out. Session for '" ++ py_str addr ++ "' cleared.".

Definition logout : M string :=
  _load_session ;;
  s <- get_session ;;
  let addr := if truthy (address s) then address s else JStr "unknown" in
  _clear_session ;;
  ret (logged_out_message addr).

(** *** The tool boundary: a tool name with its arguments *)

Inductive call : Type :=
| ListDomains
| CreateTempEmail (addr password : string)
| Login (addr password : string)
| GetInbox (page : Z)
| ReadEmail (message_id : string)
| MarkAsRead (message_id : string)
| DeleteEmail (message_id : string)
| GetAccountInfo
| DeleteAccount
| Logout.

Definition run (c : call) : M string :=
  match c with
  | ListDomains => list_domains
  | CreateTempEmail a p => create_temp_email a p
  | Login a p => login a p
  | GetInbox page => get_inbox page
  | ReadEmail i => read_email i
  | MarkAsRead i => mark_as_read i
  | DeleteEmail i => delete_email i
  | GetAccountInfo => get_account_info
  | DeleteAccount => delete_account
  | Logout => logout
  end.

End Tools.

(** A stand-in rendering, to run the tools on concrete worlds whose
    replies hold no container to print and no quota to divide by. *)
Definition plain_text : PyText := {|
  repr_container := fun _ => "[...]";
  percent_1f := fun _ _ => Ok "?"
|}.

(** The process at start: [_session] as the module creates it. *)
Definition start (f : option stored) (answers : list http_outcome)
    (fs : list bool) (rnd : list nat) : world :=
  {| _session := empty_session; file := f; remote := answers; sent := [];
     faults := fs; draws := rnd |}.

(** The reply 200 from the address [u], with the JSON body [j]. *)
Definition ok_reply (u : string) (j : json) : reply :=
  {| url := u; status_code := 200; reason := "OK"; payload := inr j |}.

(** The reply with status [code] from the address [u], its body not JSON. *)
Definition status_reply (u : string) (code : Z) (why : string) : reply :=
  {| url := u; status_code := code; reason := why;
     payload := inl "Expecting value: line 1 column 1 (char 0)" |}.

(** * The tool boundary *)

(** What follows "Error " in the string a tool returns from its [except]
    clause. *)
Definition gerund (c : call) : string :=
  match c with
  | ListDomains => "listing domains"
  | CreateTempEmail _ _ => "creating email"
  | Login _ _ => "logging in"
  | GetInbox _ => "fetching inbox"
  | ReadEmail _ => "reading email"
  | MarkAsRead _ => "marking as read"
  | DeleteEmail _ => "deleting email"
  | GetAccountInfo => "getting account info"
  | DeleteAccount => "deleting account"
  | Logout => ""
  end.

(** The tools that start with [err = _require_session()]. *)
Definition requires_session (c : call) : bool :=
  match c with
  | GetInbox _ | ReadEmail _ | MarkAsRead _ | DeleteEmail _
  | GetAccountInfo | DeleteAccount => true
  | _ => false
  end.

Section Boundary.
Context {text : PyText}.

(** The statements inside the [try] of each tool; [logout] has none. *)
Definition try_block (c : call) : option (M string) :=
  match c with
  | ListDomains => Some list_domains_body
  | CreateTempEmail a p => Some (create_temp_email_body a p)
  | Login a p => Some (login_body a p)
  | GetInbox page => Some (get_inbox_body page)
  | ReadEmail i => Some (read_email_body i)
  | MarkAsRead i => Some (mark_as_read_body i)
  | DeleteEmail i => Some (delete_email_body i)
  | GetAccountInfo => Some get_account_info_body
  | DeleteAccount =>
      Some (s <- get_session ;; delete_account_body (account_id s) (address s))
  | Logout => None
  end.

(** [enters_try c w w0]: called in [w], the tool [c] reaches its [try] in
    the world [w0]. *)
Definition enters_try (c : call) (w w0 : world) : Prop :=
  if requires_session c then _require_session w = (Ok None, w0) else w0 = w.

End Boundary.

(** * The session fields *)

(** A field is absent when it holds [None]. *)
Definition is_none (j : json) : bool :=
  match j with JNull => true | _ => false end.

Definition all_absent (s : session) : Prop :=
  token s = JNull /\ account_id s = JNull /\ address s = JNull.

Definition all_present (s : session) : Prop :=
  token s <> JNull /\ account_id s <> JNull /\ address s <> JNull.

(** All three present, or all three absent. *)
Definition all_or_nothing (s : session) : Prop :=
  all_present s \/ all_absent s.

(** The file system does not fail. *)
Definition no_fault (w : world) : Prop := Forall (fun b => b = false) (faults w).

(** [w'] differs from [w] at most in its file-system faults and random
    draws still to come. *)
Definition same_but_luck (w w' : world) : Prop :=
  _session w' = _session w /\ file w' = file w /\ remote w' = remote w
  /\ sent w' = sent w.

(** Every character of [s] passes the test [P]. *)
Fixpoint all_chars (P : ascii -> bool) (s : string) : bool :=
  match s with
  | EmptyString => true
  | String c rest => P c && all_chars P rest
  end.

Definition code_between (lo hi : nat) (c : ascii) : bool :=
  ((lo <=? nat_of_ascii c) && (nat_of_ascii c <=? hi))%nat.

Definition is_lower (c : ascii) : bool := code_between 97 122 c.
Definition is_upper (c : ascii) : bool := code_between 65 90 c.
Definition is_digit (c : ascii) : bool := code_between 48 57 c.

(** One of the five symbols [!@#$%]. *)
Definition is_symbol (c : ascii) : bool :=
  let n := nat_of_ascii c in
  ((n =? 33) || (n =? 64) || (n =? 35) || (n =? 36) || (n =? 37))%nat.

Definition lower_alnum (c : ascii) : bool := is_lower c || is_digit c.

Definition password_char (c : ascii) : bool :=
  is_lower c || is_upper c || is_digit c || is_symbol c.

(** [domains[0]['domain']] of the body of a domains listing. *)
Definition first_listed_domain (body : json) : option json :=
  match body with
  | JObj m =>
      match dict_get m "hydra:member" with
      | Some (JArr (JObj d :: _)) => dict_get d "domain"
      | _ => None
      end
  | _ => None
  end.

(** The member [k] of a JSON object, or [default]: [m.get(k, default)]. *)
Definition member_or (m : list (string * json)) (k : string) (default : json)
  : json :=
  match dict_get m k with Some v => v | None => default end.

(** * Establishing a session *)

(** [login] and [create_temp_email] report success with these texts. *)
Section Success.
Context {text : PyText}.

Definition auth_succeeded (c : call) (r : result string) : Prop :=
  match c with
  | Login a _ => r = Ok (logged_in_message a)
  | CreateTempEmail _ _ =>
      exists a' p' id, r = Ok (created_message a' p' id)
  | _ => False
  end.

End Success.

(** The store is as in [w]: same [_session], same file. *)
Definition store_as (w w' : world) : Prop :=
  _session w' = _session w /\ file w' = file w.

(** A call of [requests] that did not go through: the transport failed,
    the status is an error status, or the body is not JSON. *)
Definition failed_outcome (o : http_outcome) : bool :=
  match o with
  | Fails _ => true
  | Answer r =>
      ((400 <=? status_code r) && (status_code r <? 600))
      || match payload r with inl _ => true | inr _ => false end
  end.

(** Every remote call made between [w] and [w'] went through. *)
Definition all_answered (w w' : world) : Prop :=
  exists consumed,
    remote w = (consumed ++ remote w')%list /\
    Forall (fun o => failed_outcome o = false) consumed.

(** The store is as in [w] and every remote call so far went through. *)
Definition going (w w' : world) : Prop := store_as w w' /\ all_answered w w'.

(** The same, [r] being the reply just received and not yet examined. *)
Definition pending (r : reply) (w w' : world) : Prop :=
  store_as w w' /\
  exists consumed,
    remote w = (consumed ++ Answer r :: remote w')%list /\
    Forall (fun o => failed_outcome o = false) consumed.

(** The file is as in [w], and [_session] too unless the [KeyError] on
    ["id"] struck after the token was assigned, every remote call having
    gone through. *)
Definition store_after_failure (w : world) (e : exn) (w' : world) : Prop :=
  file w' = file w /\
  (_session w' = _session w \/
   exists tok, e = KeyError "'id'" /\ _session w' = set_key "token" tok (_session w)
               /\ all_answered w w').

(** The two tools that establish a session. *)
Definition establishes_session (c : call) : bool :=
  match c with
  | Login _ _ | CreateTempEmail _ _ => true
  | _ => false
  end.

(** * The all-or-nothing invariant *)

(** One of the three field names. *)
Definition is_field (k : string) : bool :=
  String.eqb k "token" || String.eqb k "account_id" || String.eqb k "address".

(** The further keys of [_session] are not the field names: a dict holds
    a key once. *)
Definition extras_apart (s : session) : Prop :=
  Forall (fun kv => is_field (fst kv) = false) (extras s).

(** A session file that, once loaded, leaves an all-or-nothing session
    whatever was in memory: such is every file [_save_session] writes from
    an all-or-nothing session. *)
Definition record_settled (f : option stored) : Prop :=
  match f with
  | Some (Members m) => forall s, all_or_nothing (session_update m s)
  | _ => True
  end.

Definition settled (w : world) : Prop :=
  all_or_nothing (_session w) /\ extras_apart (_session w) /\ record_settled (file w).

(** A JSON value that, if it is an object with a "token" member, has that
    member and an "id" member both not [null]. *)
Definition sound_data (j : json) : bool :=
  match j with
  | JObj m =>
      match dict_get m "token" with
      | None => true
      | Some t =>
          negb (is_none t) &&
          match dict_get m "id" with
          | Some i => negb (is_none i)
          | None => false
          end
      end
  | _ => true
  end.

(** A reply that, if its body is an object with a "token" member, holds
    there a token and an id that are not [null]. *)
Definition sound_reply (r : reply) : bool :=
  match payload r with
  | inr j => sound_data j
  | inl _ => true
  end.

(** The call of [requests] that is [n] calls ahead is not answered with a
    token reply whose token or id is [null] or missing. *)
Definition token_ahead (n : nat) (w : world) : Prop :=
  forall r, nth_error (remote w) n = Some (Answer r) -> sound_reply r = true.

(** The same of the token request of a call: the first call of [requests]
    that [login] makes, the second of a [create_temp_email] given an
    address, the third of one that has to ask for the domains. *)
Definition token_reply_sound (c : call) (w : world) : Prop :=
  match c with
  | Login _ _ => token_ahead 0 w
  | CreateTempEmail a _ => token_ahead (if String.eqb a "" then 2 else 1) w
  | _ => True
  end.

(** [settled], when [A] holds. *)
Definition settled_if (A : Prop) (w : world) : Prop := A -> settled w.

Definition settled_ahead (A : Prop) (n : nat) (w : world) : Prop :=
  settled_if A w /\ token_ahead n w.

Section Cleared.
Context {text : PyText}.

(** [logout], and [delete_account] when it reports the deletion. *)
Definition session_cleared (c : call) (r : result string) : Prop :=
  match c with
  | Logout => True
  | DeleteAccount => exists a, r = Ok (account_deleted_message a)
  | _ => False
  end.

End Cleared.

(** * Specifications of computations *)

(** [triple P m Q E]: started in a world satisfying [P], the computation
    [m] ends in a world satisfying [Q a] when it returns [a], and [E e]
    when it raises [e]. *)
Definition triple {A} (P : world -> Prop) (m : M A)
    (Q : A -> world -> Prop) (E : exn -> world -> Prop) : Prop :=
  forall w, P w ->
    match m w with
    | (Ok a, w') => Q a w'
    | (Raise e, w') => E e w'
    end.

(** A computation that always returns. *)
Definition returns {A} (m : M A) : Prop :=
  forall w, exists a w', m w = (Ok a, w').

(** [keeps I m]: [m] ends in a world satisfying [I] when it starts in
    one, whether it returns or raises. *)
Definition keeps {A} (I : world -> Prop) (m : M A) : Prop :=
  triple I m (fun _ => I) (fun _ => I).

(** [yields m Q]: whatever the world, a value [m] returns satisfies [Q]. *)
Definition yields {A} (m : M A) (Q : A -> Prop) : Prop :=
  forall w, match fst (m w) with Ok a => Q a | Raise _ => True end.

(** Invariants that look at the traffic only: the replies to come and the
    requests sent. *)
Definition on_traffic (I : world -> Prop) : Prop :=
  forall w w', remote w' = remote w -> sent w' = sent w -> I w -> I w'.

(** The requests sent so far are exactly [l]. *)
Definition sent_is (l : list request) (w : world) : Prop := sent w = l.

(** The texts a guarded tool builds once past the check are not the
    no-session message. *)
Definition past_check (s : string) : Prop := s <> no_session_message.

(** The three tools that address one message. *)
Definition addresses_message (c : call) (i : string) : Prop :=
  c = ReadEmail i \/ c = MarkAsRead i \/ c = DeleteEmail i.

Section Reports.
Context {text : PyText}.

(** The text is a report of [create_temp_email] that the account exists. *)
Definition created (s : string) : Prop :=
  exists a' p' id, s = created_message a' p' id.

(** The text is a report of [delete_account] that the account is gone. *)
Definition deleted (s : string) : Prop :=
  exists a, s = account_deleted_message a.

End Reports.

(** * Worlds to run the tools in *)

(** A login whose reply is good while the session file cannot be written:
    the tool reports success and the session lives in memory only. *)
Definition unsaved_login : world :=
  snd (run (text := plain_text) (Login "a@b.c" "pw")
         (start None
            [Answer (ok_reply "https://api.mail.tm/token" (JObj [("token", JStr "T"); ("id", JStr "I")]));
             Answer (ok_reply "https://api.mail.tm/messages?page=1" (JObj [("hydra:member", JArr [])]))]
            [true] [])).

(** A saved session whose file cannot be removed. *)
Definition stuck_record : world :=
  start (Some (Members [("token", JStr "T"); ("account_id", JStr "I");
                        ("address", JStr "a@b.c")]))
        [] [false; true; false; true] [].

(** A process at start that is about to be told of one domain. *)
Definition one_domain_listed : world :=
  start None
    [Answer (ok_reply "https://api.mail.tm/domains"
       (JObj [("hydra:member", JArr [JObj [("domain", JStr "x.io")]])]))]
    [] [1; 2; 3]%nat.

(** A process with a session in memory and no file, about to be told
    404. *)
Definition session_then_404 : world :=
  {| _session := {| token := JStr "T"; account_id := JStr "I";
               address := JStr "a@b.c"; extras := [] |};
     file := None;
     remote := [Answer (status_reply "https://api.mail.tm/messages/nonexistent-id" 404 "Not Found")];
     sent := []; faults := []; draws := [] |}.

Definition zero_quota_reply : reply :=
  ok_reply "https://api.mail.tm/me" (JObj [("address", JStr "a@b.c"); ("quota", JNum 0);
                  ("used", JNum 12)]).

(** A session in memory, and an account reply with quota 0. *)
Definition zero_quota_world : world :=
  {| _session := {| token := JStr "T"; account_id := JStr "I";
               address := JStr "a@b.c"; extras := [] |};
     file := None;
     remote := [Answer zero_quota_reply];
     sent := []; faults := []; draws := [] |}.

(** A session in memory, and a message that has neither text nor html. *)
Definition bodiless_message_world : world :=
  {| _session := {| token := JStr "T"; account_id := JStr "I";
               address := JStr "a@b.c"; extras := [] |};
     file := None;
     remote := [Answer (ok_reply "https://api.mail.tm/messages/m1" (JObj [("subject", JStr "hi");
                                        ("text", JStr "")]))];
     sent := []; faults := []; draws := [] |}.

(** The same, the message saying that it has no html fragment. *)
Definition empty_html_world : world :=
  {| _session := {| token := JStr "T"; account_id := JStr "I";
               address := JStr "a@b.c"; extras := [] |};
     file := None;
     remote := [Answer (ok_reply "https://api.mail.tm/messages/m1" (JObj [("subject", JStr "hi");
                                        ("text", JStr "");
                                        ("html", JArr [])]))];
     sent := []; faults := []; draws := [] |}.

(** A process at start whose token request is answered without an id. *)
Definition token_without_id : world :=
  start None [Answer (ok_reply "https://api.mail.tm/token" (JObj [("token", JStr "T")]))] [] [].

(** A process at start whose token request is answered with nulls. *)
Definition null_token_reply : world :=
  start None
    [Answer (ok_reply "https://api.mail.tm/token" (JObj [("token", JNull); ("id", JNull)]))] [] [].

(** A process at start whose token request is answered in full. *)
Definition good_token_reply : world :=
  start None
    [Answer (ok_reply "https://api.mail.tm/token" (JObj [("token", JStr "T"); ("id", JStr "I")]))] [] [].

(** * Further properties: what they speak of *)

(** The value the key [k] holds after [d.update(m)]: the last one [m]
    gives it, or else the one it had. *)
Definition updated_value (m : list (string * json)) (k : string) (old : json)
  : json :=
  match dict_get (rev m) k with
  | Some v => v
  | None => old
  end.

(** Does the next [open] or [os.remove] raise? *)
Definition next_fault (w : world) : bool :=
  match faults w with
  | true :: _ => true
  | _ => false
  end.

(** What [_save_session], saving the session [s], leaves in the file: the
    file as it was when [open] raises, a file that cannot be loaded when
    the writing raises, and else the members of [s]. *)
Definition file_after_save (w : world) (s : session) : option stored :=
  match faults w with
  | true :: _ => file w
  | false :: true :: _ => Some Unusable
  | _ => Some (Members (session_items s))
  end.

(** The faults still to come after a save: it has met one or two. *)
Definition faults_after_save (w : world) : list bool :=
  match faults w with
  | true :: rest => rest
  | _ :: _ :: rest => rest
  | _ => []
  end.

(** The process started again: the module body runs anew and creates
    [_session] with its three [None]; the file is where it was. *)
Definition restart (w : world) : world :=
  {| _session := empty_session; file := file w; remote := remote w;
     sent := sent w; faults := faults w; draws := draws w |}.

(** The further keys of [_session] as a dict has them: each once, none of
    them a field name. *)
Definition extras_proper (s : session) : Prop :=
  extras_apart s /\ NoDup (map fst (extras s)).

(** Invariants that look at the session file only. *)
Definition on_file (I : world -> Prop) : Prop :=
  forall w w', file w' = file w -> I w -> I w'.

(** The file is the one [f]. *)
Definition file_is (f : option stored) (w : world) : Prop := file w = f.

(** The file is [f] as before, or holds the session now in memory, or
    was opened for writing and is left without it. *)
Definition kept_or_saved (f : option stored) (w' : world) : Prop :=
  file w' = f \/ file w' = Some (Members (session_items (_session w')))
  \/ file w' = Some Unusable.

(** Since [w], between [lo] and [hi] requests have been sent, none of
    them with a header. *)
Definition sent_bare (w : world) (lo hi : nat) (w0 : world) : Prop :=
  exists new,
    sent w0 = (sent w ++ new)%list /\
    (lo <= length new <= hi)%nat /\
    Forall (fun rq => rq_headers rq = []) new.

(** ** Replies by status *)

Section FirstRequest.
Context {text : PyText}.

(** The address of the first request a tool sends, [s] being [_session]
    when the tool reaches its [try]. *)
Definition first_url (c : call) (s : session) : string :=
  match c with
  | ListDomains => BASE_URL ++ "/domains"
  | CreateTempEmail a _ =>
      if String.eqb a "" then BASE_URL ++ "/domains" else BASE_URL ++ "/accounts"
  | Login _ _ => BASE_URL ++ "/token"
  | GetInbox page => BASE_URL ++ "/messages?page=" ++ dec_Z page
  | ReadEmail i | MarkAsRead i | DeleteEmail i => BASE_URL ++ "/messages/" ++ i
  | GetAccountInfo => BASE_URL ++ "/me"
  | DeleteAccount => BASE_URL ++ "/accounts/" ++ py_str (account_id s)
  | Logout => ""
  end.

End FirstRequest.

(** The status a tool tests the reply to its first request for, before
    [raise_for_status]. *)
Definition dedicated_status (c : call) : option Z :=
  match c with
  | CreateTempEmail a _ => if String.eqb a "" then None else Some 422
  | Login _ _ => Some 401
  | ReadEmail _ | MarkAsRead _ | DeleteEmail _ => Some 404
  | _ => None
  end.

(** [str(e)] of the [HTTPError] that [raise_for_status] raises. *)
Definition status_error_text (r : reply) : string :=
  dec_Z (status_code r)
    ++ (if status_code r <? 500 then " Client Error: " else " Server Error: ")
    ++ reason r ++ " for url: " ++ url r.

(** A session in memory, and a server in trouble. *)
Definition session_then_503 : world :=
  {| _session := {| token := JStr "T"; account_id := JStr "I";
               address := JStr "a@b.c"; extras := [] |};
     file := None;
     remote := [Answer (status_reply "https://api.mail.tm/me" 503 "Service Unavailable")];
     sent := []; faults := []; draws := [] |}.

(** A session in memory, and a network that is down. *)
Definition session_then_refused : world :=
  {| _session := {| token := JStr "T"; account_id := JStr "I";
               address := JStr "a@b.c"; extras := [] |};
     file := None;
     remote := [Fails "Connection refused"];
     sent := []; faults := []; draws := [] |}.

(** A session in memory, and a deletion answered 200 from the address
    [u]. *)
Definition session_then_200 (u : string) : world :=
  {| _session := {| token := JStr "T"; account_id := JStr "I";
               address := JStr "a@b.c"; extras := [] |};
     file := None;
     remote := [Answer (ok_reply u JNull)];
     sent := []; faults := []; draws := [] |}.

(** A process at start whose two requests, for the account and for its
    token, are about to be answered in full. *)
Definition account_then_token : world :=
  start None
    [Answer {| url := "https://api.mail.tm/accounts"; status_code := 201; reason := "Created";
               payload := inr (JObj [("id", JStr "A")]) |};
     Answer (ok_reply "https://api.mail.tm/token" (JObj [("token", JStr "T"); ("id", JStr "I")]))]
    [] [].

(** ** The domains *)

(** The item [item] of a listing is an object whose "domain" is [d]. *)
Definition lists_domain (item d : json) : Prop :=
  exists mi, item = JObj mi /\ dict_get mi "domain" = Some d.

(** A process at start that is about to be told that there is no
    domain. *)
Definition no_domain_listed : world :=
  start None [Answer (ok_reply "https://api.mail.tm/domains" (JObj [("hydra:member", JArr [])]))] [] [1; 2]%nat.

(** A session in memory, and an inbox page without messages. *)
Definition session_then_empty_page : world :=
  {| _session := {| token := JStr "T"; account_id := JStr "I";
               address := JStr "a@b.c"; extras := [] |};
     file := None;
     remote := [Answer (ok_reply "https://api.mail.tm/messages?page=0" (JObj [("hydra:member", JArr []);
                                        ("hydra:totalItems", JNum 0)]))];
     sent := []; faults := []; draws := [] |}.

(** * Reasoning about computations *)

Lemma triple_ret {A} (P : world -> Prop) (a : A) Q E :
  (forall w, P w -> Q a w) -> triple P (ret a) Q E.
Proof. intros H w Hw. simpl. auto. Qed.

Lemma triple_raise {A} (P : world -> Prop) e (Q : A -> world -> Prop) E :
  (forall w, P w -> E e w) -> triple P (raise e) Q E.
Proof. intros H w Hw. simpl. auto. Qed.

Lemma triple_lift {A} (P : world -> Prop) (r : result A) Q E :
  (forall w, P w -> match r with Ok a => Q a w | Raise e => E e w end) ->
  triple P (lift r) Q E.
Proof. intros H w Hw. unfold lift. specialize (H w Hw). destruct r; auto. Qed.

Lemma triple_bind {A B} P (m : M A) (k : A -> M B) R Q E :
  triple P m R E -> (forall a, triple (R a) (k a) Q E) ->
  triple P (bind m k) Q E.
Proof.
  intros Hm Hk w Hw. unfold bind. specialize (Hm w Hw).
  destruct (m w) as [[a|e] w']; auto. apply Hk. assumption.
Qed.

Lemma triple_try {A} P (body : M A) handler Q E' E :
  triple P body Q E' -> (forall e, triple (E' e) (handler e) Q E) ->
  triple P (try_except body handler) Q E.
Proof.
  intros Hb Hh w Hw. unfold try_except. specialize (Hb w Hw).
  destruct (body w) as [[a|e] w']; auto. apply Hh. assumption.
Qed.

Lemma triple_weaken {A} (P P' : world -> Prop) (m : M A)
    (Q Q' : A -> world -> Prop) (E E' : exn -> world -> Prop) :
  triple P' m Q' E' ->
  (forall w, P w -> P' w) ->
  (forall a w, Q' a w -> Q a w) ->
  (forall e w, E' e w -> E e w) ->
  triple P m Q E.
Proof.
  intros H HP HQ HE w Hw. specialize (H w (HP w Hw)).
  destruct (m w) as [[a|e] w']; auto.
Qed.

Lemma returns_ret {A} (a : A) : returns (ret a).
Proof. intros w. exists a, w. reflexivity. Qed.

Lemma returns_bind {A B} (m : M A) (k : A -> M B) :
  returns m -> (forall a, returns (k a)) -> returns (bind m k).
Proof.
  intros Hm Hk w. unfold bind. destruct (Hm w) as (a & w' & ->). apply Hk.
Qed.

Lemma returns_try {A} (body : M A) (handler : exn -> M A) :
  (forall e, returns (handler e)) -> returns (try_except body handler).
Proof.
  intros Hh w. unfold try_except. destruct (body w) as [[a|e] w'].
  - exists a, w'. reflexivity.
  - apply Hh.
Qed.

Lemma returns_get_mem : returns get_session.
Proof. intros w. exists (_session w), w. reflexivity. Qed.

Lemma returns_set_mem s : returns (set_session s).
Proof. intros w. exists tt, (with_session s w). reflexivity. Qed.

Lemma returns_path_exists : returns path_exists.
Proof. intros w. unfold path_exists. eauto. Qed.

Lemma returns_load_session : returns _load_session.
Proof.
  unfold _load_session. apply returns_bind; [apply returns_path_exists|].
  intros [|]; [|apply returns_ret].
  apply returns_try. intros e. apply returns_ret.
Qed.

Lemma returns_save_session : returns _save_session.
Proof. apply returns_try. intros e. apply returns_ret. Qed.

Lemma returns_clear_session : returns _clear_session.
Proof.
  unfold _clear_session.
  apply returns_bind; [apply returns_get_mem|]. intros s.
  apply returns_bind; [apply returns_set_mem|]. intros _.
  apply returns_try. intros e. apply returns_ret.
Qed.

Section ToolFacts.
Context {text : PyText}.

Lemma returns_require_session : returns _require_session.
Proof.
  unfold _require_session.
  apply returns_bind; [apply returns_load_session|]. intros _.
  apply returns_bind; [apply returns_get_mem|]. intros s.
  destruct (negb (truthy (token s))); apply returns_ret.
Qed.

(** Guarded tools: the session check, then the [try] statement. *)
Lemma returns_guarded (body : M string) (handler : exn -> M string) :
  (forall e, returns (handler e)) ->
  returns (err <- _require_session ;;
           match err with
           | Some msg => ret msg
           | None => try_except body handler
           end).
Proof.
  intros Hh. apply returns_bind; [apply returns_require_session|].
  intros [msg|]; [apply returns_ret|]. apply returns_try. assumption.
Qed.

Lemma returns_run (c : call) : returns (run c).
Proof.
  destruct c; simpl;
    try (apply returns_try; intros e; apply returns_ret);
    try (apply returns_guarded; intros e; apply returns_ret).
  unfold logout.
  apply returns_bind; [apply returns_load_session|]. intros _.
  apply returns_bind; [apply returns_get_mem|]. intros s.
  apply returns_bind; [apply returns_clear_session|]. intros _.
  apply returns_ret.
Qed.

End ToolFacts.

Lemma append_assoc (a b c : string) : ((a ++ b) ++ c = a ++ (b ++ c))%string.
Proof. induction a as [|x a IH]; simpl; [reflexivity|]. now rewrite IH. Qed.

Section BoundaryFacts.
Context {text : PyText}.

Lemma run_through_try (c : call) (body : M string) (w w0 : world) :
  try_block c = Some body -> enters_try c w w0 ->
  run c w =
    match body w0 with
    | (Ok s, w1) => (Ok s, w1)
    | (Raise e, w1) => (Ok ("Error " ++ gerund c ++ ": " ++ exn_str e), w1)
    end.
Proof.
  unfold enters_try.
  destruct c; simpl; intros Hb Hw; inversion Hb; subst; clear Hb;
    try reflexivity;
    unfold get_inbox, read_email, mark_as_read, delete_email,
      get_account_info, delete_account;
    unfold bind at 1; rewrite Hw; reflexivity.
Qed.

Lemma gerund_shape (c : call) :
  try_block c <> None ->
  exists verb noun, gerund c = verb ++ "ing " ++ noun.
Proof.
  destruct c; simpl; intros H; try congruence.
  - exists "list", "domains". reflexivity.
  - exists "creat", "email". reflexivity.
  - exists "logg", "in". reflexivity.
  - exists "fetch", "inbox". reflexivity.
  - exists "read", "email". reflexivity.
  - exists "mark", "as read". reflexivity.
  - exists "delet", "email". reflexivity.
  - exists "gett", "account info". reflexivity.
  - exists "delet", "account". reflexivity.
Qed.

(** C2.  No tool call lets an exception out: it returns a string.  And
    when the statements inside a tool's [try] raise [e], whether the remote
    call failed or its reply could not be used, the tool returns
    "Error <verb>ing <noun>: " followed by the text of [e]. *)
Theorem exceptions_become_error_strings (c : call) (w : world) :
  (exists s w', run c w = (Ok s, w')) /\
  (forall body w0 e w1,
     try_block c = Some body -> enters_try c w w0 ->
     body w0 = (Raise e, w1) ->
     exists verb noun,
       gerund c = verb ++ "ing " ++ noun /\
       run c w = (Ok ("Error " ++ verb ++ "ing " ++ noun ++ ": " ++ exn_str e), w1)).
Proof.
  split; [apply returns_run|].
  intros body w0 e w1 Hb Hw He.
  destruct (gerund_shape c) as (verb & noun & Hg); [congruence|].
  exists verb, noun. split; [assumption|].
  rewrite (run_through_try c body w w0 Hb Hw), He, Hg.
  now rewrite !append_assoc.
Qed.

End BoundaryFacts.

(** * Invariants of computations *)

Section Keeps.
Variable I : world -> Prop.

Lemma keeps_ret {A} (a : A) : keeps I (ret a).
Proof. apply triple_ret. auto. Qed.

Lemma keeps_raise {A} (e : exn) : keeps I (@raise A e).
Proof. apply triple_raise. auto. Qed.

Lemma keeps_lift {A} (r : result A) : keeps I (lift r).
Proof. apply triple_lift. destruct r; auto. Qed.

Lemma keeps_bind {A B} (m : M A) (k : A -> M B) :
  keeps I m -> (forall a, keeps I (k a)) -> keeps I (bind m k).
Proof. intros Hm Hk. eapply triple_bind; [exact Hm|exact Hk]. Qed.

Lemma keeps_try {A} (body : M A) (handler : exn -> M A) :
  keeps I body -> (forall e, keeps I (handler e)) ->
  keeps I (try_except body handler).
Proof. intros Hb Hh. eapply triple_try; [exact Hb|exact Hh]. Qed.

Lemma keeps_raise_for_status (r : reply) :
  keeps I (raise_for_status r).
Proof.
  unfold raise_for_status.
  destruct (_ && _); [apply keeps_raise|].
  destruct (_ && _); [apply keeps_raise|apply keeps_ret].
Qed.

Lemma keeps_resp_json (r : reply) : keeps I (resp_json r).
Proof.
  unfold resp_json. destruct (payload r); [apply keeps_raise|apply keeps_ret].
Qed.

Lemma keeps_get_mem : keeps I get_session.
Proof. intros w Hw. exact Hw. Qed.

Lemma keeps_path_exists : keeps I path_exists.
Proof. intros w Hw. exact Hw. Qed.

End Keeps.

Section TrafficInvariants.
Variable I : world -> Prop.
Hypothesis I_traffic : on_traffic I.

Lemma traffic_keeps_set_mem (s : session) : keeps I (set_session s).
Proof.
  intros w Hw. simpl. eapply I_traffic; [| |exact Hw]; reflexivity.
Qed.

Lemma traffic_keeps_fs_step (what : string) : keeps I (fs_step what).
Proof.
  intros w Hw. unfold fs_step.
  destruct (faults w) as [|[|] rest]; simpl; try exact Hw;
    (eapply I_traffic; [| |exact Hw]; reflexivity).
Qed.

Lemma traffic_keeps_read_record : keeps I read_record.
Proof.
  unfold read_record. apply keeps_bind; [apply traffic_keeps_fs_step|].
  intros _ w Hw. destruct (file w) as [[m|]|]; exact Hw.
Qed.

Lemma traffic_keeps_write_record (m : list (string * json)) :
  keeps I (write_record m).
Proof.
  unfold write_record. apply keeps_bind; [apply traffic_keeps_fs_step|].
  intros _. apply keeps_bind.
  { intros w Hw. simpl. eapply I_traffic; [| |exact Hw]; reflexivity. }
  intros _. apply keeps_bind; [apply traffic_keeps_fs_step|].
  intros _ w Hw. simpl. eapply I_traffic; [| |exact Hw]; reflexivity.
Qed.

Lemma traffic_keeps_remove_record : keeps I remove_record.
Proof.
  unfold remove_record. apply keeps_bind; [apply traffic_keeps_fs_step|].
  intros _ w Hw. simpl. eapply I_traffic; [| |exact Hw]; reflexivity.
Qed.

Lemma traffic_keeps_load_session : keeps I _load_session.
Proof.
  unfold _load_session. apply keeps_bind; [apply keeps_path_exists|].
  intros [|]; [|apply keeps_ret].
  apply keeps_try; [|intros e; apply keeps_ret].
  apply keeps_bind; [apply traffic_keeps_read_record|]. intros data.
  apply keeps_bind; [apply keeps_get_mem|]. intros s.
  apply traffic_keeps_set_mem.
Qed.

Lemma traffic_keeps_save_session : keeps I _save_session.
Proof.
  unfold _save_session. apply keeps_try; [|intros e; apply keeps_ret].
  apply keeps_bind; [apply keeps_get_mem|]. intros s.
  apply traffic_keeps_write_record.
Qed.

Lemma traffic_keeps_clear_session : keeps I _clear_session.
Proof.
  unfold _clear_session.
  apply keeps_bind; [apply keeps_get_mem|]. intros s.
  apply keeps_bind; [apply traffic_keeps_set_mem|]. intros _.
  apply keeps_try; [|intros e; apply keeps_ret].
  apply keeps_bind; [apply keeps_path_exists|].
  intros [|]; [apply traffic_keeps_remove_record|apply keeps_ret].
Qed.

End TrafficInvariants.

(** * What a computation can return *)

Lemma yields_ret {A} (a : A) (Q : A -> Prop) : Q a -> yields (ret a) Q.
Proof. intros H w. exact H. Qed.

Lemma yields_raise {A} (e : exn) (Q : A -> Prop) : yields (raise e) Q.
Proof. intros w. exact Logic.I. Qed.

Lemma yields_lift {A} (r : result A) (Q : A -> Prop) :
  (forall a, r = Ok a -> Q a) -> yields (lift r) Q.
Proof. intros H w. unfold lift. simpl. destruct r; auto. Qed.

Lemma yields_bind {A B} (m : M A) (k : A -> M B) (Q : B -> Prop) :
  (forall a, yields (k a) Q) -> yields (bind m k) Q.
Proof.
  intros H w. unfold bind. destruct (m w) as [[a|e] w']; [apply H|exact Logic.I].
Qed.

Lemma yields_try {A} (body : M A) (handler : exn -> M A) (Q : A -> Prop) :
  yields body Q -> (forall e, yields (handler e) Q) ->
  yields (try_except body handler) Q.
Proof.
  intros Hb Hh w. unfold try_except. specialize (Hb w).
  destruct (body w) as [[a|e] w']; [exact Hb|apply Hh].
Qed.

(** * The session check *)

Lemma load_absent (w : world) : file w = None -> _load_session w = (Ok tt, w).
Proof.
  intros H. unfold _load_session, bind, path_exists. rewrite H. reflexivity.
Qed.

Lemma rstrip_keeps_head (c : ascii) (s : string) :
  is_space c = false -> rstrip (String c s) = String c (rstrip s).
Proof. intros H. simpl. rewrite H. destruct (rstrip s); reflexivity. Qed.

Ltac split_results :=
  repeat match goal with
         | |- context [match ?r with Ok _ => _ | Raise _ => _ end] =>
             destruct r; try discriminate
         end.

Section SessionCheck.
Context {text : PyText}.

Lemma require_session_absent (w : world) :
  file w = None ->
  _require_session w =
    (Ok (if truthy (token (_session w)) then None else Some no_session_message), w).
Proof.
  intros H. unfold _require_session, bind. rewrite (load_absent w H).
  unfold get_session. destruct (truthy (token (_session w))); reflexivity.
Qed.

Lemma auth_headers_absent (w : world) :
  file w = None -> exists hs, _auth_headers w = (Ok hs, w).
Proof.
  intros H. unfold _auth_headers, bind. rewrite (load_absent w H).
  unfold get_session. destruct (truthy (token (_session w))); eexists; reflexivity.
Qed.

Lemma render_message_past_check (i : string) (m : json) (out : string) :
  render_message i m = Ok out -> past_check out.
Proof.
  unfold render_message, rbind. split_results.
  intros H; inversion H; subst. discriminate.
Qed.

Lemma render_account_past_check (m : json) (out : string) :
  render_account m = Ok out -> past_check out.
Proof.
  unfold render_account, rbind. split_results.
  intros H; inversion H; subst. discriminate.
Qed.

Ltac yield_steps :=
  repeat match goal with
         | |- yields (bind _ _) _ => apply yields_bind; intros ?
         | |- yields (raise _) _ => apply yields_raise
         | |- yields (if ?b then _ else _) _ => destruct b
         end.

Lemma get_inbox_body_past_check (page : Z) :
  yields (get_inbox_body page) past_check.
Proof.
  unfold get_inbox_body. yield_steps; apply yields_ret.
  - discriminate.
  - simpl join. rewrite rstrip_keeps_head by reflexivity. discriminate.
Qed.

Lemma read_email_body_past_check (i : string) :
  yields (read_email_body i) past_check.
Proof.
  unfold read_email_body. yield_steps.
  - apply yields_ret. discriminate.
  - apply yields_lift. apply render_message_past_check.
Qed.

Lemma mark_as_read_body_past_check (i : string) :
  yields (mark_as_read_body i) past_check.
Proof.
  unfold mark_as_read_body. yield_steps; apply yields_ret; discriminate.
Qed.

Lemma delete_email_body_past_check (i : string) :
  yields (delete_email_body i) past_check.
Proof.
  unfold delete_email_body. yield_steps; apply yields_ret; discriminate.
Qed.

Lemma get_account_info_body_past_check :
  yields get_account_info_body past_check.
Proof.
  unfold get_account_info_body. yield_steps.
  apply yields_lift. apply render_account_past_check.
Qed.

Lemma delete_account_body_past_check (acc addr : json) :
  yields (delete_account_body acc addr) past_check.
Proof.
  unfold delete_account_body. yield_steps; apply yields_ret; discriminate.
Qed.

Lemma try_block_past_check (c : call) (body : M string) :
  requires_session c = true -> try_block c = Some body ->
  yields body past_check.
Proof.
  destruct c; simpl; try discriminate; intros _ H; inversion H; subst.
  - apply get_inbox_body_past_check.
  - apply read_email_body_past_check.
  - apply mark_as_read_body_past_check.
  - apply delete_email_body_past_check.
  - apply get_account_info_body_past_check.
  - apply yields_bind. intros s. apply delete_account_body_past_check.
Qed.

End SessionCheck.

Lemma keeps_snd {A} (I : world -> Prop) (m : M A) (w : world) :
  keeps I m -> I w -> I (snd (m w)).
Proof.
  intros H Hw. specialize (H w Hw). destruct (m w) as [[a|e] w']; exact H.
Qed.

Lemma keeps_after {A B} (I : world -> Prop) (m : M A) (k : A -> M B)
    (w : world) :
  (forall a, keeps I (k a)) -> I (snd (m w)) -> I (snd (bind m k w)).
Proof.
  intros Hk Hm. unfold bind. destruct (m w) as [[a|e] w']; simpl in *.
  - apply keeps_snd; [apply Hk|exact Hm].
  - exact Hm.
Qed.

Lemma sent_is_on_traffic (l : list request) : on_traffic (sent_is l).
Proof. intros w w' _ Hs H. unfold sent_is in *. congruence. Qed.

Lemma http_sent (rq : request) (w : world) :
  sent (snd (http rq w)) = (sent w ++ [rq])%list.
Proof. unfold http. destruct (remote w) as [|[r|msg] rest]; reflexivity. Qed.

Ltac keeps_steps :=
  repeat match goal with
         | |- keeps _ (ret _) => apply keeps_ret
         | |- keeps _ (raise _) => apply keeps_raise
         | |- keeps _ (lift _) => apply keeps_lift
         | |- keeps _ (raise_for_status _) => apply keeps_raise_for_status
         | |- keeps _ (resp_json _) => apply keeps_resp_json
         | |- keeps _ get_session => apply keeps_get_mem
         | |- keeps _ (bind _ _) => apply keeps_bind; [|intros ?]
         | |- keeps _ (try_except _ _) => apply keeps_try; [|intros ?]
         | |- keeps _ (if ?b then _ else _) => destruct b
         end.

Section OneRequest.
Context {text : PyText}.

Lemma try_block_sends_one (c : call) (body : M string) (w : world) :
  requires_session c = true -> try_block c = Some body -> file w = None ->
  exists rq, sent (snd (body w)) = (sent w ++ [rq])%list.
Proof.
  intros Hc Hb Hf.
  destruct (auth_headers_absent w Hf) as (hs & Hh).
  destruct c; simpl in Hc, Hb; try discriminate; inversion Hb; subst; clear Hb;
    try (unfold bind at 1, get_session);
    unfold get_inbox_body, read_email_body, mark_as_read_body,
      delete_email_body, get_account_info_body, delete_account_body;
    unfold bind at 1; rewrite Hh;
    eexists;
    (apply (keeps_after (sent_is _)); [|apply http_sent]);
    intros r; keeps_steps;
    apply traffic_keeps_clear_session, sent_is_on_traffic.
Qed.

End OneRequest.

Section Guard.
Context {text : PyText}.

(** A guarded tool returns what the check answers, when it answers. *)
Lemma guarded_stops (c : call) (msg : string) (w w' : world) :
  requires_session c = true ->
  _require_session w = (Ok (Some msg), w') ->
  run c w = (Ok msg, w').
Proof.
  intros Hc Hr.
  destruct c; simpl in Hc; try discriminate; simpl;
    unfold get_inbox, read_email, mark_as_read, delete_email,
      get_account_info, delete_account;
    unfold bind at 1; rewrite Hr; reflexivity.
Qed.

Lemma guarded_requires_try (c : call) :
  requires_session c = true -> exists body, try_block c = Some body.
Proof. destruct c; simpl; try discriminate; eauto. Qed.

(** C3.  In a process that has just started ([_session] as created, no
    [login] or [create_temp_email] yet) and with no session file, each of
    the six tools that need a session returns the no-active-session
    message and leaves the world as it was: no request has been sent. *)
Theorem no_session_no_remote_call (c : call) (answers : list http_outcome)
    (fs : list bool) (rnd : list nat) :
  requires_session c = true ->
  run c (start None answers fs rnd)
  = (Ok "No active session. Use create_temp_email or login first.",
     start None answers fs rnd).
Proof.
  intros Hc. apply guarded_stops; [exact Hc|].
  rewrite require_session_absent by reflexivity. reflexivity.
Qed.

(** C4, as the code has it.  When the session file is absent the reload
    changes nothing: [_session] stays as earlier calls left it.  A tool
    that needs a session then returns the no-active-session message,
    sending nothing, when the token in memory is absent or empty; when it
    is not, the tool goes past the check and sends its request. *)
Theorem absent_record_keeps_memory (c : call) (w : world) :
  requires_session c = true -> file w = None ->
  _load_session w = (Ok tt, w) /\
  (truthy (token (_session w)) = false -> run c w = (Ok no_session_message, w)) /\
  (truthy (token (_session w)) = true ->
     fst (run c w) <> Ok no_session_message /\
     exists rq, sent (snd (run c w)) = (sent w ++ [rq])%list).
Proof.
  intros Hc Hf. split; [apply load_absent; exact Hf|]. split; intros Ht.
  - apply guarded_stops; [exact Hc|].
    rewrite (require_session_absent w Hf), Ht. reflexivity.
  - destruct (guarded_requires_try c Hc) as (body & Hb).
    assert (Hw : enters_try c w w).
    { unfold enters_try. rewrite Hc, (require_session_absent w Hf), Ht.
      reflexivity. }
    rewrite (run_through_try c body w w Hb Hw).
    pose proof (try_block_past_check c body Hc Hb w) as Hy.
    destruct (try_block_sends_one c body w Hc Hb Hf) as (rq & Hs).
    destruct (body w) as [[s|e] w1]; simpl in *.
    + split; [intros H; inversion H; contradiction|]. exists rq. exact Hs.
    + split; [|exists rq; exact Hs].
      destruct c; simpl in Hc; try discriminate; simpl; discriminate.
Qed.

End Guard.

Lemma no_session_no_remote_call_witness :
  requires_session (GetInbox 1) = true /\
  run (text := plain_text) (GetInbox 1)
      (start None [Answer (ok_reply "https://api.mail.tm/messages?page=1" (JObj []))] [] [])
  = (Ok no_session_message, start None [Answer (ok_reply "https://api.mail.tm/messages?page=1" (JObj []))] [] []).
Proof.
  split; [reflexivity|].
  apply (no_session_no_remote_call (text := plain_text)). reflexivity.
Defined.

(** C4 as stated fails: the session file is absent, yet [get_inbox] finds
    the session earlier calls left in memory and answers from the remote
    API. *)
Lemma absent_record_live_session :
  file unsaved_login = None /\
  requires_session (GetInbox 1) = true /\
  fst (run (text := plain_text) (GetInbox 1) unsaved_login)
    = Ok "Inbox is empty for a@b.c." /\
  fst (run (text := plain_text) (GetInbox 1) unsaved_login)
    <> Ok no_session_message.
Proof.
  repeat split; try reflexivity. vm_compute. discriminate.
Qed.

Lemma absent_record_keeps_memory_witness :
  requires_session (GetInbox 1) = true /\ file unsaved_login = None /\
  (_load_session unsaved_login = (Ok tt, unsaved_login) /\
   (truthy (token (_session unsaved_login)) = false ->
      run (text := plain_text) (GetInbox 1) unsaved_login
      = (Ok no_session_message, unsaved_login)) /\
   (truthy (token (_session unsaved_login)) = true ->
      fst (run (text := plain_text) (GetInbox 1) unsaved_login)
        <> Ok no_session_message /\
      exists rq,
        sent (snd (run (text := plain_text) (GetInbox 1) unsaved_login))
        = (sent unsaved_login ++ [rq])%list)).
Proof.
  split; [reflexivity|]. split; [reflexivity|].
  apply (absent_record_keeps_memory (text := plain_text)); reflexivity.
Defined.

(** * [logout] *)

Section Logout.
Context {text : PyText}.

Lemma logout_cases (w : world) :
  exists a w',
    run Logout w = (Ok (logged_out_message a), w') /\
    all_absent (_session w') /\
    (file w = None -> file w' = None) /\
    (file w = None -> address (_session w) = JNull -> a = JStr "unknown") /\
    (no_fault w -> file w' = None).
Proof.
  unfold no_fault.
  destruct w as [s f r st fs d]. simpl.
  unfold logout, _load_session, _clear_session, bind, try_except, path_exists,
    read_record, remove_record, fs_step, get_session, set_session, ret, bind; simpl.
  destruct f as [[m|]|]; simpl.
  - destruct fs as [|[|] [|[|] fs]]; simpl;
      do 2 eexists; (split; [reflexivity|]); simpl;
      (split; [repeat split|]);
      (split; [discriminate|]); (split; [discriminate|]);
      intros H; try reflexivity;
      repeat match goal with
             | H : Forall _ (_ :: _) |- _ => inversion H; subst; clear H
             end; discriminate.
  - destruct fs as [|[|] [|[|] fs]]; simpl;
      do 2 eexists; (split; [reflexivity|]); simpl;
      (split; [repeat split|]);
      (split; [discriminate|]); (split; [discriminate|]);
      intros H; try reflexivity;
      repeat match goal with
             | H : Forall _ (_ :: _) |- _ => inversion H; subst; clear H
             end; discriminate.
  - do 2 eexists. split; [reflexivity|]. simpl.
    split; [repeat split|]. split; [reflexivity|].
    split; [|reflexivity]. intros _ Ha. rewrite Ha. reflexivity.
Qed.

(** C5, as the code has it.  [logout] never fails, whatever the session
    it starts from, and after each call the three fields are absent in
    memory.  When the first call has removed the session file (or there
    was none), the second call reports the address "unknown" and leaves
    no file; the first call does remove the file when the file system
    does not fail. *)
Theorem logout_twice (w : world) :
  exists a1 a2 w1 w2,
    run Logout w = (Ok (logged_out_message a1), w1) /\
    run Logout w1 = (Ok (logged_out_message a2), w2) /\
    all_absent (_session w1) /\ all_absent (_session w2) /\
    (no_fault w -> file w1 = None) /\
    (file w1 = None -> a2 = JStr "unknown" /\ file w2 = None).
Proof.
  destruct (logout_cases w) as (a1 & w1 & E1 & A1 & _ & _ & F1).
  destruct (logout_cases w1) as (a2 & w2 & E2 & A2 & N2 & U2 & _).
  exists a1, a2, w1, w2.
  split; [exact E1|]. split; [exact E2|]. split; [exact A1|].
  split; [exact A2|]. split; [exact F1|].
  intros Hf. split; [|exact (N2 Hf)].
  apply U2; [exact Hf|]. apply A1.
Qed.

End Logout.

(** C5 as stated fails: when [os.remove] raises, the file stays; the
    second [logout] loads it again, names the address instead of
    "unknown", and the file is still there afterwards. *)
Lemma logout_twice_record_stays :
  let w1 := snd (run (text := plain_text) Logout stuck_record) in
  let second := run (text := plain_text) Logout w1 in
  fst second = Ok "Logged out. Session for 'a@b.c' cleared." /\
  fst second <> Ok "Logged out. Session for 'unknown' cleared." /\
  file (snd second) <> None.
Proof. vm_compute. repeat split; discriminate. Qed.

(** * Frames of the store operations *)

Lemma load_session_cases (w : world) :
  exists w', _load_session w = (Ok tt, w')
    /\ file w' = file w /\ remote w' = remote w /\ sent w' = sent w
    /\ draws w' = draws w
    /\ (_session w' = _session w
        \/ exists m, file w = Some (Members m)
                     /\ _session w' = session_update m (_session w)).
Proof.
  unfold _load_session, bind, path_exists, try_except, read_record, fs_step,
    get_session, set_session, ret.
  destruct w as [s f r st fs d]; simpl.
  destruct f as [[m|]|]; destruct fs as [|[|] fs]; simpl;
    eexists; (split; [reflexivity|]); simpl; repeat split; eauto.
Qed.

(** * Random text *)

Lemma get_in_range (s : string) (n : nat) :
  (n < String.length s)%nat -> exists c, String.get n s = Some c.
Proof.
  revert n. induction s as [|a s IH]; simpl; intros n Hn; [lia|].
  destruct n as [|n]; [eauto|]. apply IH. lia.
Qed.

Lemma get_all_chars (P : ascii -> bool) (s : string) (n : nat) (c : ascii) :
  all_chars P s = true -> String.get n s = Some c -> P c = true.
Proof.
  revert n. induction s as [|a s IH]; simpl; intros n Hall Hget;
    [discriminate|].
  apply andb_true_iff in Hall as [Ha Hs].
  destruct n as [|n]; [congruence|]. eapply IH; eauto.
Qed.

Lemma pick_cases (P : ascii -> bool) (population : string) (w : world) :
  population <> "" -> all_chars P population = true ->
  exists c w', pick population w = (Ok c, w')
    /\ same_but_luck w w' /\ faults w' = faults w /\ P c = true.
Proof.
  intros Hp Hall. unfold pick, same_but_luck.
  assert (Hget : forall d, exists c,
             String.get (Nat.modulo d (String.length population)) population
             = Some c).
  { intros d. apply get_in_range. apply Nat.mod_upper_bound.
    destruct population; [congruence|simpl; lia]. }
  destruct (draws w) as [|d rest].
  - destruct (Hget O) as (c & Hc). rewrite Hc.
    exists c, w. repeat split. eapply get_all_chars; eauto.
  - destruct (Hget d) as (c & Hc). rewrite Hc.
    eexists c, _. split; [reflexivity|]. simpl. repeat split.
    eapply get_all_chars; eauto.
Qed.

Lemma random_text_cases (P : ascii -> bool) (population : string) (k : nat)
    (w : world) :
  population <> "" -> all_chars P population = true ->
  exists s w', random_text population k w = (Ok s, w')
    /\ same_but_luck w w' /\ faults w' = faults w
    /\ String.length s = k /\ all_chars P s = true.
Proof.
  intros Hp Hall. revert w. induction k as [|k IH]; intros w; simpl.
  - exists "", w. unfold same_but_luck. repeat split.
  - unfold bind.
    destruct (pick_cases P population w Hp Hall)
      as (c & w1 & -> & (Hm & Hf & Hr & Hs) & Hfa & Hc).
    destruct (IH w1) as (s & w2 & -> & (Hm2 & Hf2 & Hr2 & Hs2) & Hfa2 & Hl & Ha).
    exists (String c s), w2. split; [reflexivity|].
    unfold same_but_luck. simpl. rewrite Hc, Ha, Hl.
    repeat split; congruence.
Qed.

(** * Reading a run backwards *)

Lemma bind_ok {A B} (m : M A) (k : A -> M B) (w w' : world) (b : B) :
  bind m k w = (Ok b, w') ->
  exists a w1, m w = (Ok a, w1) /\ k a w1 = (Ok b, w').
Proof.
  unfold bind. destruct (m w) as [[a|e] w1]; intros H; [eauto|discriminate].
Qed.

Lemma ret_ok {A} (a b : A) (w w' : world) :
  ret a w = (Ok b, w') -> a = b /\ w' = w.
Proof. unfold ret. intros H. inversion H. auto. Qed.

Lemma lift_ok {A} (r : result A) (a : A) (w w' : world) :
  lift r w = (Ok a, w') -> r = Ok a /\ w' = w.
Proof. unfold lift. intros H. inversion H. auto. Qed.

Lemma http_ok (rq : request) (r : reply) (w w' : world) :
  http rq w = (Ok r, w') ->
  exists rest, remote w = Answer r :: rest /\
    w' = {| _session := _session w; file := file w; remote := rest;
            sent := sent w ++ [rq]; faults := faults w; draws := draws w |}.
Proof.
  unfold http. destruct (remote w) as [|[r0|msg] rest]; intros H;
    inversion H; subst. eauto.
Qed.

Lemma raise_for_status_ok (r : reply) (u : unit) (w w' : world) :
  raise_for_status r w = (Ok u, w') ->
  w' = w /\ (status_code r < 400 \/ 600 <= status_code r).
Proof.
  unfold raise_for_status. cbv zeta.
  destruct ((400 <=? status_code r) && (status_code r <? 500)) eqn:E1;
    [discriminate|].
  destruct ((500 <=? status_code r) && (status_code r <? 600)) eqn:E2;
    [discriminate|].
  intros H. inversion H. split; [reflexivity|].
  apply andb_false_iff in E1, E2. lia.
Qed.

Lemma resp_json_ok (r : reply) (j : json) (w w' : world) :
  resp_json r w = (Ok j, w') -> payload r = inr j /\ w' = w.
Proof.
  unfold resp_json. destruct (payload r); intros H; inversion H. auto.
Qed.

Section Credentials.
Context {text : PyText}.
#[local] Arguments random_text : simpl never.

Lemma choose_address_given (a : string) (w : world) :
  a <> "" -> choose_address a w = (Ok (inr a), w).
Proof.
  intros Ha. unfold choose_address.
  apply String.eqb_neq in Ha. rewrite Ha. reflexivity.
Qed.

Lemma choose_address_generated (w w1 : world) (a' : string) :
  choose_address "" w = (Ok (inr a'), w1) ->
  exists r rest body domain username,
    remote w = Answer r :: rest /\ payload r = inr body /\
    first_listed_domain body = Some domain /\
    a' = username ++ "@" ++ py_str domain /\
    String.length username = 10%nat /\
    all_chars lower_alnum username = true.
Proof.
  unfold choose_address. rewrite String.eqb_refl. intros H.
  apply bind_ok in H as (r & w2 & Hhttp & H).
  apply http_ok in Hhttp as (rest & Hrem & _).
  apply bind_ok in H as (u & w3 & _ & H).
  apply bind_ok in H as (body & w4 & Hbody & H).
  apply resp_json_ok in Hbody as (Hbody & _).
  apply bind_ok in H as (domains & w5 & Hd & H).
  apply lift_ok in Hd as (Hd & _).
  revert H. destruct (negb (truthy domains)); intros H.
  { apply ret_ok in H as (H & _). discriminate H. }
  apply bind_ok in H as (username & w6 & Hu & H).
  destruct (random_text_cases lower_alnum (ascii_lowercase ++ digits) 10 w5)
    as (username' & w6' & Hu' & _ & _ & Hlen & Hchars);
    [discriminate|reflexivity|].
  rewrite Hu in Hu'. inversion Hu'; subst username' w6'; clear Hu'.
  apply bind_ok in H as (first & w7 & Hf & H).
  apply lift_ok in Hf as (Hf & _).
  apply bind_ok in H as (domain & w8 & Hi & H).
  apply lift_ok in Hi as (Hi & _).
  apply ret_ok in H as (H & _). inversion H; subst a'; clear H.
  exists r, rest, body, domain, username. repeat split; try assumption.
  unfold first_listed_domain.
  destruct body; try discriminate. simpl in Hd. inversion Hd; subst; clear Hd.
  destruct (dict_get members "hydra:member") as [v|]; [|discriminate].
  destruct v as [| | | |[|x l]|]; try discriminate.
  - destruct s; simpl in Hf; inversion Hf; subst. discriminate Hi.
  - simpl in Hf. inversion Hf; subst.
    destruct first; try discriminate. simpl in Hi.
    destruct (dict_get members0 "domain"); [congruence|discriminate].
Qed.

Lemma choose_password_given (p : string) (w : world) :
  p <> "" -> choose_password p w = (Ok p, w).
Proof.
  intros Hp. unfold choose_password.
  apply String.eqb_neq in Hp. rewrite Hp. reflexivity.
Qed.

Lemma choose_password_generated (w : world) :
  exists p' w', choose_password "" w = (Ok p', w') /\
    same_but_luck w w' /\ faults w' = faults w /\
    String.length p' = 16%nat /\ all_chars password_char p' = true.
Proof.
  unfold choose_password. rewrite String.eqb_refl.
  apply random_text_cases; [discriminate|reflexivity].
Qed.

(** C9.  When [create_temp_email] has an address to register ([a'],
    chosen by the block that picks a domain), it goes on to register it
    with a password [p'], and:
    - called with an empty address, [a'] is ten characters, each a
      lowercase letter or a digit, then "@", then the first domain of the
      domains listing, whatever the random draws;
    - called with an empty password, [p'] is sixteen characters, each a
      letter, a digit or one of [!@#$%];
    - an address or password that was given is used as it is. *)
Theorem generated_credentials (a p a' : string) (w w1 : world) :
  choose_address a w = (Ok (inr a'), w1) ->
  exists p' w2,
    choose_password p w1 = (Ok p', w2) /\
    create_temp_email_body a p w = register a' p' w2 /\
    (a = "" ->
       exists r rest body domain username,
         remote w = Answer r :: rest /\ payload r = inr body /\
         first_listed_domain body = Some domain /\
         a' = username ++ "@" ++ py_str domain /\
         String.length username = 10%nat /\
         all_chars lower_alnum username = true) /\
    (a <> "" -> a' = a) /\
    (p = "" ->
       String.length p' = 16%nat /\ all_chars password_char p' = true) /\
    (p <> "" -> p' = p).
Proof.
  intros Ha.
  assert (Hp : exists p' w2, choose_password p w1 = (Ok p', w2) /\
            (p = "" -> String.length p' = 16%nat
                       /\ all_chars password_char p' = true) /\
            (p <> "" -> p' = p)).
  { destruct (String.eqb_spec p "") as [->|Hne].
    - destruct (choose_password_generated w1) as (p' & w2 & E & _ & _ & Hl & Hc).
      exists p', w2. split; [exact E|]. split; [auto|congruence].
    - exists p, w1. split; [apply choose_password_given; exact Hne|].
      split; [congruence|reflexivity]. }
  destruct Hp as (p' & w2 & Ep & Hgen & Hgiven).
  exists p', w2. split; [exact Ep|]. split.
  { unfold create_temp_email_body. unfold bind at 1. rewrite Ha.
    unfold bind at 1. rewrite Ep. reflexivity. }
  split.
  { intros ->. apply (choose_address_generated w w1 a' Ha). }
  split; [|split; assumption].
  intros Hne. rewrite (choose_address_given a w Hne) in Ha. congruence.
Qed.

End Credentials.

Lemma generated_credentials_witness :
  let w1 := snd (choose_address (text := plain_text) "" one_domain_listed) in
  choose_address (text := plain_text) "" one_domain_listed
    = (Ok (inr "bcdaaaaaaa@x.io"), w1) /\
  exists p' w2,
    choose_password "" w1 = (Ok p', w2) /\
    create_temp_email_body (text := plain_text) "" "" one_domain_listed
      = register (text := plain_text) "bcdaaaaaaa@x.io" p' w2 /\
    ("" = "" ->
       exists r rest body domain username,
         remote one_domain_listed = Answer r :: rest /\ payload r = inr body /\
         first_listed_domain body = Some domain /\
         "bcdaaaaaaa@x.io" = username ++ "@" ++ py_str (text := plain_text) domain /\
         String.length username = 10%nat /\
         all_chars lower_alnum username = true) /\
    ("" <> "" -> "bcdaaaaaaa@x.io" = "") /\
    ("" = "" ->
       String.length p' = 16%nat /\ all_chars password_char p' = true) /\
    ("" <> "" -> p' = "").
Proof.
  split; [reflexivity|].
  apply (generated_credentials (text := plain_text)). reflexivity.
Defined.

(** * Dedicated replies to 401, 404 and 422 *)

Lemma http_answer (rq : request) (r : reply) (rest : list http_outcome)
    (w : world) :
  remote w = Answer r :: rest ->
  http rq w =
    (Ok r, {| _session := _session w; file := file w; remote := rest;
              sent := sent w ++ [rq]; faults := faults w; draws := draws w |}).
Proof. intros H. unfold http. rewrite H. reflexivity. Qed.

Section Dedicated.
Context {text : PyText}.

Lemma require_session_frame (w : world) :
  exists answer w', _require_session w = (Ok answer, w')
    /\ file w' = file w /\ remote w' = remote w /\ sent w' = sent w
    /\ answer = (if truthy (token (_session w')) then None
                 else Some no_session_message).
Proof.
  destruct (load_session_cases w) as (w' & E & Hf & Hr & Hs & _ & _).
  unfold _require_session, bind. rewrite E. unfold get_session.
  destruct (truthy (token (_session w'))) eqn:Ht; simpl;
    do 2 eexists; (split; [reflexivity|]); rewrite Ht; auto.
Qed.

Lemma auth_headers_frame (w : world) :
  exists hs w', _auth_headers w = (Ok hs, w')
    /\ file w' = file w /\ remote w' = remote w /\ sent w' = sent w.
Proof.
  destruct (load_session_cases w) as (w' & E & Hf & Hr & Hs & _ & _).
  unfold _auth_headers, bind. rewrite E. unfold get_session.
  destruct (truthy (token (_session w'))); simpl;
    do 2 eexists; (split; [reflexivity|]); auto.
Qed.

Lemma choose_password_frame (p : string) (w : world) :
  exists p' w', choose_password p w = (Ok p', w') /\ same_but_luck w w'.
Proof.
  destruct (String.eqb_spec p "") as [->|Hne].
  - destruct (choose_password_generated w) as (p' & w' & E & Hs & _).
    eauto.
  - exists p, w. split; [apply choose_password_given; exact Hne|].
    unfold same_but_luck. auto.
Qed.

Lemma register_taken (a p : string) (r : reply) (rest : list http_outcome)
    (w : world) :
  remote w = Answer r :: rest -> status_code r = 422 ->
  fst (register a p w) = Ok (taken_message a).
Proof.
  intros Hr Hs. unfold register. unfold bind at 1.
  rewrite (http_answer _ r rest w Hr), Hs. reflexivity.
Qed.

Lemma create_taken (a p a' : string) (r : reply) (rest : list http_outcome)
    (w w1 : world) :
  choose_address a w = (Ok (inr a'), w1) ->
  remote w1 = Answer r :: rest -> status_code r = 422 ->
  fst (run (CreateTempEmail a p) w) = Ok (taken_message a').
Proof.
  intros Ha Hr Hs. simpl. unfold create_temp_email, try_except.
  unfold create_temp_email_body. unfold bind at 1. rewrite Ha.
  unfold bind at 1.
  destruct (choose_password_frame p w1) as (p' & w2 & -> & _ & _ & Hr2 & _).
  rewrite <- Hr2 in Hr.
  pose proof (register_taken a' p' r rest w2 Hr Hs) as H.
  destruct (register a' p' w2) as [[s|e] w3]; simpl in *; congruence.
Qed.

Lemma login_refused (a p : string) (r : reply) (rest : list http_outcome)
    (w : world) :
  remote w = Answer r :: rest -> status_code r = 401 ->
  fst (run (Login a p) w) = Ok login_failed_message.
Proof.
  intros Hr Hs. simpl. unfold login, try_except, login_body.
  unfold bind at 1. rewrite (http_answer _ r rest w Hr), Hs. reflexivity.
Qed.

Lemma message_not_found (c : call) (i : string) (r : reply)
    (rest : list http_outcome) (w : world) :
  addresses_message c i ->
  fst (_require_session w) = Ok None ->
  remote w = Answer r :: rest -> status_code r = 404 ->
  fst (run c w) = Ok (not_found_message i).
Proof.
  intros Hc Hq Hr Hs.
  destruct (require_session_frame w) as (ans & w1 & E1 & _ & Hr1 & _ & _).
  rewrite E1 in Hq. simpl in Hq. inversion Hq; subst ans; clear Hq.
  destruct (auth_headers_frame w1) as (hs & w2 & E2 & _ & Hr2 & _).
  rewrite <- Hr1, <- Hr2 in Hr.
  destruct Hc as [->|[->| ->]]; simpl;
    unfold read_email, mark_as_read, delete_email;
    unfold bind at 1; rewrite E1; unfold try_except;
    unfold read_email_body, mark_as_read_body, delete_email_body;
    unfold bind at 1; rewrite E2;
    unfold bind at 1; rewrite (http_answer _ r rest w2 Hr), Hs; reflexivity.
Qed.

(** C6.  The status codes 422, 401 and 404 are answered before the
    generic fallback, each by a message of its own:
    - 422 on account creation: the address-taken message, naming the
      address that was tried (given or generated);
    - 401 on login: the invalid-credentials message;
    - 404 on [read_email], [mark_as_read] or [delete_email] with an active
      session: the not-found message, with the message id in it;
    and none of the three is an "Error <verb>ing <noun>: ..." string. *)
Theorem dedicated_status_messages :
  (forall a p a' r rest w w1,
     choose_address a w = (Ok (inr a'), w1) ->
     remote w1 = Answer r :: rest -> status_code r = 422 ->
     fst (run (CreateTempEmail a p) w)
       = Ok ("Error: Address '" ++ a'
               ++ "' is already taken or invalid. Try a different one.")
     /\ (forall m, taken_message a' <> "Error creating email: " ++ m)) /\
  (forall a p r rest w,
     remote w = Answer r :: rest -> status_code r = 401 ->
     fst (run (Login a p) w) = Ok "Login failed: invalid address or password."
     /\ (forall m, login_failed_message <> "Error logging in: " ++ m)) /\
  (forall c i r rest w,
     addresses_message c i ->
     fst (_require_session w) = Ok None ->
     remote w = Answer r :: rest -> status_code r = 404 ->
     fst (run c w) = Ok ("Message '" ++ i ++ "' not found.")
     /\ (forall m, not_found_message i <> "Error " ++ gerund c ++ ": " ++ m)).
Proof.
  split; [|split].
  - intros a p a' r rest w w1 Ha Hr Hs.
    split; [exact (create_taken a p a' r rest w w1 Ha Hr Hs)|].
    intros m. discriminate.
  - intros a p r rest w Hr Hs.
    split; [exact (login_refused a p r rest w Hr Hs)|].
    intros m. discriminate.
  - intros c i r rest w Hc Hq Hr Hs.
    split; [exact (message_not_found c i r rest w Hc Hq Hr Hs)|].
    intros m. destruct Hc as [->|[->| ->]]; discriminate.
Qed.

End Dedicated.

Lemma dedicated_status_messages_witness :
  fst (run (text := plain_text) (CreateTempEmail "taken@example.com" "pw")
         (start None [Answer (status_reply "https://api.mail.tm/accounts" 422 "Unprocessable Entity")] [] []))
    = Ok "Error: Address 'taken@example.com' is already taken or invalid. Try a different one."
  /\ fst (run (text := plain_text) (Login "a@b.c" "pw")
            (start None [Answer (status_reply "https://api.mail.tm/token" 401 "Unauthorized")] [] []))
    = Ok "Login failed: invalid address or password."
  /\ fst (run (text := plain_text) (ReadEmail "nonexistent-id") session_then_404)
    = Ok "Message 'nonexistent-id' not found.".
Proof.
  destruct (dedicated_status_messages (text := plain_text)) as (Hc & Hl & Hm).
  split; [|split].
  - exact (proj1 (Hc "taken@example.com" "pw" "taken@example.com"
                    (status_reply "https://api.mail.tm/accounts" 422 "Unprocessable Entity") []
                    (start None [Answer (status_reply "https://api.mail.tm/accounts" 422 "Unprocessable Entity")] [] [])
                    (start None [Answer (status_reply "https://api.mail.tm/accounts" 422 "Unprocessable Entity")] [] [])
                    eq_refl eq_refl eq_refl)).
  - exact (proj1 (Hl "a@b.c" "pw" (status_reply "https://api.mail.tm/token" 401 "Unauthorized") []
                    (start None [Answer (status_reply "https://api.mail.tm/token" 401 "Unauthorized")] [] [])
                    eq_refl eq_refl)).
  - exact (proj1 (Hm (ReadEmail "nonexistent-id") "nonexistent-id"
                    (status_reply "https://api.mail.tm/messages/nonexistent-id" 404 "Not Found") [] session_then_404
                    (or_introl eq_refl) eq_refl eq_refl eq_refl)).
Defined.

(** * Running forwards *)

Lemma raise_for_status_pass (r : reply) (w : world) :
  status_code r < 400 \/ 600 <= status_code r ->
  raise_for_status r w = (Ok tt, w).
Proof.
  intros H. unfold raise_for_status. cbv zeta.
  replace ((400 <=? status_code r) && (status_code r <? 500)) with false
    by (symmetry; apply andb_false_iff; lia).
  replace ((500 <=? status_code r) && (status_code r <? 600)) with false
    by (symmetry; apply andb_false_iff; lia).
  reflexivity.
Qed.

Lemma resp_json_value (r : reply) (j : json) (w : world) :
  payload r = inr j -> resp_json r w = (Ok j, w).
Proof. intros H. unfold resp_json. rewrite H. reflexivity. Qed.

Section AccountInfo.
Context {text : PyText}.

Lemma usage_percent_zero_quota (used : json) :
  usage_percent used (JNum 0) = Ok "0.0".
Proof. reflexivity. Qed.

(** C8.  With an active session, when the account reply is an object whose
    quota is 0, [get_account_info] returns the account text with
    "(0.0% used)" in its storage line: the division is not performed, so
    it cannot fault, whatever the [used] member holds. *)
Theorem zero_quota_zero_percent (w : world) (r : reply)
    (rest : list http_outcome) (m : list (string * json)) :
  fst (_require_session w) = Ok None ->
  remote w = Answer r :: rest ->
  status_code r < 400 \/ 600 <= status_code r ->
  payload r = inr (JObj m) ->
  dict_get m "quota" = Some (JNum 0) ->
  fst (run GetAccountInfo w) =
    Ok ("Account:  " ++ py_str (member_or m "address" (JStr "N/A")) ++ nl ++
        "ID:       " ++ py_str (member_or m "id" (JStr "N/A")) ++ nl ++
        "Storage:  " ++ py_str (member_or m "used" (JNum 0))
          ++ " / 0 bytes (0.0% used)" ++ nl ++
        "Created:  " ++ py_str (member_or m "createdAt" (JStr "N/A")) ++ nl ++
        "Updated:  " ++ py_str (member_or m "updatedAt" (JStr "N/A"))).
Proof.
  intros Hq Hr Hs Hp Hz.
  destruct (require_session_frame w) as (ans & w1 & E1 & _ & Hr1 & _ & _).
  rewrite E1 in Hq. simpl in Hq. inversion Hq; subst ans; clear Hq.
  destruct (auth_headers_frame w1) as (hs & w2 & E2 & _ & Hr2 & _).
  rewrite <- Hr1, <- Hr2 in Hr.
  simpl. unfold get_account_info. unfold bind at 1. rewrite E1.
  unfold try_except, get_account_info_body.
  unfold bind at 1. rewrite E2.
  unfold bind at 1. rewrite (http_answer _ r rest w2 Hr).
  unfold bind at 1. rewrite (raise_for_status_pass r _ Hs).
  unfold bind at 1. rewrite (resp_json_value r _ _ Hp).
  unfold lift, render_account, py_get, member_or. cbn [rbind].
  rewrite Hz. rewrite usage_percent_zero_quota. cbn [rbind fst].
  reflexivity.
Qed.

End AccountInfo.

Lemma zero_quota_zero_percent_witness :
  fst (_require_session zero_quota_world) = Ok None /\
  remote zero_quota_world = [Answer zero_quota_reply] /\
  status_code zero_quota_reply < 400 /\
  fst (run (text := plain_text) GetAccountInfo zero_quota_world) =
    Ok ("Account:  a@b.c" ++ nl ++
        "ID:       N/A" ++ nl ++
        "Storage:  12 / 0 bytes (0.0% used)" ++ nl ++
        "Created:  N/A" ++ nl ++
        "Updated:  N/A").
Proof.
  split; [reflexivity|]. split; [reflexivity|]. split; [reflexivity|].
  exact (zero_quota_zero_percent (text := plain_text) zero_quota_world
           zero_quota_reply []
           [("address", JStr "a@b.c"); ("quota", JNum 0); ("used", JNum 12)]
           eq_refl eq_refl (or_introl eq_refl) eq_refl eq_refl).
Defined.

(** * The body [read_email] shows *)

(** The body of a message object [m], as [render_message] picks it. *)
Lemma body_of_message (m : list (string * json)) :
  choose_body (member_or m "text" (JStr "")) (member_or m "html" (JArr [JStr ""]))
  = if truthy (member_or m "text" (JStr "")) then Ok (member_or m "text" (JStr ""))
    else match dict_get m "html" with
         | None => Ok (JStr "")
         | Some html =>
             if truthy html then py_first html else Ok (JStr "(no body)")
         end.
Proof.
  unfold choose_body, member_or.
  destruct (truthy _); [reflexivity|].
  destruct (dict_get m "html"); reflexivity.
Qed.

(** C7 fails on the code.  For a message with no plain text and no html
    member, [m.get("html", [""])] supplies one empty fragment, so
    [read_email] shows an empty body; the placeholder "(no body)" only
    appears when the reply carries an html member that is empty. *)
Theorem missing_html_shows_empty_body :
  fst (run (text := plain_text) (ReadEmail "m1") bodiless_message_world)
  = Ok ("From:    unknown" ++ nl ++
        "To:      " ++ nl ++
        "Subject: hi" ++ nl ++
        "Date:    " ++ nl ++
        "ID:      m1" ++ nl ++
        repeat_str "-" 60 ++ nl ++
        "")
  /\
  fst (run (text := plain_text) (ReadEmail "m1") empty_html_world)
  = Ok ("From:    unknown" ++ nl ++
        "To:      " ++ nl ++
        "Subject: hi" ++ nl ++
        "Date:    " ++ nl ++
        "ID:      m1" ++ nl ++
        repeat_str "-" 60 ++ nl ++
        "(no body)").
Proof. split; reflexivity. Qed.

(** * Failed logins and creations *)

Lemma keeps_with {A} (I : world -> Prop) (E : exn -> world -> Prop)
    (m : M A) :
  keeps I m -> (forall e w, I w -> E e w) -> triple I m (fun _ => I) E.
Proof.
  intros H HE. eapply triple_weaken; [exact H| | |]; auto.
Qed.

Lemma item_after_item (data : json) (k1 k2 : string) (v : json) (e : exn) :
  py_item data k1 = Ok v -> py_item data k2 = Raise e ->
  e = KeyError ("'" ++ k2 ++ "'").
Proof.
  destruct data; simpl; try discriminate.
  intros _. destruct (dict_get members k2); intros H; inversion H.
  reflexivity.
Qed.

Lemma save_session_cases (w : world) :
  exists w', _save_session w = (Ok tt, w')
    /\ _session w' = _session w /\ remote w' = remote w /\ sent w' = sent w
    /\ (file w' = file w
        \/ file w' = Some (Members (session_items (_session w)))
        \/ file w' = Some Unusable).
Proof.
  unfold _save_session, write_record, try_except, bind, get_session, fs_step, ret.
  destruct w as [s f r st fs d]. simpl.
  destruct fs as [|[|] [|[|] rest]]; simpl;
    eexists; (split; [reflexivity|]); simpl; repeat split; auto.
Qed.

Lemma going_same (w w0 w1 : world) :
  _session w1 = _session w0 -> file w1 = file w0 -> remote w1 = remote w0 ->
  going w w0 -> going w w1.
Proof.
  unfold going, store_as, all_answered. intros -> -> ->. auto.
Qed.

Lemma store_as_failure (w : world) (e : exn) (w' : world) :
  store_as w w' -> store_after_failure w e w'.
Proof. intros [Hm Hf]. split; auto. Qed.

Lemma going_failure (w : world) (e : exn) (w' : world) :
  going w w' -> store_after_failure w e w'.
Proof. intros [H _]. apply store_as_failure. exact H. Qed.

Lemma http_going (w : world) (rq : request) :
  triple (going w) (http rq) (fun r w' => pending r w w')
    (store_after_failure w).
Proof.
  intros w0 [[Hm Hf] (consumed & Hc & Hall)]. unfold http.
  destruct (remote w0) as [|[r|msg] rest]; simpl.
  - apply store_as_failure. split; assumption.
  - split; [split; assumption|]. exists consumed. auto.
  - apply store_as_failure. split; assumption.
Qed.

Lemma status_going (w : world) (r : reply) :
  triple (pending r w) (raise_for_status r)
    (fun _ w' => pending r w w'
                 /\ (status_code r < 400 \/ 600 <= status_code r))
    (store_after_failure w).
Proof.
  intros w0 Hp.
  destruct (raise_for_status r w0) as [[u|e] w1] eqn:E.
  - apply raise_for_status_ok in E as [-> Hs]. auto.
  - assert (w1 = w0) as ->.
    { revert E. unfold raise_for_status. cbv zeta.
      destruct ((400 <=? status_code r) && (status_code r <? 500));
        [intros H; inversion H; reflexivity|].
      destruct ((500 <=? status_code r) && (status_code r <? 600));
        intros H; inversion H; reflexivity. }
    apply store_as_failure. apply Hp.
Qed.

Lemma json_going (w : world) (r : reply) :
  triple (fun w' => pending r w w'
                    /\ (status_code r < 400 \/ 600 <= status_code r))
    (resp_json r) (fun _ w' => going w w') (store_after_failure w).
Proof.
  intros w0 [[Hs (consumed & Hc & Hall)] Hst]. unfold resp_json.
  destruct (payload r) as [msg|j] eqn:Hp; simpl.
  - apply store_as_failure. exact Hs.
  - split; [exact Hs|]. exists (consumed ++ [Answer r])%list. split.
    + rewrite <- app_assoc. exact Hc.
    + apply Forall_app. split; [exact Hall|]. constructor; [|constructor].
      simpl. rewrite Hp.
      replace ((400 <=? status_code r) && (status_code r <? 600)) with false
        by (symmetry; apply andb_false_iff; lia).
      reflexivity.
Qed.

Lemma keeps_going_random_text (w : world) (population : string) (k : nat) :
  keeps (going w) (random_text population k).
Proof.
  induction k as [|k IH]; simpl; [apply keeps_ret|].
  apply keeps_bind; [|intros c; apply keeps_bind; [exact IH|intros; apply keeps_ret]].
  intros w0 Hw. unfold pick.
  destruct (draws w0); simpl; [exact Hw|].
  apply (going_same w w0); auto.
Qed.

Lemma establish_spec (w : world) (data : json) (a : string) :
  triple (going w) (establish data a)
    (fun _ w' => all_answered w w' /\ exists id, py_item data "id" = Ok id)
    (store_after_failure w).
Proof.
  intros w0 [[Hm Hf] Hans]. unfold store_after_failure.
  destruct (py_item data "token") as [tok|e] eqn:Ht.
  - destruct (py_item data "id") as [id|e] eqn:Hi.
    + unfold establish, assign, bind, lift, get_session, set_session.
      rewrite Ht, Hi. cbv beta iota.
      match goal with
      | |- context [_save_session ?x] =>
          destruct (save_session_cases x) as (w2 & -> & _ & Hr & _)
      end.
      simpl in Hr. split; [|eauto].
      destruct Hans as (consumed & Hc & Hall). exists consumed.
      rewrite Hr. auto.
    + pose proof (item_after_item data "token" "id" tok e Ht Hi) as He.
      simpl in He. subst e.
      unfold establish, assign, bind, lift, get_session, set_session.
      rewrite Ht, Hi. simpl. split; [exact Hf|].
      right. exists tok. rewrite Hm. auto.
  - unfold establish, bind, lift. rewrite Ht. auto.
Qed.

Ltac going_on :=
  apply keeps_with;
  [ repeat match goal with
           | |- keeps _ (ret _) => apply keeps_ret
           | |- keeps _ (lift _) => apply keeps_lift
           | |- keeps _ (random_text _ _) => apply keeps_going_random_text
           end
  | intros; apply going_failure; assumption ].

Section FailedAuth.
Context {text : PyText}.

Lemma login_body_spec (w : world) (a p : string) :
  triple (going w) (login_body a p)
    (fun s w' => store_as w w'
                 \/ (s = logged_in_message a /\ all_answered w w'))
    (store_after_failure w).
Proof.
  unfold login_body.
  eapply triple_bind; [apply http_going|]. intros resp.
  destruct (status_code resp =? 401).
  { apply triple_ret. intros w0 [H _]. auto. }
  eapply triple_bind; [apply status_going|]. intros ?.
  eapply triple_bind; [apply json_going|]. intros data.
  eapply triple_bind; [apply establish_spec|]. intros ?.
  apply triple_ret. intros w0 [H _]. auto.
Qed.

Lemma register_spec (w : world) (a p : string) :
  triple (going w) (register a p)
    (fun s w' => store_as w w' \/ (created s /\ all_answered w w'))
    (store_after_failure w).
Proof.
  unfold register.
  eapply triple_bind; [apply http_going|]. intros resp.
  destruct (status_code resp =? 422).
  { apply triple_ret. intros w0 [H _]. auto. }
  eapply triple_bind; [apply status_going|]. intros ?.
  eapply triple_bind; [apply json_going|]. intros account.
  eapply triple_bind; [apply http_going|]. intros resp2.
  eapply triple_bind; [apply status_going|]. intros ?.
  eapply triple_bind; [apply json_going|]. intros data.
  eapply triple_bind; [apply establish_spec|]. intros ?.
  intros w1 (Hans & id & Hid). unfold bind, lift. rewrite Hid. simpl.
  right. split; [|exact Hans]. exists a, p, id. reflexivity.
Qed.

Lemma choose_address_going (w : world) (a : string) :
  triple (going w) (choose_address a)
    (fun chosen w' =>
       match chosen with
       | inl _ => store_as w w'
       | inr _ => going w w'
       end)
    (store_after_failure w).
Proof.
  unfold choose_address.
  destruct (String.eqb a ""); [|apply triple_ret; auto].
  eapply triple_bind; [apply http_going|]. intros resp.
  eapply triple_bind; [apply status_going|]. intros ?.
  eapply triple_bind; [apply json_going|]. intros body.
  eapply triple_bind; [going_on|]. intros domains.
  destruct (negb (truthy domains)).
  { apply triple_ret. intros w0 [H _]. exact H. }
  eapply triple_bind; [going_on|]. intros username.
  eapply triple_bind; [going_on|]. intros first.
  eapply triple_bind; [going_on|]. intros domain.
  apply triple_ret. auto.
Qed.

Lemma create_temp_email_body_spec (w : world) (a p : string) :
  triple (going w) (create_temp_email_body a p)
    (fun s w' => store_as w w' \/ (created s /\ all_answered w w'))
    (store_after_failure w).
Proof.
  unfold create_temp_email_body.
  eapply triple_bind; [apply choose_address_going|].
  intros [msg|a']; [apply triple_ret; auto|].
  eapply triple_bind; [|intros p'; apply register_spec].
  unfold choose_password.
  destruct (String.eqb p ""); going_on.
Qed.

Lemma going_start (w : world) : going w w.
Proof.
  split; [split; reflexivity|]. exists []. split; [reflexivity|constructor].
Qed.

Lemma answered_excludes_failure (w w' : world)
    (consumed : list http_outcome) :
  all_answered w w' ->
  remote w = (consumed ++ remote w')%list ->
  ~ exists o, In o consumed /\ failed_outcome o = true.
Proof.
  intros (consumed0 & Hc & Hall) Hc' (o & Hin & Hbad).
  rewrite Hc in Hc'. apply app_inv_tail in Hc'. subst consumed0.
  rewrite Forall_forall in Hall. rewrite (Hall o Hin) in Hbad.
  discriminate Hbad.
Qed.

(** What a call of [login] or [create_temp_email] leaves behind, by the
    way it ended. *)
Lemma auth_outcome (c : call) (w : world) :
  establishes_session c = true ->
  (store_as w (snd (run c w))) \/
  (auth_succeeded c (fst (run c w)) /\ all_answered w (snd (run c w))) \/
  (file (snd (run c w)) = file w /\
   all_answered w (snd (run c w)) /\
   exists tok,
     fst (run c w) = Ok ("Error " ++ gerund c ++ ": 'id'") /\
     _session (snd (run c w)) = set_key "token" tok (_session w)).
Proof.
  intros Hc. pose proof (going_start w) as Hw.
  destruct c as [|a p|a p| | | | | | |]; try discriminate Hc; simpl.
  - unfold create_temp_email, try_except.
    pose proof (create_temp_email_body_spec w a p w Hw) as H.
    destruct (create_temp_email_body a p w) as [[s|e] w']; simpl in *.
    + destruct H as [H|[(a' & p' & id & ->) Hans]]; [auto|].
      right. left. split; [|exact Hans]. exists a', p', id. reflexivity.
    + destruct H as [Hf [Hm|(tok & -> & Hm & Hans)]].
      * left. split; assumption.
      * right. right. split; [exact Hf|]. split; [exact Hans|].
        exists tok. auto.
  - unfold login, try_except.
    pose proof (login_body_spec w a p w Hw) as H.
    destruct (login_body a p w) as [[s|e] w']; simpl in *.
    + destruct H as [H|[-> Hans]]; auto.
    + destruct H as [Hf [Hm|(tok & -> & Hm & Hans)]].
      * left. split; assumption.
      * right. right. split; [exact Hf|]. split; [exact Hans|].
        exists tok. auto.
Qed.

(** C10, as the code has it.  When [login] or [create_temp_email] does
    not report success, the session file is as it was at the start of the
    call, and so is [_session], with one exception: a token reply that
    has a "token" member and no "id" member, where the call returns
    "Error ...: 'id'" after having assigned the token.  And the fields
    are assigned and saved only after every remote call has gone through:
    if one of the calls made met a transport failure, an error status or
    a body that is not JSON, [_session] and the file are as they were. *)
Theorem failed_auth_keeps_store (c : call) (w : world) :
  establishes_session c = true ->
  (~ auth_succeeded c (fst (run c w)) ->
   file (snd (run c w)) = file w /\
   (_session (snd (run c w)) = _session w \/
    exists tok,
      fst (run c w) = Ok ("Error " ++ gerund c ++ ": 'id'") /\
      _session (snd (run c w)) = set_key "token" tok (_session w))) /\
  (forall consumed,
     remote w = (consumed ++ remote (snd (run c w)))%list ->
     (exists o, In o consumed /\ failed_outcome o = true) ->
     _session (snd (run c w)) = _session w /\ file (snd (run c w)) = file w).
Proof.
  intros Hc.
  destruct (auth_outcome c w Hc)
    as [[Hm Hf]|[[Hs Hans]|(Hf & Hans & tok & Hr & Hm)]].
  - split; [auto|]. intros; auto.
  - split; [intros Hn; contradiction|].
    intros consumed Hrem Hbad. exfalso.
    exact (answered_excludes_failure w _ consumed Hans Hrem Hbad).
  - split.
    + intros _. split; [exact Hf|]. right. exists tok. auto.
    + intros consumed Hrem Hbad. exfalso.
      exact (answered_excludes_failure w _ consumed Hans Hrem Hbad).
Qed.

End FailedAuth.

(** C10 as stated fails: the token is assigned before the missing "id"
    raises, so a login that returns an error string has changed
    [_session]. *)
Lemma failed_login_changes_token :
  let r := run (text := plain_text) (Login "a@b.c" "pw") token_without_id in
  fst r = Ok "Error logging in: 'id'" /\
  token (_session token_without_id) = JNull /\
  token (_session (snd r)) = JStr "T" /\
  _session (snd r) <> _session token_without_id.
Proof. vm_compute. repeat split. discriminate. Qed.

Lemma failed_auth_keeps_store_witness :
  let c := Login "a@b.c" "pw" in
  let r := run (text := plain_text) c token_without_id in
  establishes_session c = true /\
  (~ auth_succeeded (text := plain_text) c (fst r) ->
   file (snd r) = file token_without_id /\
   (_session (snd r) = _session token_without_id \/
    exists tok,
      fst r = Ok ("Error " ++ gerund c ++ ": 'id'") /\
      _session (snd r) = set_key "token" tok (_session token_without_id))) /\
  (forall consumed,
     remote token_without_id = (consumed ++ remote (snd r))%list ->
     (exists o, In o consumed /\ failed_outcome o = true) ->
     _session (snd r) = _session token_without_id /\ file (snd r) = file token_without_id).
Proof.
  split; [reflexivity|].
  apply (failed_auth_keeps_store (text := plain_text)). reflexivity.
Defined.

(** * The all-or-nothing invariant *)

Lemma set_key_extras_apart (k : string) (v : json) (s : session) :
  extras_apart s -> extras_apart (set_key k v s).
Proof.
  unfold extras_apart, set_key. intros H.
  destruct (String.eqb k "token") eqn:E1; [exact H|].
  destruct (String.eqb k "account_id") eqn:E2; [exact H|].
  destruct (String.eqb k "address") eqn:E3; [exact H|].
  simpl. induction (extras s) as [|[k' v'] rest IH]; simpl.
  - constructor; [|constructor]. simpl. unfold is_field.
    rewrite E1, E2, E3. reflexivity.
  - inversion H; subst. destruct (String.eqb k' k) eqn:Ek.
    + constructor; [|assumption]. simpl. unfold is_field.
      rewrite E1, E2, E3. reflexivity.
    + constructor; [assumption|]. apply IH. assumption.
Qed.

Lemma session_update_extras_apart (m : list (string * json)) (s : session) :
  extras_apart s -> extras_apart (session_update m s).
Proof.
  unfold session_update. revert s.
  induction m as [|[k v] m IH]; simpl; intros s H; [exact H|].
  apply IH. apply set_key_extras_apart. exact H.
Qed.

(** Setting keys that are not field names leaves the fields alone. *)
Lemma session_update_extras_fields (m : list (string * json)) (s : session) :
  Forall (fun kv => is_field (fst kv) = false) m ->
  token (session_update m s) = token s /\
  account_id (session_update m s) = account_id s /\
  address (session_update m s) = address s.
Proof.
  unfold session_update. revert s.
  induction m as [|[k v] m IH]; simpl; intros s H; [auto|].
  inversion H as [|? ? Hk Hm]; subst. simpl in Hk.
  unfold is_field in Hk.
  apply orb_false_iff in Hk as [Hk E3]. apply orb_false_iff in Hk as [E1 E2].
  destruct (IH (set_key k v s) Hm) as (H1 & H2 & H3).
  rewrite H1, H2, H3. unfold set_key. rewrite E1, E2, E3. auto.
Qed.

Lemma saved_record_settled (s : session) :
  all_or_nothing s -> extras_apart s ->
  record_settled (Some (Members (session_items s))).
Proof.
  intros Hs He s0. unfold session_items, session_update. simpl.
  match goal with
  | |- all_or_nothing (fold_left _ _ ?s1) =>
      destruct (session_update_extras_fields (extras s) s1 He) as (H1 & H2 & H3)
  end.
  unfold session_update in *. simpl in *.
  unfold all_or_nothing, all_present, all_absent in *.
  rewrite H1, H2, H3. exact Hs.
Qed.

Lemma clear_session_cases (w : world) :
  exists w', _clear_session w = (Ok tt, w')
    /\ _session w' = {| token := JNull; account_id := JNull; address := JNull;
                   extras := extras (_session w) |}
    /\ remote w' = remote w /\ sent w' = sent w
    /\ (file w' = file w \/ file w' = None).
Proof.
  unfold _clear_session, remove_record, try_except, bind, get_session, set_session,
    path_exists, fs_step, ret.
  destruct w as [s f r st fs d]. simpl.
  destruct f as [c|]; [destruct fs as [|[|] rest]|]; simpl;
    eexists; (split; [reflexivity|]); simpl; auto.
Qed.

Lemma triple_bind_keeps {A B} (I : world -> Prop) (m : M A) (k : A -> M B)
    (Q : B -> world -> Prop) :
  keeps I m -> (forall a, triple I (k a) Q (fun _ => I)) ->
  triple I (bind m k) Q (fun _ => I).
Proof. intros Hm Hk. eapply triple_bind; [exact Hm|exact Hk]. Qed.

(** A step that keeps [I], within a computation whose failures need
    less. *)
Lemma triple_bind_through {A B} (I : world -> Prop) (m : M A) (k : A -> M B)
    (Q : B -> world -> Prop) (E : exn -> world -> Prop) :
  keeps I m -> (forall e w, I w -> E e w) ->
  (forall a, triple I (k a) Q E) ->
  triple I (bind m k) Q E.
Proof.
  intros Hm HE Hk. eapply triple_bind; [|exact Hk].
  apply keeps_with; assumption.
Qed.

(** What follows holds of [settled_if A] for every [A]: with [A] true it
    tells that a settled world stays settled, with [A] false what a tool
    does to the fields of any world. *)
Section Settled.
Variable A : Prop.

Lemma settled_if_same (w w' : world) :
  _session w' = _session w -> file w' = file w ->
  settled_if A w -> settled_if A w'.
Proof. unfold settled_if, settled. intros -> ->. auto. Qed.

Lemma settled_ahead_same (n : nat) (w w' : world) :
  _session w' = _session w -> file w' = file w -> remote w' = remote w ->
  settled_ahead A n w -> settled_ahead A n w'.
Proof.
  unfold settled_ahead, settled_if, settled, token_ahead. intros -> -> ->. auto.
Qed.

Lemma settled_ahead_settled (n : nat) (e : exn) (w : world) :
  settled_ahead A n w -> settled_if A w.
Proof. intros [H _]. exact H. Qed.

Lemma keeps_load_session : keeps (settled_if A) _load_session.
Proof.
  intros w Hw.
  destruct (load_session_cases w) as (w' & -> & Hf & Hr & _ & _ & Hm).
  destruct Hm as [Hm|(m & Hfile & Hm)].
  - apply (settled_if_same w); assumption.
  - intros a. destruct (Hw a) as (Ha & He & Hrec).
    unfold settled. rewrite Hf, Hm. rewrite Hfile in Hrec.
    split; [apply Hrec|].
    split; [apply session_update_extras_apart; exact He|].
    rewrite Hfile. exact Hrec.
Qed.

Lemma keeps_save_session : keeps (settled_if A) _save_session.
Proof.
  intros w Hw.
  destruct (save_session_cases w) as (w' & -> & Hm & _ & _ & Hf).
  destruct Hf as [Hf|[Hf|Hf]].
  - apply (settled_if_same w); assumption.
  - intros a. destruct (Hw a) as (Ha & He & Hrec).
    unfold settled. rewrite Hf, Hm.
    split; [exact Ha|]. split; [exact He|].
    apply saved_record_settled; assumption.
  - intros a. destruct (Hw a) as (Ha & He & _).
    unfold settled. rewrite Hf, Hm.
    split; [exact Ha|]. split; [exact He|]. exact Logic.I.
Qed.

Lemma clear_session_spec :
  triple (settled_if A) _clear_session
    (fun _ w' => settled_if A w' /\ all_absent (_session w'))
    (fun _ _ => False).
Proof.
  intros w Hw.
  destruct (clear_session_cases w) as (w' & -> & Hm & _ & _ & Hf).
  split.
  - intros a. destruct (Hw a) as (Ha & He & Hrec).
    unfold settled, all_or_nothing, all_absent, extras_apart in *.
    rewrite Hm. simpl.
    split; [right; auto|]. split; [exact He|].
    destruct Hf as [-> | ->]; [exact Hrec|exact Logic.I].
  - unfold all_absent. rewrite Hm. simpl. auto.
Qed.

Lemma keeps_clear_session : keeps (settled_if A) _clear_session.
Proof.
  eapply triple_weaken; [apply clear_session_spec| | |]; simpl; tauto.
Qed.

Lemma keeps_http (rq : request) : keeps (settled_if A) (http rq).
Proof.
  intros w Hw. unfold http.
  destruct (remote w) as [|[r|msg] rest]; simpl;
    apply (settled_if_same w); auto.
Qed.

(** The token request: its reply is the one the world promised. *)
Lemma http_token (rq : request) :
  triple (settled_ahead A 0) (http rq)
    (fun r w' => settled_if A w' /\ sound_reply r = true)
    (fun _ => settled_if A).
Proof.
  intros w (Hw & Ht). unfold http. unfold token_ahead in Ht.
  destruct (remote w) as [|[r|msg] rest] eqn:E; simpl.
  - apply (settled_if_same w); auto.
  - split; [apply (settled_if_same w); auto|].
    apply Ht. reflexivity.
  - apply (settled_if_same w); auto.
Qed.

(** A request before the token request. *)
Lemma http_ahead (rq : request) (n : nat) :
  triple (settled_ahead A (S n)) (http rq)
    (fun _ => settled_ahead A n)
    (fun _ => settled_if A).
Proof.
  intros w (Hw & Ht). unfold http. unfold token_ahead in Ht.
  destruct (remote w) as [|[r|msg] rest] eqn:E; simpl.
  - apply (settled_if_same w); auto.
  - split; [apply (settled_if_same w); auto|].
    intros r0 H0. apply Ht. exact H0.
  - apply (settled_if_same w); auto.
Qed.

Lemma keeps_random_text (population : string) (k : nat) :
  keeps (settled_if A) (random_text population k).
Proof.
  revert k. induction k as [|k IH]; simpl; [apply keeps_ret|].
  apply keeps_bind; [|intros c; apply keeps_bind; [exact IH|intros; apply keeps_ret]].
  intros w Hw. unfold pick.
  destruct (draws w); simpl; [exact Hw|].
  apply (settled_if_same w); auto.
Qed.

Lemma ahead_keeps_random_text (n : nat) (population : string) (k : nat) :
  keeps (settled_ahead A n) (random_text population k).
Proof.
  revert k. induction k as [|k IH]; simpl; [apply keeps_ret|].
  apply keeps_bind; [|intros c; apply keeps_bind; [exact IH|intros; apply keeps_ret]].
  intros w Hw. unfold pick.
  destruct (draws w); simpl; [exact Hw|].
  apply (settled_ahead_same n w); auto.
Qed.

Lemma resp_json_sound (r : reply) :
  triple (fun w => settled_if A w /\ sound_reply r = true) (resp_json r)
    (fun j w' => settled_if A w' /\ sound_data j = true)
    (fun _ => settled_if A).
Proof.
  intros w (Hw & Hr). unfold resp_json, sound_reply in *.
  destruct (payload r); simpl; auto.
Qed.

(** With sound data the four statements leave the three fields
    present. *)
Lemma establish_sound (data : json) (a : string) :
  triple (fun w => settled_if A w /\ sound_data data = true)
    (establish data a)
    (fun _ w' => settled_if A w' /\ all_present (_session w'))
    (fun _ => settled_if A).
Proof.
  intros w (Hw & Hd).
  destruct (py_item data "token") as [tok|e] eqn:Ht.
  2:{ unfold establish, bind, lift. rewrite Ht. exact Hw. }
  destruct data as [| | | | |m]; try discriminate Ht.
  simpl in Ht, Hd.
  destruct (dict_get m "token") as [t|] eqn:Htk; [|discriminate Ht].
  inversion Ht; subst t; clear Ht.
  destruct (dict_get m "id") as [i|] eqn:Hi;
    [|rewrite andb_false_r in Hd; discriminate Hd].
  apply andb_true_iff in Hd as [Htok Hid].
  unfold establish, assign, bind, lift, get_session, set_session.
  simpl py_item. rewrite Htk, Hi. cbv beta iota.
  match goal with
  | |- context [_save_session ?x] => set (w1 := x)
  end.
  assert (Hp : all_present (_session w1)).
  { unfold all_present. subst w1. simpl.
    split; [destruct tok; simpl in Htok; congruence|].
    split; [destruct i; simpl in Hid; congruence|discriminate]. }
  assert (HI : settled_if A w1).
  { intros x. destruct (Hw x) as (Ha & He & Hrec).
    unfold settled. split; [left; exact Hp|].
    split; [exact He|exact Hrec]. }
  pose proof (keeps_save_session w1 HI) as Hk.
  destruct (save_session_cases w1) as (w2 & E & Hm & _).
  rewrite E in *. split; [exact Hk|]. rewrite Hm. exact Hp.
Qed.

Section SettledTools.
Context {text : PyText}.

Lemma keeps_require_session : keeps (settled_if A) _require_session.
Proof.
  unfold _require_session.
  apply keeps_bind; [apply keeps_load_session|]. intros ?.
  apply keeps_bind; [apply keeps_get_mem|]. intros s.
  destruct (negb (truthy (token s))); apply keeps_ret.
Qed.

Lemma keeps_auth_headers : keeps (settled_if A) _auth_headers.
Proof.
  unfold _auth_headers.
  apply keeps_bind; [apply keeps_load_session|]. intros ?.
  apply keeps_bind; [apply keeps_get_mem|]. intros s.
  destruct (truthy (token s)); apply keeps_ret.
Qed.

Ltac settled_steps :=
  repeat match goal with
         | |- keeps _ (ret _) => apply keeps_ret
         | |- keeps _ (raise _) => apply keeps_raise
         | |- keeps _ (lift _) => apply keeps_lift
         | |- keeps _ (raise_for_status _) => apply keeps_raise_for_status
         | |- keeps _ (resp_json _) => apply keeps_resp_json
         | |- keeps _ get_session => apply keeps_get_mem
         | |- keeps _ (http _) => apply keeps_http
         | |- keeps _ (random_text _ _) => apply keeps_random_text
         | |- keeps _ _load_session => apply keeps_load_session
         | |- keeps _ _clear_session => apply keeps_clear_session
         | |- keeps _ _require_session => apply keeps_require_session
         | |- keeps _ _auth_headers => apply keeps_auth_headers
         | |- keeps _ (bind _ _) => apply keeps_bind; [|intros ?]
         | |- keeps _ (try_except _ _) => apply keeps_try; [|intros ?]
         | |- keeps _ (if ?b then _ else _) => destruct b
         | |- keeps _ (match ?x with Some _ => _ | None => _ end) => destruct x
         end.

(** The tools that neither establish nor clear the session. *)
Lemma keeps_passive_tool (c : call) :
  establishes_session c = false -> c <> DeleteAccount -> c <> Logout ->
  keeps (settled_if A) (run c).
Proof.
  intros He Hd Hl.
  destruct c; try discriminate He; try congruence; simpl.
  - unfold list_domains, list_domains_body. settled_steps.
  - unfold get_inbox, get_inbox_body. settled_steps.
  - unfold read_email, read_email_body. settled_steps.
  - unfold mark_as_read, mark_as_read_body. settled_steps.
  - unfold delete_email, delete_email_body. settled_steps.
  - unfold get_account_info, get_account_info_body. settled_steps.
Qed.

Lemma login_settles (a p : string) :
  triple (settled_ahead A 0) (login a p)
    (fun s w' => settled_if A w'
                 /\ (s = logged_in_message a -> all_present (_session w')))
    (fun _ => settled_if A).
Proof.
  unfold login.
  eapply triple_try with (E' := fun _ => settled_if A).
  2:{ intros e. apply triple_ret. intros w Hw. split; [exact Hw|].
      intros H. discriminate H. }
  unfold login_body.
  eapply triple_bind; [apply http_token|]. intros resp.
  destruct (status_code resp =? 401).
  { apply triple_ret. intros w [Hw _]. split; [exact Hw|].
    intros H. discriminate H. }
  eapply triple_bind.
  { apply keeps_with; [apply keeps_raise_for_status|simpl; tauto]. }
  intros ?. eapply triple_bind; [apply resp_json_sound|].
  intros data. eapply triple_bind; [apply establish_sound|].
  intros ?. apply triple_ret. intros w [Hw Hp]. auto.
Qed.

Lemma choose_address_settles (a : string) :
  triple (settled_ahead A (if String.eqb a "" then 2 else 1))
    (choose_address a)
    (fun chosen w' =>
       settled_ahead A 1 w' /\
       match chosen with
       | inl msg => msg = "No domains available to create an account."
       | inr _ => True
       end)
    (fun _ => settled_if A).
Proof.
  unfold choose_address.
  destruct (String.eqb a ""); [|apply triple_ret; auto].
  eapply triple_bind; [apply http_ahead|]. intros resp.
  apply triple_bind_through;
    [apply keeps_raise_for_status|apply settled_ahead_settled|]. intros ?.
  apply triple_bind_through;
    [apply keeps_resp_json|apply settled_ahead_settled|]. intros body.
  apply triple_bind_through;
    [apply keeps_lift|apply settled_ahead_settled|]. intros domains.
  destruct (negb (truthy domains)); [apply triple_ret; auto|].
  apply triple_bind_through;
    [apply ahead_keeps_random_text|apply settled_ahead_settled|].
  intros username.
  apply triple_bind_through;
    [apply keeps_lift|apply settled_ahead_settled|]. intros first.
  apply triple_bind_through;
    [apply keeps_lift|apply settled_ahead_settled|]. intros domain.
  apply triple_ret; auto.
Qed.

Lemma register_settles (a p : string) :
  triple (settled_ahead A 1) (register a p)
    (fun s w' => settled_if A w' /\ (created s -> all_present (_session w')))
    (fun _ => settled_if A).
Proof.
  unfold register.
  eapply triple_bind; [apply http_ahead|]. intros resp.
  destruct (status_code resp =? 422).
  { apply triple_ret. intros w [Hw _]. split; [exact Hw|].
    intros (a' & p' & id & H). discriminate H. }
  apply triple_bind_through;
    [apply keeps_raise_for_status|apply settled_ahead_settled|]. intros ?.
  apply triple_bind_through;
    [apply keeps_resp_json|apply settled_ahead_settled|]. intros account.
  eapply triple_bind; [apply http_token|]. intros resp2.
  eapply triple_bind.
  { apply keeps_with; [apply keeps_raise_for_status|simpl; tauto]. }
  intros ?. eapply triple_bind; [apply resp_json_sound|].
  intros data. eapply triple_bind; [apply establish_sound|].
  intros ?. eapply triple_bind.
  { apply keeps_with; [apply keeps_lift|simpl; tauto]. }
  intros id. apply triple_ret. intros w [Hw Hp]. auto.
Qed.

Lemma create_temp_email_settles (a p : string) :
  triple (settled_ahead A (if String.eqb a "" then 2 else 1))
    (create_temp_email a p)
    (fun s w' => settled_if A w' /\ (created s -> all_present (_session w')))
    (fun _ => settled_if A).
Proof.
  unfold create_temp_email.
  eapply triple_try with (E' := fun _ => settled_if A).
  2:{ intros e. apply triple_ret. intros w Hw. split; [exact Hw|].
      intros (a' & p' & id & H). discriminate H. }
  unfold create_temp_email_body.
  eapply triple_bind; [apply choose_address_settles|].
  intros [msg|a'].
  { apply triple_ret. intros w [[Hw _] ->]. split; [exact Hw|].
    intros (a' & p' & id & H). discriminate H. }
  eapply triple_weaken with (P' := settled_ahead A 1);
    [|intros w [Hw _]; exact Hw|intros s w H; exact H|intros e w H; exact H].
  apply triple_bind_through;
    [|apply settled_ahead_settled|intros p'; apply register_settles].
  unfold choose_password.
  destruct (String.eqb p ""); [apply ahead_keeps_random_text|apply keeps_ret].
Qed.

Lemma require_session_settles :
  triple (settled_if A) _require_session
    (fun answer w' =>
       settled_if A w' /\
       (answer = None \/ answer = Some no_session_message))
    (fun _ => settled_if A).
Proof.
  unfold _require_session.
  apply triple_bind_keeps; [apply keeps_load_session|]. intros ?.
  apply triple_bind_keeps; [apply keeps_get_mem|]. intros s.
  destruct (negb (truthy (token s))); apply triple_ret; auto.
Qed.

Lemma delete_account_settles :
  triple (settled_if A) delete_account
    (fun s w' => settled_if A w' /\ (deleted s -> all_absent (_session w')))
    (fun _ => settled_if A).
Proof.
  unfold delete_account.
  eapply triple_bind; [apply require_session_settles|].
  intros [msg|].
  { apply triple_ret. intros w [Hw [H|H]]; [discriminate H|].
    inversion H; subst msg. split; [exact Hw|].
    intros (x & Hx). discriminate Hx. }
  eapply triple_weaken with (P' := settled_if A);
    [|intros w [Hw _]; exact Hw|intros s w H; exact H|intros e w H; exact H].
  apply triple_bind_keeps; [apply keeps_get_mem|]. intros s.
  eapply triple_try with (E' := fun _ => settled_if A).
  2:{ intros e. apply triple_ret. intros w Hw. split; [exact Hw|].
      intros (x & Hx). discriminate Hx. }
  unfold delete_account_body.
  apply triple_bind_keeps; [apply keeps_auth_headers|]. intros hs.
  apply triple_bind_keeps; [apply keeps_http|]. intros resp.
  destruct (status_code resp =? 204).
  - eapply triple_bind.
    { eapply triple_weaken; [apply clear_session_spec| | |]; simpl;
        [auto|intros ? ? H; exact H|tauto]. }
    intros ?. apply triple_ret. intros w [Hw Ha]. auto.
  - apply triple_bind_keeps; [apply keeps_raise_for_status|]. intros ?.
    apply triple_ret. intros w Hw. split; [exact Hw|].
    intros (x & Hx). discriminate Hx.
Qed.

Lemma logout_settles :
  triple (settled_if A) logout
    (fun _ w' => settled_if A w' /\ all_absent (_session w'))
    (fun _ => settled_if A).
Proof.
  unfold logout.
  apply triple_bind_keeps; [apply keeps_load_session|]. intros ?.
  apply triple_bind_keeps; [apply keeps_get_mem|]. intros s.
  eapply triple_bind.
  { eapply triple_weaken; [apply clear_session_spec| | |]; simpl;
      [auto|intros ? ? H; exact H|tauto]. }
  intros ?. apply triple_ret. auto.
Qed.

(** One call, from a world that is settled when [A] holds and whose token
    request meets a sound reply. *)
Lemma run_settles (c : call) (w : world) :
  settled_if A w -> token_reply_sound c w ->
  settled_if A (snd (run c w)) /\
  (auth_succeeded c (fst (run c w)) -> all_present (_session (snd (run c w)))) /\
  (session_cleared c (fst (run c w)) -> all_absent (_session (snd (run c w)))).
Proof.
  intros Hw Ht.
  destruct (returns_run c w) as (s & w' & E). rewrite E. simpl.
  destruct c as [|a p|a p|page|i|i|i| | |];
    try (match type of E with
         | run ?c0 w = _ =>
             pose proof (keeps_passive_tool c0 eq_refl
                           ltac:(discriminate) ltac:(discriminate) w Hw) as H
         end;
         rewrite E in H; simpl in H;
         split; [exact H|]; split; simpl; contradiction).
  - pose proof (create_temp_email_settles a p w (conj Hw Ht)) as H.
    simpl in E. rewrite E in H. simpl in H. destruct H as [H1 H3].
    split; [exact H1|]. split; simpl; [|contradiction].
    intros (a' & p' & id & Hs). inversion Hs; subst s.
    apply H3. exists a', p', id. reflexivity.
  - pose proof (login_settles a p w (conj Hw Ht)) as H.
    simpl in E. rewrite E in H. simpl in H. destruct H as [H1 H3].
    split; [exact H1|]. split; simpl; [|contradiction].
    intros Hs. inversion Hs; subst s. apply H3. reflexivity.
  - pose proof (delete_account_settles w Hw) as H.
    simpl in E. rewrite E in H. simpl in H. destruct H as [H1 H3].
    split; [exact H1|]. split; simpl; [contradiction|].
    intros (x & Hs). inversion Hs; subst s.
    apply H3. exists x. reflexivity.
  - pose proof (logout_settles w Hw) as H.
    simpl in E. rewrite E in H. simpl in H. destruct H as [H1 H3].
    split; [exact H1|]. split; simpl; [contradiction|].
    intros _. exact H3.
Qed.

End SettledTools.

End Settled.

Section AllOrNothing.
Context {text : PyText}.

(** C1, as the code has it.
    - After [logout], or a [delete_account] that reports the deletion,
      the three fields are absent, whatever the world.
    - After a [login] or [create_temp_email] that reports success the
      three fields are present, provided the reply to its token request
      is not one whose token is [null] or whose id is [null] or missing.
    - Under the same proviso, a tool call that starts with an
      all-or-nothing session and a session file that (if any) loads to an
      all-or-nothing session ends with such a session and file again. *)
Theorem session_all_or_nothing (c : call) (w : world) :
  (session_cleared c (fst (run c w)) -> all_absent (_session (snd (run c w)))) /\
  (token_reply_sound c w ->
   (auth_succeeded c (fst (run c w)) -> all_present (_session (snd (run c w)))) /\
   (settled w -> settled (snd (run c w)))).
Proof.
  split.
  - intros Hc.
    assert (Ht : token_reply_sound c w)
      by (destruct c; simpl in Hc; try contradiction; exact Logic.I).
    exact (proj2 (proj2 (run_settles False c w (fun x => False_ind _ x) Ht)) Hc).
  - intros Ht. split.
    + exact (proj1 (proj2 (run_settles False c w (fun x => False_ind _ x) Ht))).
    + intros Hs. exact (proj1 (run_settles True c w (fun _ => Hs) Ht) Logic.I).
Qed.

End AllOrNothing.

(** C1 as stated fails: the fields are assigned whatever the token reply
    holds, so a [login] that reports success can leave the token and the
    account id absent beside a present address. *)
Lemma successful_login_partial_session :
  let r := run (text := plain_text) (Login "a@b.c" "pw") null_token_reply in
  fst r = Ok "Logged in as a@b.c. Session active." /\
  token (_session (snd r)) = JNull /\
  account_id (_session (snd r)) = JNull /\
  address (_session (snd r)) = JStr "a@b.c" /\
  ~ all_present (_session (snd r)) /\
  ~ all_or_nothing (_session (snd r)).
Proof.
  vm_compute. repeat split.
  - intros (H & _). apply H. reflexivity.
  - intros [(H & _)|(_ & _ & H)]; [apply H; reflexivity|discriminate H].
Qed.

Lemma session_all_or_nothing_witness :
  let c := Login "a@b.c" "pw" in
  let r := run (text := plain_text) c good_token_reply in
  token_reply_sound c good_token_reply /\ settled good_token_reply /\
  all_present (_session (snd r)) /\ settled (snd r).
Proof.
  assert (Ht : token_reply_sound (Login "a@b.c" "pw") good_token_reply).
  { intros r H. inversion H. reflexivity. }
  assert (Hs : settled good_token_reply).
  { split; [right; repeat split|]. split; [constructor|exact Logic.I]. }
  destruct (session_all_or_nothing (text := plain_text) (Login "a@b.c" "pw")
              good_token_reply) as (_ & H).
  destruct (H Ht) as (Hp & Hk).
  split; [exact Ht|]. split; [exact Hs|].
  split; [apply Hp; reflexivity|exact (Hk Hs)].
Defined.

(** * Further properties *)

(** ** Loading and saving *)

Lemma session_update_app (m m' : list (string * json)) (s : session) :
  session_update (m ++ m') s = session_update m' (session_update m s).
Proof. unfold session_update. apply fold_left_app. Qed.

Lemma updated_value_snoc (m : list (string * json)) (k k' : string)
    (v old : json) :
  updated_value (m ++ [(k', v)]) k old
  = if String.eqb k' k then v else updated_value m k old.
Proof.
  unfold updated_value. rewrite rev_app_distr. simpl.
  destruct (String.eqb k' k); reflexivity.
Qed.

Lemma session_update_fields (m : list (string * json)) (s : session) :
  token (session_update m s) = updated_value m "token" (token s) /\
  account_id (session_update m s)
    = updated_value m "account_id" (account_id s) /\
  address (session_update m s) = updated_value m "address" (address s).
Proof.
  induction m as [|[k v] m IH] using rev_ind; [repeat split|].
  destruct IH as (Ht & Hi & Ha).
  rewrite session_update_app, !updated_value_snoc.
  change (session_update [(k, v)] (session_update m s))
    with (set_key k v (session_update m s)).
  unfold set_key.
  destruct (String.eqb k "token") eqn:E1.
  { apply String.eqb_eq in E1. subst k. simpl. auto. }
  destruct (String.eqb k "account_id") eqn:E2.
  { apply String.eqb_eq in E2. subst k. simpl. auto. }
  destruct (String.eqb k "address") eqn:E3.
  { apply String.eqb_eq in E3. subst k. simpl. auto. }
  simpl. auto.
Qed.

(** X1.  [_load_session] never fails and never touches the file.  When
    the file holds a JSON object and can be read, each of the three
    fields takes the value the file gives it and keeps the value it had
    in memory when the file does not name it; when there is no file, or
    it cannot be read or parsed, [_session] is left as it was. *)
Theorem load_session_merges (w : world) :
  exists w',
    _load_session w = (Ok tt, w') /\ file w' = file w /\
    match file w with
    | Some (Members m) =>
        if next_fault w then _session w' = _session w
        else
          token (_session w') = updated_value m "token" (token (_session w)) /\
          account_id (_session w')
            = updated_value m "account_id" (account_id (_session w)) /\
          address (_session w')
            = updated_value m "address" (address (_session w))
    | _ => _session w' = _session w
    end.
Proof.
  unfold _load_session, bind, path_exists, try_except, read_record, fs_step,
    get_session, set_session, ret, next_fault.
  destruct w as [s f r st fs d]; simpl.
  destruct f as [[m|]|]; destruct fs as [|[|] fs]; simpl;
    eexists; (split; [reflexivity|]); simpl; (split; [reflexivity|]);
    try reflexivity; apply session_update_fields.
Qed.

Lemma dict_set_fresh (k : string) (v : json) (m : list (string * json)) :
  ~ In k (map fst m) -> dict_set k v m = (m ++ [(k, v)])%list.
Proof.
  induction m as [|[k' v'] m IH]; simpl; intros H; [reflexivity|].
  destruct (String.eqb k' k) eqn:E.
  - apply String.eqb_eq in E. subst k'. exfalso. apply H. left. reflexivity.
  - rewrite IH; [reflexivity|]. intros Hin. apply H. right. exact Hin.
Qed.

(** Setting, one after the other, fresh keys that are not field names
    appends them to the further keys. *)
Lemma session_update_appends (l : list (string * json)) (s : session) :
  Forall (fun kv => is_field (fst kv) = false) l ->
  NoDup (map fst (extras s) ++ map fst l) ->
  session_update l s
  = {| token := token s; account_id := account_id s; address := address s;
       extras := extras s ++ l |}.
Proof.
  revert s. induction l as [|[k v] l IH]; intros s Hf Hn.
  - simpl. rewrite app_nil_r. destruct s; reflexivity.
  - inversion Hf as [|? ? Hk Hl]; subst. simpl in Hk.
    unfold is_field in Hk.
    apply orb_false_iff in Hk as [Hk E3]. apply orb_false_iff in Hk as [E1 E2].
    change (session_update ((k, v) :: l) s)
      with (session_update l (set_key k v s)).
    assert (Hfresh : ~ In k (map fst (extras s))).
    { intros Hin. apply NoDup_remove_2 in Hn. apply Hn.
      apply in_or_app. left. exact Hin. }
    assert (Hset : set_key k v s
                   = {| token := token s; account_id := account_id s;
                        address := address s;
                        extras := extras s ++ [(k, v)] |}).
    { unfold set_key. rewrite E1, E2, E3, (dict_set_fresh k v _ Hfresh).
      reflexivity. }
    rewrite Hset, IH; simpl; [|exact Hl|].
    + rewrite <- app_assoc. reflexivity.
    + rewrite map_app, <- app_assoc. simpl.
      simpl in Hn. exact Hn.
Qed.

Lemma save_then_load (s : session) :
  extras_proper s -> session_update (session_items s) empty_session = s.
Proof.
  intros [Ha Hn]. unfold session_items.
  change (session_update
            (("token", token s) :: ("account_id", account_id s)
               :: ("address", address s) :: extras s) empty_session)
    with (session_update (extras s)
            {| token := token s; account_id := account_id s;
               address := address s; extras := [] |}).
  rewrite session_update_appends; simpl; try assumption.
  destruct s; reflexivity.
Qed.

(** X2.  What [_save_session] writes, [_load_session] reads back: when
    the file system does not fail, a session saved by one process is, in
    the process started next, the whole of [_session] once loaded. *)
Theorem saved_session_survives_restart (w : world) :
  no_fault w -> extras_proper (_session w) ->
  _session (snd (_load_session (restart (snd (_save_session w)))))
  = _session w.
Proof.
  intros Hnf Hp. unfold no_fault in Hnf.
  unfold _save_session, write_record, _load_session, restart, bind,
    try_except, path_exists, read_record, fs_step, get_session, set_session,
    ret.
  destruct w as [s f r st fs d]; simpl in *.
  destruct fs as [|[|] [|[|] [|[|] fs]]]; simpl;
    try (apply save_then_load; exact Hp);
    repeat match goal with
           | H : Forall _ (_ :: _) |- _ => inversion H; subst; clear H
           end; discriminate.
Qed.

Lemma saved_session_survives_restart_witness :
  let w := {| _session := {| token := JStr "T"; account_id := JStr "I";
                             address := JStr "a@b.c";
                             extras := [("note", JNum 1)] |};
              file := None; remote := []; sent := []; faults := [false];
              draws := [] |} in
  no_fault w /\ extras_proper (_session w) /\
  _session (snd (_load_session (restart (snd (_save_session w)))))
  = _session w.
Proof.
  assert (Hnf : no_fault
                  {| _session := {| token := JStr "T"; account_id := JStr "I";
                                    address := JStr "a@b.c";
                                    extras := [("note", JNum 1)] |};
                     file := None; remote := []; sent := [];
                     faults := [false]; draws := [] |}).
  { repeat constructor. }
  assert (Hp : extras_proper
                 {| token := JStr "T"; account_id := JStr "I";
                    address := JStr "a@b.c";
                    extras := [("note", JNum 1)] |}).
  { split; repeat constructor. simpl. tauto. }
  split; [exact Hnf|]. split; [exact Hp|].
  exact (saved_session_survives_restart _ Hnf Hp).
Defined.

(** ** Who touches the session file *)

Section FileInvariants.
Variable I : world -> Prop.
Hypothesis I_file : on_file I.

Lemma file_keeps_http (rq : request) : keeps I (http rq).
Proof.
  intros w Hw. unfold http.
  destruct (remote w) as [|[r|msg] rest]; simpl;
    (eapply I_file; [|exact Hw]; reflexivity).
Qed.

Lemma file_keeps_pick (population : string) : keeps I (pick population).
Proof.
  intros w Hw. unfold pick.
  destruct (draws w) as [|d rest]; simpl; try exact Hw;
    (eapply I_file; [|exact Hw]; reflexivity).
Qed.

Lemma file_keeps_random_text (population : string) (k : nat) :
  keeps I (random_text population k).
Proof.
  induction k as [|k IH]; simpl; [apply keeps_ret|].
  apply keeps_bind; [apply file_keeps_pick|]. intros c.
  apply keeps_bind; [exact IH|]. intros rest. apply keeps_ret.
Qed.

Lemma file_keeps_set_session (s : session) : keeps I (set_session s).
Proof. intros w Hw. simpl. eapply I_file; [|exact Hw]. reflexivity. Qed.

Lemma file_keeps_load_session : keeps I _load_session.
Proof.
  intros w Hw.
  destruct (load_session_cases w) as (w' & -> & Hf & _).
  eapply I_file; [|exact Hw]. exact Hf.
Qed.

Lemma file_keeps_assign (k : string) (v : json) : keeps I (assign k v).
Proof.
  unfold assign. apply keeps_bind; [apply keeps_get_mem|]. intros s.
  apply file_keeps_set_session.
Qed.

End FileInvariants.

Lemma file_is_on_file (f : option stored) : on_file (file_is f).
Proof. intros w w' Hf H. unfold file_is in *. congruence. Qed.

Ltac file_steps :=
  repeat match goal with
         | |- keeps _ (ret _) => apply keeps_ret
         | |- keeps _ (raise _) => apply keeps_raise
         | |- keeps _ (lift _) => apply keeps_lift
         | |- keeps _ (raise_for_status _) => apply keeps_raise_for_status
         | |- keeps _ (resp_json _) => apply keeps_resp_json
         | |- keeps _ get_session => apply keeps_get_mem
         | |- keeps _ (http _) => apply file_keeps_http; apply file_is_on_file
         | |- keeps _ (random_text _ _) =>
             apply file_keeps_random_text; apply file_is_on_file
         | |- keeps _ _load_session =>
             apply file_keeps_load_session; apply file_is_on_file
         | |- keeps _ (assign _ _) =>
             apply file_keeps_assign; apply file_is_on_file
         | |- keeps _ (bind _ _) => apply keeps_bind; [|intros ?]
         | |- keeps _ (try_except _ _) => apply keeps_try; [|intros ?]
         | |- keeps _ (if ?b then _ else _) => destruct b
         | |- keeps _ (match ?x with Some _ => _ | None => _ end) => destruct x
         | |- keeps _ (match ?x with inl _ => _ | inr _ => _ end) => destruct x
         end.

Ltac file_kept :=
  apply keeps_with; [file_steps|intros; left; assumption].

Section FileDiscipline.
Context {text : PyText}.

Lemma passive_tool_keeps_file (f : option stored) (c : call) :
  establishes_session c = false -> c <> DeleteAccount -> c <> Logout ->
  keeps (file_is f) (run c).
Proof.
  intros He Hd Hl.
  destruct c; try discriminate He; try congruence; simpl.
  - unfold list_domains, list_domains_body. file_steps.
  - unfold get_inbox, _require_session, get_inbox_body, _auth_headers.
    file_steps.
  - unfold read_email, _require_session, read_email_body, _auth_headers.
    file_steps.
  - unfold mark_as_read, _require_session, mark_as_read_body, _auth_headers.
    file_steps.
  - unfold delete_email, _require_session, delete_email_body, _auth_headers.
    file_steps.
  - unfold get_account_info, _require_session, get_account_info_body,
      _auth_headers. file_steps.
Qed.

Lemma establish_file (f : option stored) (data : json) (a : string) :
  triple (file_is f) (establish data a)
    (fun _ => kept_or_saved f) (fun _ => kept_or_saved f).
Proof.
  unfold establish.
  eapply triple_bind; [file_kept|]. intros tok.
  eapply triple_bind; [file_kept|]. intros ?.
  eapply triple_bind; [file_kept|]. intros id.
  eapply triple_bind; [file_kept|]. intros ?.
  eapply triple_bind; [file_kept|]. intros ?.
  intros w Hw.
  destruct (save_session_cases w) as (w' & -> & Hm & _ & _ & Hf).
  unfold kept_or_saved, file_is in *. rewrite Hm.
  destruct Hf as [Hf|[Hf|Hf]];
    [left; congruence|right; left; exact Hf|right; right; exact Hf].
Qed.

Lemma login_file (f : option stored) (a p : string) :
  triple (file_is f) (login a p) (fun _ => kept_or_saved f)
    (fun _ => kept_or_saved f).
Proof.
  unfold login.
  eapply triple_try with (E' := fun _ => kept_or_saved f).
  2:{ intros e. apply triple_ret. auto. }
  unfold login_body.
  eapply triple_bind; [file_kept|]. intros resp.
  destruct (status_code resp =? 401).
  { apply triple_ret. intros w Hw. left. exact Hw. }
  eapply triple_bind; [file_kept|]. intros ?.
  eapply triple_bind; [file_kept|]. intros data.
  eapply triple_bind; [apply establish_file|]. intros ?.
  apply triple_ret. auto.
Qed.

Lemma create_temp_email_file (f : option stored) (a p : string) :
  triple (file_is f) (create_temp_email a p) (fun _ => kept_or_saved f)
    (fun _ => kept_or_saved f).
Proof.
  unfold create_temp_email.
  eapply triple_try with (E' := fun _ => kept_or_saved f).
  2:{ intros e. apply triple_ret. auto. }
  unfold create_temp_email_body.
  eapply triple_bind.
  { unfold choose_address. file_kept. }
  intros [msg|a'].
  { apply triple_ret. intros w Hw. left. exact Hw. }
  eapply triple_bind.
  { unfold choose_password. file_kept. }
  intros p'. unfold register.
  eapply triple_bind; [file_kept|]. intros resp.
  destruct (status_code resp =? 422).
  { apply triple_ret. intros w Hw. left. exact Hw. }
  eapply triple_bind; [file_kept|]. intros ?.
  eapply triple_bind; [file_kept|]. intros account.
  eapply triple_bind; [file_kept|]. intros resp2.
  eapply triple_bind; [file_kept|]. intros ?.
  eapply triple_bind; [file_kept|]. intros data.
  eapply triple_bind; [apply establish_file|]. intros ?.
  intros w Hw. unfold bind, lift.
  destruct (py_item data "id"); simpl; exact Hw.
Qed.

Lemma clear_session_file (f : option stored) :
  triple (file_is f) _clear_session
    (fun _ w' => file w' = f \/ file w' = None) (fun _ => file_is f).
Proof.
  intros w Hw.
  destruct (clear_session_cases w) as (w' & -> & _ & _ & _ & Hf).
  unfold file_is in Hw. destruct Hf as [Hf|Hf]; [left; congruence|auto].
Qed.

Lemma delete_account_file (f : option stored) :
  triple (file_is f) delete_account
    (fun s w' => file w' = f \/ (file w' = None /\ deleted s))
    (fun _ => file_is f).
Proof.
  unfold delete_account.
  apply triple_bind_keeps.
  { unfold _require_session. file_steps. }
  intros [msg|]; [apply triple_ret; auto|].
  apply triple_bind_keeps; [file_steps|]. intros s.
  eapply triple_try with (E' := fun _ => file_is f).
  2:{ intros e. apply triple_ret. auto. }
  unfold delete_account_body.
  apply triple_bind_keeps.
  { unfold _auth_headers. file_steps. }
  intros hs.
  apply triple_bind_keeps; [file_steps|]. intros resp.
  destruct (status_code resp =? 204).
  - eapply triple_bind; [apply clear_session_file|]. intros ?.
    apply triple_ret. intros w [Hw|Hw]; [auto|].
    right. split; [exact Hw|]. exists (address s). reflexivity.
  - apply triple_bind_keeps; [file_steps|]. intros ?.
    apply triple_ret. auto.
Qed.

Lemma logout_file (f : option stored) :
  triple (file_is f) logout
    (fun _ w' => file w' = f \/ file w' = None) (fun _ => file_is f).
Proof.
  unfold logout.
  apply triple_bind_keeps; [file_steps|]. intros ?.
  apply triple_bind_keeps; [file_steps|]. intros s.
  eapply triple_bind; [apply clear_session_file|]. intros ?.
  apply triple_ret. auto.
Qed.

(** X3.  Who touches the session file.  [login] and [create_temp_email]
    leave it as it was, or write into it the session then in memory, or,
    when the writing fails once the file is open, leave it without
    content that can be loaded; [logout] leaves it or removes it;
    [delete_account] removes it only when it reports the deletion; the
    six other tools never change it. *)
Theorem file_discipline (c : call) (w : world) :
  match c with
  | Login _ _ | CreateTempEmail _ _ =>
      file (snd (run c w)) = file w \/
      file (snd (run c w))
        = Some (Members (session_items (_session (snd (run c w))))) \/
      file (snd (run c w)) = Some Unusable
  | Logout =>
      file (snd (run c w)) = file w \/ file (snd (run c w)) = None
  | DeleteAccount =>
      file (snd (run c w)) = file w \/
      (file (snd (run c w)) = None /\
       exists a, fst (run c w) = Ok (account_deleted_message a))
  | _ => file (snd (run c w)) = file w
  end.
Proof.
  assert (Hw : file_is (file w) w) by reflexivity.
  destruct (returns_run c w) as (s & w' & E).
  destruct c as [|a p|a p|page|i|i|i| | |];
    try (match type of E with
         | run ?c0 w = _ =>
             pose proof (passive_tool_keeps_file (file w) c0 eq_refl
                           ltac:(discriminate) ltac:(discriminate) w Hw) as H
         end;
         rewrite E in *; exact H).
  - pose proof (create_temp_email_file (file w) a p w Hw) as H.
    simpl in E. simpl run. rewrite E in *. exact H.
  - pose proof (login_file (file w) a p w Hw) as H.
    simpl in E. simpl run. rewrite E in *. exact H.
  - pose proof (delete_account_file (file w) w Hw) as H.
    simpl in E. simpl run. rewrite E in *. simpl in *.
    destruct H as [H|[H (x & ->)]]; [auto|]. right. eauto.
  - pose proof (logout_file (file w) w Hw) as H.
    simpl in E. simpl run. rewrite E in *. exact H.
Qed.

End FileDiscipline.

(** ** The requests a call sends *)

Lemma try_ret_snd {A} (body : M A) (f : exn -> A) (w : world) :
  snd (try_except body (fun e => ret (f e)) w) = snd (body w).
Proof.
  unfold try_except. destruct (body w) as [[a|e] w']; reflexivity.
Qed.

Lemma sent_bare_on_traffic (w : world) (lo hi : nat) :
  on_traffic (sent_bare w lo hi).
Proof.
  intros w1 w2 _ Hs (new & H & Hl & Hf). exists new. rewrite Hs. auto.
Qed.

Lemma sent_bare_wider (w : world) (lo hi lo' hi' : nat) (w0 : world) :
  (lo' <= lo)%nat -> (hi <= hi')%nat ->
  sent_bare w lo hi w0 -> sent_bare w lo' hi' w0.
Proof.
  intros H1 H2 (new & H & Hl & Hf). exists new. repeat split; try assumption; lia.
Qed.

Lemma http_bare (w : world) (lo hi : nat) (rq : request) :
  rq_headers rq = [] ->
  triple (sent_bare w lo hi) (http rq)
    (fun _ => sent_bare w (S lo) (S hi)) (fun _ => sent_bare w (S lo) (S hi)).
Proof.
  intros Hh w0 (new & H & Hl & Hf).
  assert (Hb : sent_bare w (S lo) (S hi) (snd (http rq w0))).
  { exists (new ++ [rq])%list. rewrite http_sent, H, app_assoc.
    split; [reflexivity|]. rewrite length_app. simpl. split; [lia|].
    apply Forall_app. split; [exact Hf|]. constructor; [exact Hh|constructor]. }
  destruct (http rq w0) as [[r|e] w1]; exact Hb.
Qed.

Lemma traffic_keeps_random (I : world -> Prop) (population : string)
    (k : nat) :
  on_traffic I -> keeps I (random_text population k).
Proof.
  intros HI. induction k as [|k IH]; simpl; [apply keeps_ret|].
  apply keeps_bind; [|intros c; apply keeps_bind; [exact IH|intros; apply keeps_ret]].
  intros w Hw. unfold pick.
  destruct (draws w); simpl; [exact Hw|].
  eapply HI; [| |exact Hw]; reflexivity.
Qed.

Lemma traffic_keeps_assign (I : world -> Prop) (k : string) (v : json) :
  on_traffic I -> keeps I (assign k v).
Proof.
  intros HI. unfold assign.
  apply keeps_bind; [apply keeps_get_mem|]. intros s.
  apply traffic_keeps_set_mem. exact HI.
Qed.

Lemma traffic_keeps_establish (I : world -> Prop) (data : json) (a : string) :
  on_traffic I -> keeps I (establish data a).
Proof.
  intros HI. unfold establish.
  apply keeps_bind; [apply keeps_lift|]. intros tok.
  apply keeps_bind; [apply traffic_keeps_assign; exact HI|]. intros ?.
  apply keeps_bind; [apply keeps_lift|]. intros id.
  apply keeps_bind; [apply traffic_keeps_assign; exact HI|]. intros ?.
  apply keeps_bind; [apply traffic_keeps_assign; exact HI|]. intros ?.
  apply traffic_keeps_save_session. exact HI.
Qed.

Ltac traffic_steps HI :=
  repeat match goal with
         | |- keeps _ (ret _) => apply keeps_ret
         | |- keeps _ (raise _) => apply keeps_raise
         | |- keeps _ (lift _) => apply keeps_lift
         | |- keeps _ (raise_for_status _) => apply keeps_raise_for_status
         | |- keeps _ (resp_json _) => apply keeps_resp_json
         | |- keeps _ get_session => apply keeps_get_mem
         | |- keeps _ (random_text _ _) => apply traffic_keeps_random; apply HI
         | |- keeps _ (establish _ _) => apply traffic_keeps_establish; apply HI
         | |- keeps _ _load_session => apply traffic_keeps_load_session; apply HI
         | |- keeps _ _clear_session => apply traffic_keeps_clear_session; apply HI
         | |- keeps _ (bind _ _) => apply keeps_bind; [|intros ?]
         | |- keeps _ (try_except _ _) => apply keeps_try; [|intros ?]
         | |- keeps _ (if ?b then _ else _) => destruct b
         end.

Ltac bare_wider :=
  let H := fresh "H" in
  intros ? ? H; cbv beta in H; eapply sent_bare_wider; [| |exact H]; lia.

Ltac bare_keep :=
  apply keeps_with; [traffic_steps sent_bare_on_traffic|bare_wider].

Ltac bare_http :=
  eapply triple_weaken;
  [ eapply http_bare; reflexivity
  | intros ? H; exact H
  | intros ? ? H; exact H
  | bare_wider ].

Section Requests.
Context {text : PyText}.

Lemma choose_address_sends (w : world) (a : string) :
  triple (sent_bare w 0 0) (choose_address a)
    (fun chosen =>
       match chosen with
       | inl _ => sent_bare w 1 1
       | inr _ => sent_bare w 0 1
       end)
    (fun _ => sent_bare w 1 3).
Proof.
  unfold choose_address.
  destruct (String.eqb a "").
  2:{ apply triple_ret. intros w0 H.
      eapply sent_bare_wider; [| |exact H]; lia. }
  eapply triple_bind; [bare_http|]. intros resp.
  eapply triple_bind; [bare_keep|]. intros ?.
  eapply triple_bind; [bare_keep|]. intros body.
  eapply triple_bind; [bare_keep|]. intros domains.
  destruct (negb (truthy domains)); [apply triple_ret; auto|].
  eapply triple_bind; [bare_keep|]. intros username.
  eapply triple_bind; [bare_keep|]. intros first.
  eapply triple_bind; [bare_keep|]. intros domain.
  apply triple_ret. intros w0 H.
  eapply sent_bare_wider; [| |exact H]; lia.
Qed.

Lemma register_sends (w : world) (a p : string) :
  triple (sent_bare w 0 1) (register a p)
    (fun _ => sent_bare w 1 3) (fun _ => sent_bare w 1 3).
Proof.
  unfold register.
  eapply triple_bind; [bare_http|]. intros resp.
  destruct (status_code resp =? 422).
  { apply triple_ret. intros w0 H.
    eapply sent_bare_wider; [| |exact H]; lia. }
  eapply triple_bind; [bare_keep|]. intros ?.
  eapply triple_bind; [bare_keep|]. intros account.
  eapply triple_bind; [bare_http|]. intros resp2.
  eapply triple_bind; [bare_keep|]. intros ?.
  eapply triple_bind; [bare_keep|]. intros data.
  eapply triple_bind; [bare_keep|]. intros ?.
  eapply triple_bind; [bare_keep|]. intros id.
  apply triple_ret. intros w0 H.
  eapply sent_bare_wider; [| |exact H]; lia.
Qed.

Lemma create_temp_email_sends (w : world) (a p : string) :
  sent_bare w 1 3 (snd (create_temp_email a p w)).
Proof.
  assert (H : triple (sent_bare w 0 0) (create_temp_email_body a p)
                (fun _ => sent_bare w 1 3) (fun _ => sent_bare w 1 3)).
  { unfold create_temp_email_body.
    eapply triple_bind; [apply choose_address_sends|].
    intros [msg|a'].
    - apply triple_ret. intros w0 H0.
      eapply sent_bare_wider; [| |exact H0]; lia.
    - eapply triple_bind; [|intros p'; apply register_sends].
      intros w0 (new & Hn).
      destruct (choose_password_frame p w0) as (p' & w' & -> & _ & _ & _ & Hs).
      exists new. rewrite Hs. exact Hn. }
  unfold create_temp_email. rewrite try_ret_snd.
  assert (H0 : sent_bare w 0 0 w).
  { exists []. rewrite app_nil_r. simpl. repeat split; auto. }
  specialize (H w H0).
  destruct (create_temp_email_body a p w) as [[s|e] w']; exact H.
Qed.

Lemma list_domains_sends (w : world) :
  sent (snd (list_domains w))
  = (sent w ++ [request_ GET (BASE_URL ++ "/domains") None []])%list.
Proof.
  unfold list_domains. rewrite try_ret_snd. unfold list_domains_body.
  apply (keeps_after (sent_is _)); [|apply http_sent].
  intros r. traffic_steps sent_is_on_traffic.
Qed.

Lemma login_sends (a p : string) (w : world) :
  sent (snd (login a p w))
  = (sent w ++ [request_ POST (BASE_URL ++ "/token")
                  (Some (credentials a p)) []])%list.
Proof.
  unfold login. rewrite try_ret_snd. unfold login_body.
  apply (keeps_after (sent_is _)); [|apply http_sent].
  intros r. traffic_steps sent_is_on_traffic.
Qed.

Lemma logout_sends (w : world) : sent (snd (logout w)) = sent w.
Proof.
  assert (H : keeps (sent_is (sent w)) logout).
  { unfold logout. traffic_steps sent_is_on_traffic. }
  exact (keeps_snd _ logout w H eq_refl).
Qed.

Lemma guarded_body_sends_one (c : call) (body : M string) (w : world) :
  requires_session c = true -> try_block c = Some body ->
  exists hs w2 rq,
    _auth_headers w = (Ok hs, w2) /\ rq_headers rq = hs /\
    sent (snd (body w)) = (sent w ++ [rq])%list.
Proof.
  intros Hc Hb.
  destruct (auth_headers_frame w) as (hs & w2 & Hh & _ & _ & Hs).
  exists hs, w2.
  destruct c; simpl in Hc, Hb; try discriminate; inversion Hb; subst; clear Hb;
    try (unfold bind at 1, get_session);
    unfold get_inbox_body, read_email_body, mark_as_read_body,
      delete_email_body, get_account_info_body, delete_account_body;
    unfold bind at 1; rewrite Hh; rewrite <- Hs;
    eexists; (split; [reflexivity|]);
    (split;
     [|apply (keeps_after (sent_is _)); [|apply http_sent];
       intros r; traffic_steps sent_is_on_traffic]);
    reflexivity.
Qed.

(** How a guarded tool ends: at the check, or past it with one request. *)
Lemma guarded_run (c : call) (w : world) :
  requires_session c = true ->
  (exists w1, run c w = (Ok no_session_message, w1)
              /\ _require_session w = (Ok (Some no_session_message), w1)
              /\ sent w1 = sent w) \/
  (exists w1 hs w2 rq,
     _require_session w = (Ok None, w1) /\
     _auth_headers w1 = (Ok hs, w2) /\ rq_headers rq = hs /\
     sent (snd (run c w)) = (sent w ++ [rq])%list /\
     fst (run c w) <> Ok no_session_message).
Proof.
  intros Hc.
  destruct (require_session_frame w) as (ans & w1 & E1 & _ & _ & Hs1 & Hans).
  destruct (truthy (token (_session w1))); subst ans.
  - right.
    destruct (guarded_requires_try c Hc) as (body & Hb).
    assert (Hw : enters_try c w w1).
    { unfold enters_try. rewrite Hc. exact E1. }
    destruct (guarded_body_sends_one c body w1 Hc Hb)
      as (hs & w2 & rq & Hh & Hrq & Hsent).
    exists w1, hs, w2, rq.
    split; [exact E1|]. split; [exact Hh|]. split; [exact Hrq|].
    rewrite (run_through_try c body w w1 Hb Hw).
    pose proof (try_block_past_check c body Hc Hb w1) as Hy.
    rewrite <- Hs1.
    destruct (body w1) as [[s|e] w3]; simpl in *.
    + split; [exact Hsent|]. intros H; inversion H; contradiction.
    + split; [exact Hsent|]. intros H; inversion H.
  - left. exists w1. split; [|split; [exact E1|exact Hs1]].
    apply guarded_stops; assumption.
Qed.

(** X4.  The requests one tool call sends, no more: there is no retry.
    [list_domains] sends its GET and [login] its POST of the credentials,
    once, whatever the reply; [create_temp_email] sends one to three
    requests; none of these carries a header.  [logout] sends nothing.  A
    tool that needs a session sends nothing when it returns the
    no-active-session message, and exactly one request otherwise. *)
Theorem requests_of_a_call (c : call) (w : world) :
  exists new,
    sent (snd (run c w)) = (sent w ++ new)%list /\
    match c with
    | ListDomains => new = [request_ GET (BASE_URL ++ "/domains") None []]
    | Login a p =>
        new = [request_ POST (BASE_URL ++ "/token")
                 (Some (credentials a p)) []]
    | CreateTempEmail _ _ =>
        (1 <= length new <= 3)%nat /\
        Forall (fun rq => rq_headers rq = []) new
    | Logout => new = []
    | _ =>
        (new = [] /\ fst (run c w) = Ok no_session_message) \/
        (exists rq, new = [rq] /\ fst (run c w) <> Ok no_session_message)
    end.
Proof.
  destruct c as [|a p|a p|page|i|i|i| | |];
    try (match goal with
         | |- context [run ?c0 w] =>
             destruct (guarded_run c0 w eq_refl)
               as [(w1 & E & _ & Hs)|(w1 & hs & w2 & rq & _ & _ & _ & Hs & Hn)];
             [ exists []; rewrite E, app_nil_r; simpl; split; [exact Hs|];
               left; split; reflexivity
             | exists [rq]; split; [exact Hs|]; right; exists rq;
               split; [reflexivity|exact Hn] ]
         end).
  - eexists. split; [apply list_domains_sends|reflexivity].
  - destruct (create_temp_email_sends w a p) as (new & Hs & Hl & Hf).
    exists new. auto.
  - eexists. split; [apply login_sends|reflexivity].
  - exists []. rewrite app_nil_r. split; [apply logout_sends|reflexivity].
Qed.

End Requests.

(** ** The token a guarded tool sends *)

Lemma updated_value_again (m : list (string * json)) (k : string) (old : json) :
  updated_value m k (updated_value m k old) = updated_value m k old.
Proof. unfold updated_value. destruct (dict_get (rev m) k); reflexivity. Qed.

(** What [_load_session] does when the file system does not fail. *)
Lemma load_session_no_fault (w : world) :
  no_fault w ->
  exists w',
    _load_session w = (Ok tt, w') /\ no_fault w' /\ file w' = file w /\
    remote w' = remote w /\ sent w' = sent w /\
    _session w' = match file w with
                  | Some (Members m) => session_update m (_session w)
                  | _ => _session w
                  end.
Proof.
  unfold no_fault, _load_session, bind, path_exists, try_except, read_record,
    fs_step, get_session, set_session, ret.
  destruct w as [s f r st fs d]; simpl. intros Hnf.
  destruct f as [[m|]|]; destruct fs as [|[|] fs]; simpl;
    try (inversion Hnf; discriminate);
    eexists; (split; [reflexivity|]); simpl; repeat split;
    try assumption; inversion Hnf; assumption.
Qed.

Lemma load_twice_token (w w1 w2 : world) :
  no_fault w ->
  _load_session w = (Ok tt, w1) -> _load_session w1 = (Ok tt, w2) ->
  token (_session w2) = token (_session w1).
Proof.
  intros Hnf E1 E2.
  destruct (load_session_no_fault w Hnf) as (w1' & E1' & Hnf1 & Hf1 & _ & _ & Hm1).
  rewrite E1 in E1'. inversion E1'; subst w1'; clear E1'.
  destruct (load_session_no_fault w1 Hnf1) as (w2' & E2' & _ & _ & _ & _ & Hm2).
  rewrite E2 in E2'. inversion E2'; subst w2'; clear E2'.
  rewrite Hm2, Hf1. destruct (file w) as [[m|]|]; try reflexivity.
  rewrite Hm1.
  destruct (session_update_fields m (session_update m (_session w))) as (-> & _).
  destruct (session_update_fields m (_session w)) as (-> & _).
  apply updated_value_again.
Qed.

Section Bearer.
Context {text : PyText}.

Lemma require_session_inv (w w1 : world) :
  _require_session w = (Ok None, w1) ->
  _load_session w = (Ok tt, w1) /\ truthy (token (_session w1)) = true.
Proof.
  unfold _require_session. intros H.
  apply bind_ok in H as ([] & w' & Hl & H).
  apply bind_ok in H as (s & w'' & Hg & H).
  unfold get_session in Hg. inversion Hg; subst s w''; clear Hg.
  destruct (truthy (token (_session w'))) eqn:Ht; simpl in H;
    apply ret_ok in H as (H & ->); [auto|discriminate H].
Qed.

Lemma auth_headers_inv (w w2 : world) (hs : list (string * string)) :
  _auth_headers w = (Ok hs, w2) ->
  _load_session w = (Ok tt, w2) /\
  hs = if truthy (token (_session w2))
       then [("Authorization", "Bearer " ++ py_str (token (_session w2)))]
       else [].
Proof.
  unfold _auth_headers. intros H.
  apply bind_ok in H as ([] & w' & Hl & H).
  apply bind_ok in H as (s & w'' & Hg & H).
  unfold get_session in Hg. inversion Hg; subst s w''; clear Hg.
  destruct (truthy (token (_session w'))) eqn:Ht;
    apply ret_ok in H as (H & ->); rewrite Ht; auto.
Qed.

(** A guarded call past the check, the file system not failing: the one
    request it sends carries the token the check saw. *)
Lemma guarded_bearer (c : call) (w : world) :
  requires_session c = true -> no_fault w ->
  fst (run c w) <> Ok no_session_message ->
  exists rq w1,
    _load_session w = (Ok tt, w1) /\
    truthy (token (_session w1)) = true /\
    sent (snd (run c w)) = (sent w ++ [rq])%list /\
    rq_headers rq
    = [("Authorization", "Bearer " ++ py_str (token (_session w1)))].
Proof.
  intros Hc Hnf Hn.
  destruct (guarded_run c w Hc)
    as [(w1 & E & _)|(w1 & hs & w2 & rq & Hq & Hh & Hrq & Hs & _)].
  { rewrite E in Hn. exfalso. apply Hn. reflexivity. }
  apply require_session_inv in Hq as (Hl1 & Ht).
  apply auth_headers_inv in Hh as (Hl2 & Hhs).
  rewrite (load_twice_token w w1 w2 Hnf Hl1 Hl2), Ht in Hhs.
  exists rq, w1. subst hs. auto.
Qed.

(** X5.  While the file system does not fail, a tool that needs a session
    never sends a request without credentials: unless it returns the
    no-active-session message, its one request carries the header
    "Authorization: Bearer <token>", the token being the non-empty one
    that [_load_session] leaves in [_session]. *)
Theorem guarded_request_carries_token (c : call) (w : world) :
  requires_session c = true -> no_fault w ->
  fst (run c w) <> Ok no_session_message ->
  exists rq,
    sent (snd (run c w)) = (sent w ++ [rq])%list /\
    truthy (token (_session (snd (_load_session w)))) = true /\
    rq_headers rq
    = [("Authorization",
        "Bearer " ++ py_str (token (_session (snd (_load_session w)))))].
Proof.
  intros Hc Hnf Hn.
  destruct (guarded_bearer c w Hc Hnf Hn) as (rq & w1 & E & Ht & Hs & Hh).
  exists rq. rewrite E. simpl. auto.
Qed.

End Bearer.

Lemma guarded_request_carries_token_witness :
  requires_session (ReadEmail "nonexistent-id") = true /\
  no_fault session_then_404 /\
  fst (run (text := plain_text) (ReadEmail "nonexistent-id") session_then_404)
    <> Ok no_session_message /\
  exists rq,
    sent (snd (run (text := plain_text) (ReadEmail "nonexistent-id")
                 session_then_404))
    = (sent session_then_404 ++ [rq])%list /\
    truthy (token (_session (snd (_load_session session_then_404)))) = true /\
    rq_headers rq
    = [("Authorization",
        "Bearer " ++ py_str (text := plain_text)
                       (token (_session (snd (_load_session session_then_404)))))].
Proof.
  assert (Hnf : no_fault session_then_404) by constructor.
  assert (Hn : fst (run (text := plain_text) (ReadEmail "nonexistent-id")
                      session_then_404) <> Ok no_session_message)
    by (vm_compute; discriminate).
  split; [reflexivity|]. split; [exact Hnf|]. split; [exact Hn|].
  exact (guarded_request_carries_token (text := plain_text)
           (ReadEmail "nonexistent-id") session_then_404 eq_refl Hnf Hn).
Defined.

(** ** A login that succeeds *)

Lemma establish_run (m : list (string * json)) (tok id : json) (a : string)
    (w : world) :
  dict_get m "token" = Some tok -> dict_get m "id" = Some id ->
  let s' := {| token := tok; account_id := id; address := JStr a;
               extras := extras (_session w) |} in
  establish (JObj m) a w =
    (Ok tt,
     {| _session := s';
        file := file_after_save w s';
        remote := remote w; sent := sent w; faults := faults_after_save w;
        draws := draws w |}).
Proof.
  intros Ht Hi. unfold establish, assign, bind, lift, get_session, set_session.
  simpl py_item. rewrite Ht, Hi. cbv beta iota.
  unfold _save_session, write_record, try_except, bind, get_session, fs_step,
    ret, file_after_save, faults_after_save.
  destruct w as [s f r st fs d]. simpl.
  destruct fs as [|[|] [|[|] fs]]; reflexivity.
Qed.

Lemma no_fault_after_save (w : world) (s : session) :
  no_fault w ->
  file_after_save w s = Some (Members (session_items s)) /\
  Forall (fun b => b = false) (faults_after_save w).
Proof.
  unfold no_fault, file_after_save, faults_after_save. intros H.
  destruct (faults w) as [|[|] [|[|] fs]];
    repeat match goal with
           | H : Forall _ (_ :: _) |- _ => inversion H; subst; clear H
           end; try discriminate; split; auto.
Qed.

Section LoginSucceeds.
Context {text : PyText}.

Lemma login_run (a p : string) (r : reply) (rest : list http_outcome)
    (m : list (string * json)) (tok id : json) (w : world) :
  remote w = Answer r :: rest ->
  status_code r < 400 \/ 600 <= status_code r ->
  payload r = inr (JObj m) ->
  dict_get m "token" = Some tok -> dict_get m "id" = Some id ->
  let s' := {| token := tok; account_id := id; address := JStr a;
               extras := extras (_session w) |} in
  run (Login a p) w =
    (Ok ("Logged in as " ++ a ++ ". Session active."),
     {| _session := s';
        file := file_after_save w s';
        remote := rest;
        sent := sent w ++ [request_ POST (BASE_URL ++ "/token")
                             (Some (credentials a p)) []];
        faults := faults_after_save w; draws := draws w |}).
Proof.
  intros Hr Hs Hp Ht Hi. simpl. unfold login, try_except, login_body.
  unfold bind at 1. rewrite (http_answer _ r rest w Hr).
  replace (status_code r =? 401) with false by (symmetry; apply Z.eqb_neq; lia).
  unfold bind at 1. rewrite (raise_for_status_pass r _ Hs).
  unfold bind at 1. rewrite (resp_json_value r _ _ Hp).
  unfold bind at 1. rewrite (establish_run m tok id a _ Ht Hi).
  reflexivity.
Qed.

(** X6.  A [login] whose token request is answered with a status that is
    no error and a JSON object holding "token" and "id" reports success,
    having sent that one request.  It replaces the three fields by the
    token, the id and the address given, whatever session was there, and
    keeps the further keys.  The file then holds that session, unless
    saving it failed, which goes unreported: when [open] raises, the file
    is as it was; when the writing raises, the file is left without
    content that can be loaded. *)
Theorem login_replaces_session (a p : string) (r : reply)
    (rest : list http_outcome) (m : list (string * json)) (tok id : json)
    (w : world) :
  remote w = Answer r :: rest ->
  status_code r < 400 \/ 600 <= status_code r ->
  payload r = inr (JObj m) ->
  dict_get m "token" = Some tok -> dict_get m "id" = Some id ->
  fst (run (Login a p) w) = Ok ("Logged in as " ++ a ++ ". Session active.") /\
  _session (snd (run (Login a p) w))
  = {| token := tok; account_id := id; address := JStr a;
       extras := extras (_session w) |} /\
  file (snd (run (Login a p) w))
  = match faults w with
    | true :: _ => file w
    | false :: true :: _ => Some Unusable
    | _ => Some (Members (session_items (_session (snd (run (Login a p) w)))))
    end /\
  sent (snd (run (Login a p) w))
  = (sent w ++ [request_ POST (BASE_URL ++ "/token")
                  (Some (credentials a p)) []])%list.
Proof.
  intros Hr Hs Hp Ht Hi.
  rewrite (login_run a p r rest m tok id w Hr Hs Hp Ht Hi). simpl.
  repeat split.
Qed.

End LoginSucceeds.

Lemma login_replaces_session_witness :
  remote good_token_reply
  = [Answer (ok_reply "https://api.mail.tm/token" (JObj [("token", JStr "T"); ("id", JStr "I")]))] /\
  fst (run (text := plain_text) (Login "a@b.c" "pw") good_token_reply)
  = Ok "Logged in as a@b.c. Session active." /\
  _session (snd (run (text := plain_text) (Login "a@b.c" "pw") good_token_reply))
  = {| token := JStr "T"; account_id := JStr "I"; address := JStr "a@b.c";
       extras := [] |}.
Proof.
  split; [reflexivity|].
  destruct (login_replaces_session (text := plain_text) "a@b.c" "pw"
              (ok_reply "https://api.mail.tm/token" (JObj [("token", JStr "T"); ("id", JStr "I")])) []
              [("token", JStr "T"); ("id", JStr "I")] (JStr "T") (JStr "I")
              good_token_reply eq_refl (or_introl eq_refl) eq_refl eq_refl
              eq_refl) as (H1 & H2 & _).
  split; [exact H1|exact H2].
Defined.

(** ** From a login to the next call *)

Lemma loaded_saved_fields (s s0 : session) :
  extras_apart s ->
  token (session_update (session_items s) s0) = token s /\
  account_id (session_update (session_items s) s0) = account_id s /\
  address (session_update (session_items s) s0) = address s.
Proof.
  intros He. unfold session_items.
  change (session_update
            (("token", token s) :: ("account_id", account_id s)
               :: ("address", address s) :: extras s) s0)
    with (session_update (extras s)
            {| token := token s; account_id := account_id s;
               address := address s; extras := extras s0 |}).
  exact (session_update_extras_fields (extras s)
           {| token := token s; account_id := account_id s;
              address := address s; extras := extras s0 |} He).
Qed.

Section LoginThenCall.
Context {text : PyText}.

(** With the saved session [s] in the file and no failure of the file
    system, the check passes and the request carries the token of [s]. *)
Lemma saved_session_authorises (c : call) (s : session) (w : world) :
  requires_session c = true -> no_fault w -> extras_apart s ->
  file w = Some (Members (session_items s)) ->
  truthy (token s) = true ->
  fst (run c w) <> Ok no_session_message /\
  exists rq,
    sent (snd (run c w)) = (sent w ++ [rq])%list /\
    rq_headers rq = [("Authorization", "Bearer " ++ py_str (token s))].
Proof.
  intros Hc Hnf He Hf Ht.
  destruct (load_session_no_fault w Hnf) as (w1 & El & _ & _ & _ & _ & Hm).
  rewrite Hf in Hm.
  destruct (loaded_saved_fields s (_session w) He) as (Htok & _).
  assert (Hq : _require_session w = (Ok None, w1)).
  { unfold _require_session, bind. rewrite El. unfold get_session.
    rewrite Hm, Htok, Ht. reflexivity. }
  assert (Hn : fst (run c w) <> Ok no_session_message).
  { destruct (guarded_run c w Hc) as [(w' & _ & E & _)|(_ & _ & _ & _ & _ & _ & _ & _ & H)];
      [rewrite Hq in E; discriminate E|exact H]. }
  split; [exact Hn|].
  destruct (guarded_bearer c w Hc Hnf Hn) as (rq & w1' & El' & _ & Hs & Hh).
  rewrite El in El'. inversion El'; subst w1'.
  exists rq. split; [exact Hs|]. rewrite Hh, Hm, Htok. reflexivity.
Qed.

(** X7.  From a login to the next call.  After a [login] that succeeds
    with a non-empty token, the file system not failing, every tool that
    needs a session goes past the check and sends its request with that
    token as bearer, both in the same process and in a process started
    afterwards, which finds the session in the file. *)
Theorem login_then_authorised (a p : string) (r : reply)
    (rest : list http_outcome) (m : list (string * json)) (tok id : json)
    (w : world) (c : call) :
  remote w = Answer r :: rest ->
  status_code r < 400 \/ 600 <= status_code r ->
  payload r = inr (JObj m) ->
  dict_get m "token" = Some tok -> dict_get m "id" = Some id ->
  truthy tok = true ->
  no_fault w -> extras_apart (_session w) ->
  requires_session c = true ->
  forall w1,
    w1 = snd (run (Login a p) w) \/ w1 = restart (snd (run (Login a p) w)) ->
    fst (run c w1) <> Ok no_session_message /\
    exists rq,
      sent (snd (run c w1)) = (sent w1 ++ [rq])%list /\
      rq_headers rq = [("Authorization", "Bearer " ++ py_str tok)].
Proof.
  intros Hr Hs Hp Ht Hi Htr Hnf He Hc w1 Hw1.
  rewrite (login_run a p r rest m tok id w Hr Hs Hp Ht Hi) in Hw1.
  simpl in Hw1.
  set (s' := {| token := tok; account_id := id; address := JStr a;
                extras := extras (_session w) |}) in *.
  destruct (no_fault_after_save w s' Hnf) as (Hsaved & Hnf1).
  rewrite Hsaved in Hw1.
  apply (saved_session_authorises c s' w1 Hc); try assumption;
    destruct Hw1 as [-> | ->]; try reflexivity; exact Hnf1.
Qed.

End LoginThenCall.

Lemma login_then_authorised_witness :
  let w1 := restart (snd (run (text := plain_text) (Login "a@b.c" "pw")
                            good_token_reply)) in
  no_fault good_token_reply /\ extras_apart (_session good_token_reply) /\
  fst (run (text := plain_text) GetAccountInfo w1) <> Ok no_session_message /\
  exists rq,
    sent (snd (run (text := plain_text) GetAccountInfo w1))
    = (sent w1 ++ [rq])%list /\
    rq_headers rq = [("Authorization", "Bearer T")].
Proof.
  assert (Hnf : no_fault good_token_reply) by constructor.
  assert (He : extras_apart (_session good_token_reply)) by constructor.
  split; [exact Hnf|]. split; [exact He|].
  exact (login_then_authorised (text := plain_text) "a@b.c" "pw"
           (ok_reply "https://api.mail.tm/token" (JObj [("token", JStr "T"); ("id", JStr "I")])) []
           [("token", JStr "T"); ("id", JStr "I")] (JStr "T") (JStr "I")
           good_token_reply GetAccountInfo
           eq_refl (or_introl eq_refl) eq_refl eq_refl eq_refl eq_refl
           Hnf He eq_refl _ (or_intror eq_refl)).
Defined.

(** ** After [logout] *)

Section AfterLogout.
Context {text : PyText}.

(** X8.  After a [logout], the file system not failing, the session is
    gone for good: every tool that needs a session returns the
    no-active-session message and does nothing else, in the same process
    and in one started afterwards. *)
Theorem logout_then_no_session (c : call) (w : world) :
  no_fault w -> requires_session c = true ->
  forall w1,
    w1 = snd (run Logout w) \/ w1 = restart (snd (run Logout w)) ->
    run c w1 = (Ok no_session_message, w1).
Proof.
  intros Hnf Hc w1 Hw1.
  destruct (logout_cases w) as (a & w' & E & (Ht & _) & _ & _ & Hfile).
  rewrite E in Hw1. simpl in Hw1. specialize (Hfile Hnf).
  assert (Hf1 : file w1 = None) by (destruct Hw1 as [-> | ->]; exact Hfile).
  assert (Ht1 : token (_session w1) = JNull)
    by (destruct Hw1 as [-> | ->]; [exact Ht|reflexivity]).
  apply guarded_stops; [exact Hc|].
  rewrite (require_session_absent w1 Hf1), Ht1. reflexivity.
Qed.

End AfterLogout.

Lemma logout_then_no_session_witness :
  let w1 := snd (run (text := plain_text) Logout session_then_404) in
  no_fault session_then_404 /\
  requires_session (ReadEmail "m1") = true /\
  run (text := plain_text) (ReadEmail "m1") w1 = (Ok no_session_message, w1).
Proof.
  assert (Hnf : no_fault session_then_404) by constructor.
  split; [exact Hnf|]. split; [reflexivity|].
  exact (logout_then_no_session (text := plain_text) (ReadEmail "m1")
           session_then_404 Hnf eq_refl _ (or_introl eq_refl)).
Defined.

(** * Replies by status, and no reply *)

Lemma bind_assoc {A B C} (m : M A) (f : A -> M B) (g : B -> M C) (w : world) :
  bind (bind m f) g w = bind m (fun x => bind (f x) g) w.
Proof. unfold bind. destruct (m w) as [[a|e] w']; reflexivity. Qed.

Lemma raise_for_status_error (r : reply) (w : world) :
  400 <= status_code r < 600 ->
  raise_for_status r w = (Raise (HTTPError (status_error_text r)), w).
Proof.
  intros H. unfold raise_for_status, status_error_text. cbv zeta.
  destruct (status_code r <? 500) eqn:E.
  - replace (400 <=? status_code r) with true by (symmetry; apply Z.leb_le; lia).
    reflexivity.
  - apply Z.ltb_ge in E.
    replace (500 <=? status_code r) with true by (symmetry; apply Z.leb_le; lia).
    replace (status_code r <? 600) with true by (symmetry; apply Z.ltb_lt; lia).
    rewrite andb_false_r. reflexivity.
Qed.

Lemma http_fails (rq : request) (msg : string) (rest : list http_outcome)
    (w : world) :
  remote w = Fails msg :: rest ->
  http rq w =
    (Raise (RequestException msg),
     {| _session := _session w; file := file w; remote := rest;
        sent := sent w ++ [rq]; faults := faults w; draws := draws w |}).
Proof. intros H. unfold http. rewrite H. reflexivity. Qed.

Section ByStatus.
Context {text : PyText}.

Lemma enters_try_frame (c : call) (w w0 : world) :
  enters_try c w w0 ->
  file w0 = file w /\ remote w0 = remote w /\ sent w0 = sent w.
Proof.
  unfold enters_try. destruct (requires_session c).
  - intros H.
    destruct (require_session_frame w) as (ans & w1 & E & Hf & Hr & Hs & _).
    rewrite E in H. inversion H; subst. auto.
  - intros ->. auto.
Qed.

Lemma has_try_block (c : call) :
  c <> Logout -> exists body, try_block c = Some body.
Proof. destruct c; intros H; try (simpl; eauto); contradiction. Qed.

(** The [try] of a tool comes to one request, the first, before which
    nothing is received or sent; an error status that the tool does not
    test for makes [raise_for_status] raise. *)
Lemma try_block_first_request (c : call) (body : M string) (w0 : world) :
  try_block c = Some body ->
  exists rq k w2,
    body w0 = bind (http rq) k w2 /\
    rq_url rq = first_url c (_session w0) /\
    remote w2 = remote w0 /\ sent w2 = sent w0 /\
    forall r w3,
      400 <= status_code r < 600 ->
      dedicated_status c <> Some (status_code r) ->
      k r w3
      = (Raise (HTTPError (status_error_text r)), w3).
Proof.
  intros Hb.
  destruct (auth_headers_frame w0) as (hs & wh & Eh & _ & Hrh & Hsh).
  destruct c as [|a p|a p|page|i|i|i| | |]; simpl in Hb; inversion Hb; subst;
    clear Hb.
  - (* list_domains *)
    do 3 eexists. split; [unfold list_domains_body; reflexivity|].
    split; [reflexivity|]. split; [reflexivity|]. split; [reflexivity|].
    intros r w3 Hs _. cbv beta. unfold bind at 1.
    rewrite (raise_for_status_error r w3 Hs). reflexivity.
  - (* create_temp_email *)
    destruct (String.eqb_spec a "") as [->|Hne].
    + do 3 eexists.
      split.
      { unfold create_temp_email_body, choose_address.
        change (String.eqb "" "") with true. cbv iota zeta.
        rewrite bind_assoc. reflexivity. }
      split; [reflexivity|]. split; [reflexivity|]. split; [reflexivity|].
      intros r w3 Hs _. cbv beta. unfold bind at 1. unfold bind at 1.
      rewrite (raise_for_status_error r w3 Hs). reflexivity.
    + destruct (choose_password_frame p w0) as (p' & w2 & Ep & _ & _ & Hr2 & Hs2).
      do 3 eexists.
      split.
      { unfold create_temp_email_body. unfold bind at 1.
        rewrite (choose_address_given a w0 Hne).
        unfold bind at 1. rewrite Ep. unfold register. reflexivity. }
      split; [simpl; apply String.eqb_neq in Hne; rewrite Hne; reflexivity|].
      split; [exact Hr2|]. split; [exact Hs2|].
      intros r w3 Hs Hd. cbv beta.
      replace (status_code r =? 422) with false
        by (symmetry; apply Z.eqb_neq; intros E; apply Hd; simpl;
            apply String.eqb_neq in Hne; rewrite Hne, E; reflexivity).
      unfold bind at 1. rewrite (raise_for_status_error r w3 Hs).
      reflexivity.
  - (* login *)
    do 3 eexists. split; [unfold login_body; reflexivity|].
    split; [reflexivity|]. split; [reflexivity|]. split; [reflexivity|].
    intros r w3 Hs Hd. cbv beta.
    replace (status_code r =? 401) with false
      by (symmetry; apply Z.eqb_neq; intros E; apply Hd; simpl; now rewrite E).
    unfold bind at 1. rewrite (raise_for_status_error r w3 Hs). reflexivity.
  - (* get_inbox *)
    do 3 eexists.
    split; [unfold get_inbox_body; unfold bind at 1; rewrite Eh; reflexivity|].
    split; [reflexivity|]. split; [exact Hrh|]. split; [exact Hsh|].
    intros r w3 Hs _. cbv beta. unfold bind at 1.
    rewrite (raise_for_status_error r w3 Hs). reflexivity.
  - (* read_email *)
    do 3 eexists.
    split; [unfold read_email_body; unfold bind at 1; rewrite Eh; reflexivity|].
    split; [reflexivity|]. split; [exact Hrh|]. split; [exact Hsh|].
    intros r w3 Hs Hd. cbv beta.
    replace (status_code r =? 404) with false
      by (symmetry; apply Z.eqb_neq; intros E; apply Hd; simpl; now rewrite E).
    unfold bind at 1. rewrite (raise_for_status_error r w3 Hs). reflexivity.
  - (* mark_as_read *)
    do 3 eexists.
    split; [unfold mark_as_read_body; unfold bind at 1; rewrite Eh; reflexivity|].
    split; [reflexivity|]. split; [exact Hrh|]. split; [exact Hsh|].
    intros r w3 Hs Hd. cbv beta.
    replace (status_code r =? 404) with false
      by (symmetry; apply Z.eqb_neq; intros E; apply Hd; simpl; now rewrite E).
    unfold bind at 1. rewrite (raise_for_status_error r w3 Hs). reflexivity.
  - (* delete_email *)
    do 3 eexists.
    split; [unfold delete_email_body; unfold bind at 1; rewrite Eh; reflexivity|].
    split; [reflexivity|]. split; [exact Hrh|]. split; [exact Hsh|].
    intros r w3 Hs Hd. cbv beta.
    replace (status_code r =? 404) with false
      by (symmetry; apply Z.eqb_neq; intros E; apply Hd; simpl; now rewrite E).
    replace (status_code r =? 204) with false by (symmetry; apply Z.eqb_neq; lia).
    unfold bind at 1. rewrite (raise_for_status_error r w3 Hs). reflexivity.
  - (* get_account_info *)
    do 3 eexists.
    split; [unfold get_account_info_body; unfold bind at 1; rewrite Eh;
            reflexivity|].
    split; [reflexivity|]. split; [exact Hrh|]. split; [exact Hsh|].
    intros r w3 Hs _. cbv beta. unfold bind at 1.
    rewrite (raise_for_status_error r w3 Hs). reflexivity.
  - (* delete_account *)
    do 3 eexists.
    split; [unfold bind at 1, get_session; unfold delete_account_body;
            unfold bind at 1; rewrite Eh; reflexivity|].
    split; [reflexivity|]. split; [exact Hrh|]. split; [exact Hsh|].
    intros r w3 Hs _. cbv beta.
    replace (status_code r =? 204) with false by (symmetry; apply Z.eqb_neq; lia).
    unfold bind at 1. rewrite (raise_for_status_error r w3 Hs). reflexivity.
Qed.

(** X9.  An error status is reported with its code.  When the first
    request of a tool is answered with a status from 400 to 599 other than
    the one the tool has a message of its own for (422 for an account
    creation, 401 for [login], 404 for the three tools that address a
    message), the tool returns "Error <verb>ing <noun>: <code> Client
    Error: <reason> for url: <url>", with "Server Error" from 500 on and
    <url> the address the reply came from ([resp.url]); the body of the
    reply is not looked at.  So a 404 to [delete_account] or a 401 to
    [get_inbox] comes back as such a string. *)
Theorem error_status_reported (c : call) (w w0 : world) (r : reply)
    (rest : list http_outcome) :
  c <> Logout -> enters_try c w w0 ->
  remote w = Answer r :: rest ->
  400 <= status_code r < 600 ->
  dedicated_status c <> Some (status_code r) ->
  fst (run c w)
  = Ok ("Error " ++ gerund c ++ ": " ++ dec_Z (status_code r)
          ++ (if status_code r <? 500 then " Client Error: "
              else " Server Error: ")
          ++ reason r ++ " for url: " ++ url r).
Proof.
  intros Hc Hw Hr Hs Hd.
  destruct (has_try_block c Hc) as (body & Hb).
  destruct (enters_try_frame c w w0 Hw) as (_ & Hr0 & _).
  destruct (try_block_first_request c body w0 Hb)
    as (rq & k & w2 & E & _ & Hr2 & _ & Hk).
  rewrite (run_through_try c body w w0 Hb Hw), E.
  unfold bind at 1.
  rewrite (http_answer rq r rest w2) by (rewrite Hr2, Hr0; exact Hr).
  rewrite (Hk r _ Hs Hd). reflexivity.
Qed.

(** X10.  No reply is reported with its reason.  When the first request
    of a tool fails in transport (connection refused, timeout), the tool
    returns "Error <verb>ing <noun>: " followed by the text of that
    failure, having sent that one request. *)
Theorem transport_failure_reported (c : call) (w w0 : world) (msg : string)
    (rest : list http_outcome) :
  c <> Logout -> enters_try c w w0 ->
  remote w = Fails msg :: rest ->
  fst (run c w) = Ok ("Error " ++ gerund c ++ ": " ++ msg) /\
  exists rq,
    sent (snd (run c w)) = (sent w ++ [rq])%list /\
    rq_url rq = first_url c (_session w0).
Proof.
  intros Hc Hw Hr.
  destruct (has_try_block c Hc) as (body & Hb).
  destruct (enters_try_frame c w w0 Hw) as (_ & Hr0 & Hs0).
  destruct (try_block_first_request c body w0 Hb)
    as (rq & k & w2 & E & Hu & Hr2 & Hs2 & _).
  assert (Eb : body w0 = (Raise (RequestException msg),
                          snd (http rq w2))).
  { rewrite E. unfold bind.
    rewrite (http_fails rq msg rest w2) by (rewrite Hr2, Hr0; exact Hr).
    reflexivity. }
  rewrite (run_through_try c body w w0 Hb Hw), Eb.
  split; [reflexivity|].
  exists rq. split; [|exact Hu].
  rewrite (http_fails rq msg rest w2) by (rewrite Hr2, Hr0; exact Hr).
  simpl. rewrite Hs2, Hs0. reflexivity.
Qed.

End ByStatus.

Lemma error_status_reported_witness :
  fst (run (text := plain_text) GetAccountInfo session_then_503)
  = Ok "Error getting account info: 503 Server Error: Service Unavailable for url: https://api.mail.tm/me".
Proof.
  apply (error_status_reported (text := plain_text) GetAccountInfo
           session_then_503 session_then_503
           (status_reply "https://api.mail.tm/me" 503 "Service Unavailable") []);
    [discriminate|reflexivity|reflexivity|simpl; lia|discriminate].
Defined.

Lemma transport_failure_reported_witness :
  fst (run (text := plain_text) (DeleteEmail "m1") session_then_refused)
  = Ok "Error deleting email: Connection refused".
Proof.
  apply (transport_failure_reported (text := plain_text) (DeleteEmail "m1")
           session_then_refused session_then_refused "Connection refused" []);
    [discriminate|reflexivity|reflexivity].
Defined.

(** * The tools that change something remotely *)

Lemma load_twice_fields (w w1 w2 : world) :
  no_fault w ->
  _load_session w = (Ok tt, w1) -> _load_session w1 = (Ok tt, w2) ->
  token (_session w2) = token (_session w1) /\
  account_id (_session w2) = account_id (_session w1) /\
  address (_session w2) = address (_session w1).
Proof.
  intros Hnf E1 E2.
  destruct (load_session_no_fault w Hnf) as (w1' & E1' & Hnf1 & Hf1 & _ & _ & Hm1).
  rewrite E1 in E1'. inversion E1'; subst w1'; clear E1'.
  destruct (load_session_no_fault w1 Hnf1) as (w2' & E2' & _ & _ & _ & _ & Hm2).
  rewrite E2 in E2'. inversion E2'; subst w2'; clear E2'.
  rewrite Hm2, Hf1. destruct (file w) as [[m|]|]; try (repeat split; reflexivity).
  rewrite Hm1.
  destruct (session_update_fields m (session_update m (_session w)))
    as (-> & -> & ->).
  destruct (session_update_fields m (_session w)) as (-> & -> & ->).
  rewrite !updated_value_again. repeat split.
Qed.

Lemma clear_session_no_fault (w : world) :
  no_fault w ->
  exists w', _clear_session w = (Ok tt, w') /\
    all_absent (_session w') /\ file w' = None /\
    remote w' = remote w /\ sent w' = sent w.
Proof.
  unfold no_fault, _clear_session, remove_record, try_except, bind, get_session,
    set_session, path_exists, fs_step, ret.
  destruct w as [s f r st fs d]. simpl. intros Hnf.
  destruct f as [c|]; [destruct fs as [|[|] rest]|]; simpl;
    try (inversion Hnf; discriminate);
    eexists; (split; [reflexivity|]); simpl; repeat split.
Qed.

Section RemoteChanges.
Context {text : PyText}.

(** X11.  [mark_as_read] and [delete_email] take every status that is no
    error status for success.  With an active session, when the request
    (a PATCH of "seen": true, or a DELETE, of /messages/<id>) is answered
    with a status below 400 or from 600 on, be it 200, 204 or 302, the
    tool reports the message marked as read, or deleted; the body of the
    reply is not looked at. *)
Theorem message_write_by_status (c : call) (i : string) (w w0 : world)
    (r : reply) (rest : list http_outcome) :
  c = MarkAsRead i \/ c = DeleteEmail i ->
  _require_session w = (Ok None, w0) ->
  remote w = Answer r :: rest ->
  status_code r < 400 \/ 600 <= status_code r ->
  fst (run c w)
  = Ok ("Message '" ++ i
          ++ match c with
             | MarkAsRead _ => "' marked as read."
             | _ => "' deleted."
             end) /\
  exists hs,
    sent (snd (run c w))
    = (sent w
         ++ [match c with
             | MarkAsRead _ =>
                 request_ PATCH (BASE_URL ++ "/messages/" ++ i)
                   (Some (JObj [("seen", JBool true)])) hs
             | _ => request_ DELETE (BASE_URL ++ "/messages/" ++ i) None hs
             end])%list.
Proof.
  intros Hc Hq Hr Hs.
  destruct (require_session_frame w) as (ans & w0' & E & _ & Hr0 & Hs0 & _).
  rewrite Hq in E. inversion E; subst ans w0'; clear E.
  destruct (auth_headers_frame w0) as (hs & w2 & Eh & _ & Hr2 & Hs2).
  assert (Hr2' : remote w2 = Answer r :: rest) by (rewrite Hr2, Hr0; exact Hr).
  assert (H404 : (status_code r =? 404) = false) by (apply Z.eqb_neq; lia).
  destruct Hc as [-> | ->]; simpl run.
  - assert (Erun : mark_as_read i w
                   = (Ok ("Message '" ++ i ++ "' marked as read."),
                      snd (http (request_ PATCH (BASE_URL ++ "/messages/" ++ i)
                                   (Some (JObj [("seen", JBool true)])) hs) w2))).
    { unfold mark_as_read. unfold bind at 1. rewrite Hq.
      unfold try_except, mark_as_read_body.
      unfold bind at 1. rewrite Eh.
      unfold bind at 1. rewrite (http_answer _ r rest w2 Hr2'), H404.
      unfold bind at 1. rewrite (raise_for_status_pass r _ Hs).
      reflexivity. }
    rewrite Erun. split; [reflexivity|].
    exists hs. rewrite (http_answer _ r rest w2 Hr2'). simpl.
    rewrite Hs2, Hs0. reflexivity.
  - assert (Erun : delete_email i w
                   = (Ok ("Message '" ++ i ++ "' deleted."),
                      snd (http (request_ DELETE (BASE_URL ++ "/messages/" ++ i)
                                   None hs) w2))).
    { unfold delete_email. unfold bind at 1. rewrite Hq.
      unfold try_except, delete_email_body.
      unfold bind at 1. rewrite Eh.
      unfold bind at 1. rewrite (http_answer _ r rest w2 Hr2'), H404.
      destruct (status_code r =? 204); [reflexivity|].
      unfold bind at 1. rewrite (raise_for_status_pass r _ Hs).
      reflexivity. }
    rewrite Erun. split; [reflexivity|].
    exists hs. rewrite (http_answer _ r rest w2 Hr2'). simpl.
    rewrite Hs2, Hs0. reflexivity.
Qed.

(** X12.  [delete_account] takes 204 alone for a deletion.  With an active
    session and a file system that does not fail: answered 204, it reports
    the account deleted, naming the address the session had, and leaves
    the three fields absent and no session file; answered with another
    status that is no error status, it returns "Account deletion failed."
    and leaves the three fields and the file as the check found them. *)
Theorem delete_account_by_status (w w0 : world) (r : reply)
    (rest : list http_outcome) :
  no_fault w ->
  _require_session w = (Ok None, w0) ->
  remote w = Answer r :: rest ->
  status_code r < 400 \/ 600 <= status_code r ->
  let w' := snd (run DeleteAccount w) in
  sent w'
  = (sent w
       ++ [request_ DELETE
             (BASE_URL ++ "/accounts/" ++ py_str (account_id (_session w0)))
             None
             [("Authorization",
               ("Bearer " ++ py_str (token (_session w0)))%string)]])%list /\
  if status_code r =? 204 then
    fst (run DeleteAccount w)
    = Ok ("Account '" ++ py_str (address (_session w0))
            ++ "' permanently deleted. Session cleared.") /\
    all_absent (_session w') /\ file w' = None
  else
    fst (run DeleteAccount w) = Ok "Account deletion failed." /\
    token (_session w') = token (_session w0) /\
    account_id (_session w') = account_id (_session w0) /\
    address (_session w') = address (_session w0) /\
    file w' = file w.
Proof.
  intros Hnf Hq Hr Hs.
  destruct (require_session_inv w w0 Hq) as (El & Ht).
  destruct (load_session_no_fault w Hnf)
    as (w0' & El' & Hnf0 & Hf0 & Hr0 & Hs0 & _).
  rewrite El in El'. inversion El'; subst w0'; clear El'.
  destruct (load_session_no_fault w0 Hnf0)
    as (w2 & El2 & Hnf2 & Hf2 & Hr2 & Hs2 & _).
  destruct (load_twice_fields w w0 w2 Hnf El El2) as (Htok & Hid & Hadr).
  assert (Eh : _auth_headers w0
               = (Ok [("Authorization",
                       "Bearer " ++ py_str (token (_session w0)))], w2)).
  { unfold _auth_headers, bind. rewrite El2. unfold get_session.
    rewrite Htok, Ht. reflexivity. }
  assert (Hr2' : remote w2 = Answer r :: rest)
    by (rewrite Hr2, Hr0; exact Hr).
  set (rq := request_ DELETE
               (BASE_URL ++ "/accounts/" ++ py_str (account_id (_session w0)))
               None
               [("Authorization", "Bearer " ++ py_str (token (_session w0)))]).
  set (w3 := {| _session := _session w2; file := file w2; remote := rest;
                sent := sent w2 ++ [rq]; faults := faults w2;
                draws := draws w2 |}).
  assert (Ebody : delete_account w
                  = (if status_code r =? 204
                     then match _clear_session w3 with
                          | (_, w4) =>
                              (Ok (account_deleted_message (address (_session w0))), w4)
                          end
                     else (Ok "Account deletion failed.", w3))).
  { unfold delete_account. unfold bind at 1. rewrite Hq.
    unfold bind at 1, get_session.
    unfold try_except, delete_account_body.
    unfold bind at 1. rewrite Eh.
    unfold bind at 1. fold rq. rewrite (http_answer rq r rest w2 Hr2').
    fold w3.
    destruct (status_code r =? 204) eqn:E204.
    - unfold bind at 1.
      destruct (clear_session_cases w3) as (w4 & -> & _). reflexivity.
    - unfold bind at 1. rewrite (raise_for_status_pass r _ Hs).
      reflexivity. }
  cbv zeta. simpl run. rewrite Ebody.
  destruct (status_code r =? 204).
  - assert (Hnf3 : no_fault w3) by exact Hnf2.
    destruct (clear_session_no_fault w3 Hnf3) as (w4 & -> & Ha & Hf4 & _ & Hs4).
    simpl. split; [rewrite Hs4; simpl; rewrite Hs2, Hs0; reflexivity|].
    auto.
  - simpl. split; [rewrite Hs2, Hs0; reflexivity|].
    split; [reflexivity|]. rewrite Hf2, Hf0. auto.
Qed.

End RemoteChanges.

Lemma message_write_by_status_witness :
  fst (run (text := plain_text) (DeleteEmail "m1")
         (session_then_200 "https://api.mail.tm/messages/m1"))
  = Ok "Message 'm1' deleted.".
Proof.
  apply (message_write_by_status (text := plain_text) (DeleteEmail "m1") "m1"
           (session_then_200 "https://api.mail.tm/messages/m1")
           (session_then_200 "https://api.mail.tm/messages/m1")
           (ok_reply "https://api.mail.tm/messages/m1" JNull) []);
    [right; reflexivity|reflexivity|reflexivity|left; simpl; lia].
Defined.

Lemma delete_account_by_status_witness :
  let w := session_then_200 "https://api.mail.tm/accounts/I" in
  fst (run (text := plain_text) DeleteAccount w)
  = Ok "Account deletion failed." /\
  token (_session (snd (run (text := plain_text) DeleteAccount w))) = JStr "T".
Proof.
  assert (Hnf : no_fault (session_then_200 "https://api.mail.tm/accounts/I"))
    by constructor.
  destruct (delete_account_by_status (text := plain_text)
              (session_then_200 "https://api.mail.tm/accounts/I")
              (session_then_200 "https://api.mail.tm/accounts/I")
              (ok_reply "https://api.mail.tm/accounts/I" JNull) []
              Hnf eq_refl eq_refl (or_introl eq_refl)) as (_ & H1 & H2 & _).
  split; [exact H1|exact H2].
Defined.

(** * An account creation that succeeds *)

Section CreateSucceeds.
Context {text : PyText}.

(** X13.  [create_temp_email] registers, then logs in with the same
    credentials.  Given an address, when the account request and the token
    request are both answered with a status that is no error status and
    with JSON, the second an object holding "token" and "id", the tool
    sends exactly these two POSTs, to /accounts and to /token, both with
    the address and the password it goes on to show (the given password,
    unless that was empty); it reports the creation with the id of the
    token reply, whatever the account reply says, and the session holds
    that token, that id and the address. *)
Theorem create_registers_then_logs_in (a p : string) (r1 r2 : reply)
    (rest : list http_outcome) (j1 : json) (m : list (string * json))
    (tok id : json) (w : world) :
  a <> "" ->
  remote w = Answer r1 :: Answer r2 :: rest ->
  status_code r1 < 400 \/ 600 <= status_code r1 -> payload r1 = inr j1 ->
  status_code r2 < 400 \/ 600 <= status_code r2 -> payload r2 = inr (JObj m) ->
  dict_get m "token" = Some tok -> dict_get m "id" = Some id ->
  exists p',
    (p <> "" -> p' = p) /\
    fst (run (CreateTempEmail a p) w) = Ok (created_message a p' id) /\
    sent (snd (run (CreateTempEmail a p) w))
    = (sent w
         ++ [request_ POST (BASE_URL ++ "/accounts")
               (Some (credentials a p')) [];
             request_ POST (BASE_URL ++ "/token")
               (Some (credentials a p')) []])%list /\
    _session (snd (run (CreateTempEmail a p) w))
    = {| token := tok; account_id := id; address := JStr a;
         extras := extras (_session w) |}.
Proof.
  intros Ha Hr Hs1 Hp1 Hs2 Hp2 Ht Hi.
  destruct (choose_password_frame p w) as (p' & w2 & Ep & Hm2 & _ & Hr2 & Hsent2).
  exists p'. split.
  { intros Hp. rewrite (choose_password_given p w Hp) in Ep.
    inversion Ep. reflexivity. }
  rewrite Hr in Hr2.
  assert (H422 : (status_code r1 =? 422) = false) by (apply Z.eqb_neq; lia).
  assert (E : run (CreateTempEmail a p) w
              = (Ok (created_message a p' id),
                 {| _session := {| token := tok; account_id := id;
                                   address := JStr a;
                                   extras := extras (_session w2) |};
                    file := file_after_save w2
                              {| token := tok; account_id := id;
                                 address := JStr a;
                                 extras := extras (_session w2) |};
                    remote := rest;
                    sent := (sent w2
                       ++ [request_ POST (BASE_URL ++ "/accounts")
                             (Some (credentials a p')) []])
                       ++ [request_ POST (BASE_URL ++ "/token")
                             (Some (credentials a p')) []];
                    faults := faults_after_save w2; draws := draws w2 |})).
  { simpl run. unfold create_temp_email, try_except, create_temp_email_body.
    unfold bind at 1. rewrite (choose_address_given a w Ha).
    unfold bind at 1. rewrite Ep.
    unfold register.
    unfold bind at 1. rewrite (http_answer _ r1 _ w2 Hr2), H422.
    unfold bind at 1. rewrite (raise_for_status_pass r1 _ Hs1).
    unfold bind at 1. rewrite (resp_json_value r1 _ _ Hp1).
    unfold bind at 1. erewrite (http_answer _ r2 rest) by reflexivity.
    unfold bind at 1. rewrite (raise_for_status_pass r2 _ Hs2).
    unfold bind at 1. rewrite (resp_json_value r2 _ _ Hp2).
    unfold bind at 1. rewrite (establish_run m tok id a _ Ht Hi).
    unfold bind at 1, lift. simpl py_item. rewrite Hi. reflexivity. }
  rewrite E. simpl.
  split; [reflexivity|].
  split; [rewrite Hsent2, <- app_assoc; reflexivity|].
  rewrite Hm2. reflexivity.
Qed.

End CreateSucceeds.

Lemma create_registers_then_logs_in_witness :
  fst (run (text := plain_text) (CreateTempEmail "a@b.c" "pw") account_then_token)
  = Ok (created_message (text := plain_text) "a@b.c" "pw" (JStr "I")) /\
  sent (snd (run (text := plain_text) (CreateTempEmail "a@b.c" "pw")
               account_then_token))
  = [request_ POST (BASE_URL ++ "/accounts")
       (Some (credentials "a@b.c" "pw")) [];
     request_ POST (BASE_URL ++ "/token")
       (Some (credentials "a@b.c" "pw")) []].
Proof.
  destruct (create_registers_then_logs_in (text := plain_text) "a@b.c" "pw"
              {| url := "https://api.mail.tm/accounts"; status_code := 201; reason := "Created";
                 payload := inr (JObj [("id", JStr "A")]) |}
              (ok_reply "https://api.mail.tm/token" (JObj [("token", JStr "T"); ("id", JStr "I")])) []
              (JObj [("id", JStr "A")])
              [("token", JStr "T"); ("id", JStr "I")] (JStr "T") (JStr "I")
              account_then_token
              ltac:(discriminate) eq_refl (or_introl eq_refl) eq_refl
              (or_introl eq_refl) eq_refl eq_refl eq_refl)
    as (p' & Hp & H1 & H2 & _).
  rewrite (Hp ltac:(discriminate)) in H1, H2.
  split; [exact H1|exact H2].
Defined.

(** * The domains *)

Section Domains.
Context {text : PyText}.

Lemma traverse_domain_line (items ds : list json) :
  Forall2 lists_domain items ds ->
  traverse domain_line items = Ok (map (fun d => "  - " ++ py_str d) ds).
Proof.
  induction 1 as [|item d items ds (mi & -> & Hd) _ IH]; [reflexivity|].
  cbn [traverse]. unfold domain_line at 1. unfold py_item. rewrite Hd.
  cbn [rbind]. rewrite IH. reflexivity.
Qed.

(** X14.  With no domain on offer nothing is created.  When the reply to
    GET /domains is a JSON object whose "hydra:member" is missing or empty,
    [list_domains] says that no domain is available, and a
    [create_temp_email] without address says so too and stops there: that
    one request sent, no account asked for, no name or password drawn,
    session and file as they were. *)
Theorem no_domains_nothing_created (p : string) (r : reply)
    (rest : list http_outcome) (m : list (string * json)) (w : world) :
  remote w = Answer r :: rest ->
  status_code r < 400 \/ 600 <= status_code r ->
  payload r = inr (JObj m) ->
  truthy (member_or m "hydra:member" (JArr [])) = false ->
  let w' := {| _session := _session w; file := file w; remote := rest;
               sent := sent w ++ [request_ GET (BASE_URL ++ "/domains") None []];
               faults := faults w; draws := draws w |} in
  run ListDomains w = (Ok "No domains available at the moment.", w') /\
  run (CreateTempEmail "" p) w
  = (Ok "No domains available to create an account.", w').
Proof.
  intros Hr Hs Hp Hm. cbv zeta. unfold member_or in Hm. split; simpl run.
  - unfold list_domains, try_except, list_domains_body.
    unfold bind at 1. rewrite (http_answer _ r rest w Hr).
    unfold bind at 1. rewrite (raise_for_status_pass r _ Hs).
    unfold bind at 1. rewrite (resp_json_value r _ _ Hp).
    unfold bind at 1, lift. unfold py_get. cbv beta iota. rewrite Hm. reflexivity.
  - unfold create_temp_email, try_except, create_temp_email_body.
    unfold bind at 1. unfold choose_address.
    change (String.eqb "" "") with true. cbv iota zeta.
    unfold bind at 1. rewrite (http_answer _ r rest w Hr).
    unfold bind at 1. rewrite (raise_for_status_pass r _ Hs).
    unfold bind at 1. rewrite (resp_json_value r _ _ Hp).
    unfold bind at 1, lift. unfold py_get. cbv beta iota. rewrite Hm. reflexivity.
Qed.

(** X15.  [list_domains] lists every domain, in the order of the reply.
    When the reply to GET /domains is a JSON object whose "hydra:member"
    is a non-empty list of objects that each hold a "domain", the tool
    returns "Available domains:" followed by one line "  - <domain>" for
    each of them, in that order. *)
Theorem list_domains_lists_all (r : reply) (rest : list http_outcome)
    (m : list (string * json)) (items ds : list json) (w : world) :
  remote w = Answer r :: rest ->
  status_code r < 400 \/ 600 <= status_code r ->
  payload r = inr (JObj m) ->
  dict_get m "hydra:member" = Some (JArr items) -> items <> [] ->
  Forall2 lists_domain items ds ->
  fst (run ListDomains w)
  = Ok ("Available domains:" ++ nl
          ++ join nl (map (fun d => "  - " ++ py_str d) ds)).
Proof.
  intros Hr Hs Hp Hm Hne Hds. simpl run.
  unfold list_domains, try_except, list_domains_body.
  unfold bind at 1. rewrite (http_answer _ r rest w Hr).
  unfold bind at 1. rewrite (raise_for_status_pass r _ Hs).
  unfold bind at 1. rewrite (resp_json_value r _ _ Hp).
  unfold bind at 1, lift. unfold py_get. cbv beta iota. rewrite Hm.
  destruct items as [|item items]; [contradiction|].
  change (negb (truthy (JArr (item :: items)))) with false.
  unfold py_iter. cbv beta iota.
  unfold bind at 1. rewrite (traverse_domain_line _ ds Hds).
  reflexivity.
Qed.

End Domains.

Lemma no_domains_nothing_created_witness :
  run (text := plain_text) (CreateTempEmail "" "") no_domain_listed
  = (Ok "No domains available to create an account.",
     {| _session := empty_session; file := None; remote := [];
        sent := [request_ GET (BASE_URL ++ "/domains") None []];
        faults := []; draws := [1; 2]%nat |}).
Proof.
  exact (proj2 (no_domains_nothing_created (text := plain_text) ""
                  (ok_reply "https://api.mail.tm/domains" (JObj [("hydra:member", JArr [])])) []
                  [("hydra:member", JArr [])] no_domain_listed
                  eq_refl (or_introl eq_refl) eq_refl eq_refl)).
Defined.

Lemma list_domains_lists_all_witness :
  fst (run (text := plain_text) ListDomains one_domain_listed)
  = Ok ("Available domains:" ++ nl ++ "  - x.io").
Proof.
  apply (list_domains_lists_all (text := plain_text)
           (ok_reply "https://api.mail.tm/domains" (JObj [("hydra:member", JArr [JObj [("domain", JStr "x.io")]])]))
           [] [("hydra:member", JArr [JObj [("domain", JStr "x.io")]])]
           [JObj [("domain", JStr "x.io")]] [JStr "x.io"] one_domain_listed);
    try reflexivity.
  - left. reflexivity.
  - discriminate.
  - constructor; [|constructor].
    exists [("domain", JStr "x.io")]. split; reflexivity.
Defined.

(** * The inbox *)

Section Inbox.
Context {text : PyText}.

(** X16.  An inbox page without messages.  With an active session and a
    file system that does not fail, [get_inbox] asks for the page it is
    given, whatever the number, with a GET of /messages?page=<page>; when
    the reply is a JSON object whose "hydra:member" is missing or empty,
    it returns "Inbox is empty for <address>.", the address being the one
    of the session. *)
Theorem empty_inbox_page (page : Z) (w w0 : world) (r : reply)
    (rest : list http_outcome) (m : list (string * json)) :
  no_fault w ->
  _require_session w = (Ok None, w0) ->
  remote w = Answer r :: rest ->
  status_code r < 400 \/ 600 <= status_code r ->
  payload r = inr (JObj m) ->
  truthy (member_or m "hydra:member" (JArr [])) = false ->
  fst (run (GetInbox page) w)
  = Ok ("Inbox is empty for " ++ py_str (address (_session w0)) ++ ".") /\
  exists hs,
    sent (snd (run (GetInbox page) w))
    = (sent w ++ [request_ GET (BASE_URL ++ "/messages?page=" ++ dec_Z page)
                    None hs])%list.
Proof.
  intros Hnf Hq Hr Hs Hp Hm. unfold member_or in Hm.
  destruct (require_session_inv w w0 Hq) as (El & Ht).
  destruct (load_session_no_fault w Hnf)
    as (w0' & El' & Hnf0 & _ & Hr0 & Hs0 & _).
  rewrite El in El'. inversion El'; subst w0'; clear El'.
  destruct (auth_headers_frame w0) as (hs & w2 & Eh & _ & Hr2 & Hs2).
  destruct (auth_headers_inv w0 w2 hs Eh) as (El2 & _).
  destruct (load_twice_fields w w0 w2 Hnf El El2) as (_ & _ & Hadr).
  assert (Hr2' : remote w2 = Answer r :: rest) by (rewrite Hr2, Hr0; exact Hr).
  set (rq := request_ GET (BASE_URL ++ "/messages?page=" ++ dec_Z page) None hs).
  assert (E : get_inbox page w
              = (Ok ("Inbox is empty for " ++ py_str (address (_session w0)) ++ "."),
                 snd (http rq w2))).
  { unfold get_inbox. unfold bind at 1. rewrite Hq.
    unfold try_except, get_inbox_body.
    unfold bind at 1. rewrite Eh.
    unfold bind at 1. fold rq. rewrite (http_answer rq r rest w2 Hr2').
    unfold bind at 1. rewrite (raise_for_status_pass r _ Hs).
    unfold bind at 1. rewrite (resp_json_value r _ _ Hp).
    unfold bind at 1, lift. unfold py_get. cbv beta iota.
    unfold bind at 1. cbv beta iota.
    unfold bind at 1, get_session. cbv beta iota. rewrite Hm.
    cbn [negb _session]. rewrite Hadr. reflexivity. }
  simpl run. rewrite E. split; [reflexivity|].
  exists hs. rewrite (http_answer rq r rest w2 Hr2'). simpl.
  rewrite Hs2, Hs0. reflexivity.
Qed.

End Inbox.

Lemma empty_inbox_page_witness :
  fst (run (text := plain_text) (GetInbox 0) session_then_empty_page)
  = Ok "Inbox is empty for a@b.c.".
Proof.
  assert (Hnf : no_fault session_then_empty_page) by constructor.
  exact (proj1 (empty_inbox_page (text := plain_text) 0
                  session_then_empty_page session_then_empty_page
                  (ok_reply "https://api.mail.tm/messages?page=0" (JObj [("hydra:member", JArr []);
                                   ("hydra:totalItems", JNum 0)])) []
                  [("hydra:member", JArr []); ("hydra:totalItems", JNum 0)]
                  Hnf eq_refl eq_refl (or_introl eq_refl) eq_refl eq_refl)).
Defined.
